(** * mauth: the MultiAuth WSGI middleware of [mauth/middleware.py]

    A shallow embedding of [MultiAuth.__call__], [MultiAuth.authorize] and
    [MultiAuth.denied_response], together with the Python 2 and swift/webob
    library functions they call, and the properties of the specification
    that were checked against them. *)

From Stdlib Require Import ZArith Lia Ascii String.
From stdpp Require Import gmap strings list.

Local Open Scope string_scope.
Local Open Scope list_scope.
Local Open Scope Z_scope.

(* ===================================================================== *)
(** ** Python 2 [str] operations used by the middleware *)
(* ===================================================================== *)

Module PyStr.

(** Truth value of a [str]: the empty string is false. *)
Definition truthy (s : string) : bool :=
  match s with EmptyString => false | String _ _ => true end.

(** Truth value of [d.get(k)] for a string valued key: [None] and [''] are
    false. *)
Definition truthy_opt (o : option string) : bool :=
  match o with Some s => truthy s | None => false end.

(** [s.startswith(p)] *)
Definition startswith (s p : string) : bool := String.prefix p s.

(** [s[n:]] for [n >= 0]. *)
Fixpoint drop (n : nat) (s : string) : string :=
  match n, s with
  | O, _ => s
  | S _, EmptyString => EmptyString
  | S k, String _ s' => drop k s'
  end.

(** [s.endswith(p)] *)
Definition endswith (s p : string) : bool :=
  (String.length p <=? String.length s)%nat
  && String.eqb (drop (String.length s - String.length p) s) p.

Definition can_split (maxsplit : option nat) : bool :=
  match maxsplit with Some O => false | _ => true end.

Definition one_less (maxsplit : option nat) : option nat :=
  match maxsplit with Some n => Some (Nat.pred n) | None => None end.

(** [s.split(sep)] and [s.split(sep, maxsplit)] for a one character
    separator; [None] is the absent [maxsplit]. *)
Fixpoint split (sep : ascii) (maxsplit : option nat) (s : string)
  : list string :=
  match s with
  | EmptyString => [EmptyString]
  | String c s' =>
      if Ascii.eqb c sep && can_split maxsplit
      then EmptyString :: split sep (one_less maxsplit) s'
      else match split sep maxsplit s' with
           | h :: t => String c h :: t
           | [] => [String c EmptyString]
           end
  end.

(** The cut of [s] at the last occurrence of [sep], if there is one. *)
Fixpoint cut_last (sep : ascii) (s : string) : option (string * string) :=
  match s with
  | EmptyString => None
  | String c s' =>
      match cut_last sep s' with
      | Some (a, b) => Some (String c a, b)
      | None => if Ascii.eqb c sep then Some (EmptyString, s') else None
      end
  end.

(** [s.rsplit(sep, 1)] *)
Definition rsplit1 (sep : ascii) (s : string) : list string :=
  match cut_last sep s with
  | Some (a, b) => [a; b]
  | None => [s]
  end.

(** ['abc'.replace('', new)]: [new] before every character and at the
    end. *)
Fixpoint interleave (new s : string) : string :=
  match s with
  | EmptyString => new
  | String c s' => new +:+ String c (interleave new s')
  end.

Fixpoint replace_go (old new : string) (skip : nat) (s : string) : string :=
  match s with
  | EmptyString => EmptyString
  | String c s' =>
      match skip with
      | S k => replace_go old new k s'
      | O =>
          if String.prefix old s
          then new +:+ replace_go old new (String.length old - 1) s'
          else String c (replace_go old new O s')
      end
  end.

(** [s.replace(old, new)]: every non-overlapping occurrence, from the
    left. *)
Definition replace (s old new : string) : string :=
  match old with
  | EmptyString => interleave new s
  | String _ _ => replace_go old new O s
  end.

(** [sep.join(l)] *)
Fixpoint join (sep : string) (l : list string) : string :=
  match l with
  | [] => EmptyString
  | [x] => x
  | x :: rest => x +:+ sep +:+ join sep rest
  end.

(** [x in l] for a list of strings. *)
Definition mem (x : string) (l : list string) : bool :=
  existsb (String.eqb x) l.

Definition is_space (c : ascii) : bool :=
  let n := Ascii.nat_of_ascii c in
  ((n =? 32) || ((9 <=? n) && (n <=? 13)))%nat.

Fixpoint lstrip (s : string) : string :=
  match s with
  | EmptyString => EmptyString
  | String c s' => if is_space c then lstrip s' else s
  end.

Fixpoint rstrip (s : string) : string :=
  match s with
  | EmptyString => EmptyString
  | String c s' =>
      match rstrip s' with
      | EmptyString => if is_space c then EmptyString else String c EmptyString
      | r => String c r
      end
  end.

(** [s.strip()] *)
Definition strip (s : string) : string := rstrip (lstrip s).

Definition byte_of (c : ascii) : Z := Z.of_N (Ascii.N_of_ascii c).
Definition char_of (z : Z) : ascii := Ascii.ascii_of_N (Z.to_N z).

Fixpoint bytes (s : string) : list Z :=
  match s with
  | EmptyString => []
  | String c s' => byte_of c :: bytes s'
  end.

Fixpoint of_bytes (l : list Z) : string :=
  match l with
  | [] => EmptyString
  | b :: l' => String (char_of b) (of_bytes l')
  end.

End PyStr.

(* ===================================================================== *)
(** ** Python exceptions and results *)
(* ===================================================================== *)

(** The exceptions the modelled code can raise. *)
Inductive PyExn : Type :=
| ValueError
| IndexError
| KeyError
| TypeError
| AttributeError
| UnicodeDecodeError
| UnboundLocalError
| OverflowError.

(** The result of evaluating a Python expression that may raise. *)
Inductive PyResult (A : Type) : Type :=
| Ok (a : A)
| Raised (e : PyExn).
Arguments Ok {A} a.
Arguments Raised {A} e.

(* ===================================================================== *)
(** ** The [base64] module (Python 2.7, over [binascii]) *)
(* ===================================================================== *)

Module Base64.

Definition alphabet : string :=
  "ABCDEFGHIJKLMNOPQRSTUVWXYZabcdefghijklmnopqrstuvwxyz0123456789+/".

Definition enc_char (v : Z) : ascii :=
  match String.get (Z.to_nat v) alphabet with
  | Some c => c
  | None => "="%char
  end.

(** [binascii.b2a_base64] without the trailing newline, on bytes. *)
Fixpoint encode_bytes (l : list Z) : string :=
  match l with
  | [] => EmptyString
  | [a] =>
      String (enc_char (Z.shiftr a 2))
        (String (enc_char (Z.shiftl (Z.land a 3) 4)) "==")
  | [a; b] =>
      String (enc_char (Z.shiftr a 2))
        (String (enc_char (Z.lor (Z.shiftl (Z.land a 3) 4) (Z.shiftr b 4)))
           (String (enc_char (Z.shiftl (Z.land b 15) 2)) "="))
  | a :: b :: c :: rest =>
      String (enc_char (Z.shiftr a 2))
        (String (enc_char (Z.lor (Z.shiftl (Z.land a 3) 4) (Z.shiftr b 4)))
           (String (enc_char (Z.lor (Z.shiftl (Z.land b 15) 2) (Z.shiftr c 6)))
              (String (enc_char (Z.land c 63)) (encode_bytes rest))))
  end.

(** [base64.b64encode(s)] *)
Definition b64encode (s : string) : string := encode_bytes (PyStr.bytes s).

(** [table_a2b_base64]: the six bit value of a character, [Some 0] for the
    pad character, [None] for the entries that are -1. *)
Definition table_a2b (c : ascii) : option Z :=
  let n := PyStr.byte_of c in
  if (65 <=? n) && (n <=? 90) then Some (n - 65)
  else if (97 <=? n) && (n <=? 122) then Some (n - 71)
  else if (48 <=? n) && (n <=? 57) then Some (n + 4)
  else if n =? 43 then Some 62
  else if n =? 47 then Some 63
  else if n =? 61 then Some 0
  else None.

Definition is_valid (c : ascii) : bool :=
  (PyStr.byte_of c <=? 127) && bool_decide (is_Some (table_a2b c)).

(** [binascii_find_valid(s, slen, num)]: the [num+1]-th valid character of
    [s], if there is one. *)
Fixpoint find_valid (s : string) (num : nat) : option ascii :=
  match s with
  | EmptyString => None
  | String c s' =>
      if is_valid c
      then match num with O => Some c | S k => find_valid s' k end
      else find_valid s' num
  end.

Definition skipped (c : ascii) : bool :=
  let n := PyStr.byte_of c in
  (127 <? n) || (n =? 13) || (n =? 10) || (n =? 32).

(** The loop of [binascii.a2b_base64]; [out] is the output so far,
    reversed. The result is the final [leftbits] and the output. *)
Fixpoint a2b_loop (s : string) (quad_pos leftbits leftchar : Z)
    (out : list Z) : Z * list Z :=
  match s with
  | EmptyString => (leftbits, out)
  | String c s' =>
      if skipped c then a2b_loop s' quad_pos leftbits leftchar out
      else if Ascii.eqb c "="
      then
        if (quad_pos <? 2)
           || ((quad_pos =? 2)
               && negb (bool_decide (find_valid s 1 = Some "="%char)))
        then a2b_loop s' quad_pos leftbits leftchar out
        else (0, out)
      else
        match table_a2b c with
        | None => a2b_loop s' quad_pos leftbits leftchar out
        | Some v =>
            let quad_pos := Z.land (quad_pos + 1) 3 in
            let leftchar := Z.lor (Z.shiftl leftchar 6) v in
            let leftbits := leftbits + 6 in
            if 8 <=? leftbits
            then
              let leftbits := leftbits - 8 in
              a2b_loop s' quad_pos leftbits
                (Z.land leftchar (Z.shiftl 1 leftbits - 1))
                (Z.land (Z.shiftr leftchar leftbits) 255 :: out)
            else a2b_loop s' quad_pos leftbits leftchar out
        end
  end.

(** [base64.b64decode(s)]: [binascii.Error] ("Incorrect padding") is
    re-raised as [TypeError]. *)
Definition b64decode (s : string) : PyResult string :=
  let '(leftbits, out) := a2b_loop s 0 0 0 [] in
  if leftbits =? 0 then Ok (PyStr.of_bytes (rev out)) else Raised TypeError.

Definition urlsafe_translate (c : ascii) : ascii :=
  if Ascii.eqb c "-" then "+"%char
  else if Ascii.eqb c "_" then "/"%char
  else c.

Fixpoint translate (f : ascii -> ascii) (s : string) : string :=
  match s with
  | EmptyString => EmptyString
  | String c s' => String (f c) (translate f s')
  end.

(** [base64.urlsafe_b64decode(s)] *)
Definition urlsafe_b64decode (s : string) : PyResult string :=
  b64decode (translate urlsafe_translate s).

End Base64.

(* ===================================================================== *)
(** ** [hashlib.sha1] and [hmac] *)
(* ===================================================================== *)

Module Sha1.

Definition mask32 (x : Z) : Z := Z.land x 4294967295.
Definition add32 (x y : Z) : Z := mask32 (x + y).
Definition rotl (n x : Z) : Z :=
  mask32 (Z.lor (Z.shiftl x n) (Z.shiftr x (32 - n))).
Definition not32 (x : Z) : Z := Z.lxor x 4294967295.

(** Big-endian bytes of [x], [n] of them. *)
Fixpoint be_bytes (n : nat) (x : Z) : list Z :=
  match n with
  | O => []
  | S k => Z.land (Z.shiftr x (8 * Z.of_nat k)) 255 :: be_bytes k x
  end.

(** Message padding: 0x80, zeros up to 56 modulo 64, the bit length on
    eight bytes. *)
Definition pad (msg : list Z) : list Z :=
  let len := Z.of_nat (length msg) in
  let zeros := Z.to_nat ((55 - len) mod 64) in
  msg ++ 128 :: repeat 0 zeros ++ be_bytes 8 (8 * len).

Fixpoint words (l : list Z) : list Z :=
  match l with
  | a :: b :: c :: d :: rest =>
      Z.lor (Z.shiftl a 24) (Z.lor (Z.shiftl b 16) (Z.lor (Z.shiftl c 8) d))
      :: words rest
  | _ => []
  end.

(** The message schedule, most recent word first: [n] more words after
    the ones of [w]. *)
Fixpoint extend (n : nat) (w : list Z) : list Z :=
  match n with
  | O => w
  | S k =>
      let x := Z.lxor (nth 2 w 0)
                 (Z.lxor (nth 7 w 0) (Z.lxor (nth 13 w 0) (nth 15 w 0))) in
      extend k (rotl 1 x :: w)
  end.

Definition schedule (block : list Z) : list Z :=
  rev (extend 64 (rev (words block))).

Definition f_k (i : Z) (b c d : Z) : Z * Z :=
  if i <? 20 then (Z.lor (Z.land b c) (Z.land (not32 b) d), 1518500249)
  else if i <? 40 then (Z.lxor b (Z.lxor c d), 1859775393)
  else if i <? 60
  then (Z.lor (Z.land b c) (Z.lor (Z.land b d) (Z.land c d)), 2400959708)
  else (Z.lxor b (Z.lxor c d), 3395469782).

Definition state : Type := Z * Z * Z * Z * Z.

Fixpoint rounds (w : list Z) (i : Z) (st : state) : state :=
  match w with
  | [] => st
  | wi :: w' =>
      let '(a, b, c, d, e) := st in
      let '(f, k) := f_k i b c d in
      let temp := add32 (add32 (add32 (add32 (rotl 5 a) f) e) k) wi in
      rounds w' (i + 1) (temp, a, rotl 30 b, c, d)
  end.

Definition compress (st : state) (block : list Z) : state :=
  let '(h0, h1, h2, h3, h4) := st in
  let '(a, b, c, d, e) := rounds (schedule block) 0 st in
  (add32 h0 a, add32 h1 b, add32 h2 c, add32 h3 d, add32 h4 e).

Fixpoint blocks (n : nat) (l : list Z) (st : state) : state :=
  match n with
  | O => st
  | S k => blocks k (skipn 64 l) (compress st (firstn 64 l))
  end.

Definition init : state :=
  (1732584193, 4023233417, 2562383102, 271733878, 3285377520).

(** [hashlib.sha1(msg).digest()] on bytes. *)
Definition digest (msg : list Z) : list Z :=
  let p := pad msg in
  let '(h0, h1, h2, h3, h4) := blocks (length p / 64) p init in
  be_bytes 4 h0 ++ be_bytes 4 h1 ++ be_bytes 4 h2 ++ be_bytes 4 h3
    ++ be_bytes 4 h4.

End Sha1.

Module Hmac.

Definition block_size : nat := 64.

(** [hmac.new(key, msg, hashlib.sha1).digest()] on bytes. *)
Definition digest_bytes (key msg : list Z) : list Z :=
  let key := if (block_size <? length key)%nat then Sha1.digest key else key in
  let key := key ++ repeat 0 (block_size - length key) in
  let ipad := map (Z.lxor 54) key in
  let opad := map (Z.lxor 92) key in
  Sha1.digest (opad ++ Sha1.digest (ipad ++ msg)).

Definition digest (key msg : string) : string :=
  PyStr.of_bytes (digest_bytes (PyStr.bytes key) (PyStr.bytes msg)).

End Hmac.

(* ===================================================================== *)
(** ** Data: dicts, the WSGI environ, the memcache contents *)
(* ===================================================================== *)

(** A Python dict over the keys the middleware reads, each present or not.
    Identities are such dicts (['account'], ['roles'], ['token'],
    ['expires'], ['account_url']), and so is the payload cached for an S3
    access key (['secret'], ['identity']). Time stamps are integers. *)
#[local] Unset Elimination Schemes.
Inductive Dict : Type := MkDict {
  d_account : option string;
  d_roles : option (list string);
  d_token : option string;
  d_expires : option Z;
  d_account_url : option string;
  d_secret : option string;
  d_identity : option Dict
}.
#[local] Set Elimination Schemes.

(** The empty dict [{}]. *)
Definition empty_dict : Dict := MkDict None None None None None None None.

(** Truth value of a dict: false when it has no key. *)
Definition dict_truthy (d : Dict) : bool :=
  bool_decide (is_Some (d_account d)) || bool_decide (is_Some (d_roles d))
  || bool_decide (is_Some (d_token d)) || bool_decide (is_Some (d_expires d))
  || bool_decide (is_Some (d_account_url d))
  || bool_decide (is_Some (d_secret d))
  || match d_identity d with Some _ => true | None => false end.

(** Truth value of a variable holding [None] or a dict. *)
Definition identity_truthy (o : option Dict) : bool :=
  match o with Some d => dict_truthy d | None => false end.

(** The two callables [__call__] stores under ['swift.authorize']. *)
Inductive Hook : Type :=
| HookAuthorize   (* self.authorize *)
| HookDenied.     (* self.denied_response *)

(** The WSGI environ. Its [str] valued entries (CGI variables, [HTTP_]
    headers, [REMOTE_USER], [swift_sync_key]) are a map by key; the entries
    that hold other objects have a field each, [None] when the key is
    absent. *)
Record Env : Type := MkEnv {
  vars : gmap string string;
  swift_authorize : option Hook;       (* env['swift.authorize'] *)
  swift_clean_acl : bool;              (* env['swift.clean_acl'] is set *)
  mauth_identity : option Dict;        (* env['mauth.identity'] *)
  swift_owner : option bool            (* env['swift_owner'] *)
}.

Definition set_var (k v : string) (env : Env) : Env :=
  MkEnv (<[k := v]> (vars env)) (swift_authorize env) (swift_clean_acl env)
    (mauth_identity env) (swift_owner env).

Definition set_authorize (h : Hook) (env : Env) : Env :=
  MkEnv (vars env) (Some h) (swift_clean_acl env) (mauth_identity env)
    (swift_owner env).

Definition set_clean_acl (env : Env) : Env :=
  MkEnv (vars env) (swift_authorize env) true (mauth_identity env)
    (swift_owner env).

Definition set_identity (d : Dict) (env : Env) : Env :=
  MkEnv (vars env) (swift_authorize env) (swift_clean_acl env) (Some d)
    (swift_owner env).

Definition set_owner (b : bool) (env : Env) : Env :=
  MkEnv (vars env) (swift_authorize env) (swift_clean_acl env)
    (mauth_identity env) (Some b).

(** What memcache holds under a key: the tuple [(expires, data)]. *)
Abbreviation CacheEntry := (Z * Dict)%type.

(** [cache_from_env(env)]: the memcache client, with the entries it would
    return at this moment. *)
Record Memcache : Type := MkMemcache {
  entries : gmap string CacheEntry
}.

(** [memcache_client.get(key)] *)
Definition memcache_get (mc : Memcache) (key : string) : option CacheEntry :=
  entries mc !! key.

(* ===================================================================== *)
(** ** [swift.common.utils] and [swift.common.middleware.acl] *)
(* ===================================================================== *)

Module Swift.

(** [split_path(path, minsegs, maxsegs, rest_with_last=True)] for
    [0 < minsegs <= maxsegs], as in the two calls of the middleware: the
    [maxsegs] segments, [None] for the missing ones, or [ValueError]. *)
Definition split_path (path : string) (minsegs maxsegs : nat)
  : PyResult (list (option string)) :=
  let segs := PyStr.split "/" (Some maxsegs) path in
  let minsegs := S minsegs in
  let maxsegs' := S maxsegs in
  let count := length segs in
  if PyStr.truthy (hd EmptyString segs)
     || (count <? minsegs)%nat || (maxsegs' <? count)%nat
     || PyStr.mem EmptyString (firstn (minsegs - 1) (skipn 1 segs))
  then Raised ValueError
  else
    let segs := firstn (maxsegs' - 1) (skipn 1 segs) in
    Ok (map Some segs ++ repeat None (maxsegs' - 1 - length segs)).

(** The loop body of [parse_acl]. *)
Fixpoint parse_acl_values (values : list string)
  : list string * list string :=
  match values with
  | [] => ([], [])
  | value :: rest =>
      let '(referrers, groups) := parse_acl_values rest in
      if PyStr.startswith value ".r:"
      then (PyStr.drop 3 value :: referrers, groups)
      else (referrers, value :: groups)
  end.

(** [parse_acl(acl_string)]: [(referrers, groups)]. *)
Definition parse_acl (acl_string : option string)
  : list string * list string :=
  if PyStr.truthy_opt acl_string
  then parse_acl_values (PyStr.split "," None (default EmptyString acl_string))
  else ([], []).

(** [mhost[0] == c], which raises [IndexError] on the empty string. *)
Definition first_is (c : ascii) (mhost : string) : PyResult bool :=
  match mhost with
  | EmptyString => Raised IndexError
  | String c0 _ => Ok (Ascii.eqb c0 c)
  end.

(** [mhost == rhost or (mhost[0] == '.' and rhost.endswith(mhost))] *)
Definition host_matches (mhost rhost : string) : PyResult bool :=
  if String.eqb mhost rhost then Ok true
  else match first_is "." mhost with
       | Raised e => Raised e
       | Ok dot => Ok (dot && PyStr.endswith rhost mhost)
       end.

(** The loop of [referrer_allowed] over [referrer_acl]. *)
Fixpoint referrer_loop (rhost : string) (acl : list string) (allow : bool)
  : PyResult bool :=
  match acl with
  | [] => Ok allow
  | mhost :: rest =>
      match first_is "-" mhost with
      | Raised e => Raised e
      | Ok true =>
          match host_matches (PyStr.drop 1 mhost) rhost with
          | Raised e => Raised e
          | Ok m => referrer_loop rhost rest (if m then false else allow)
          end
      | Ok false =>
          if String.eqb mhost "*" then referrer_loop rhost rest true
          else match host_matches mhost rhost with
               | Raised e => Raised e
               | Ok m => referrer_loop rhost rest (if m then true else allow)
               end
      end
  end.

(** [referrer_allowed(referrer, referrer_acl)]. [hostname] is what
    [urlparse(referrer or '').hostname] evaluates to; parsing the URL is
    not part of the model. *)
Definition referrer_allowed (hostname : option string)
    (referrer_acl : list string) : PyResult bool :=
  match referrer_acl with
  | [] => Ok false
  | _ =>
      let rhost := if PyStr.truthy_opt hostname
                   then default EmptyString hostname else "unknown" in
      referrer_loop rhost referrer_acl false
  end.

End Swift.

(* ===================================================================== *)
(** ** The [webob] request *)
(* ===================================================================== *)

(** A [webob.Request]. [path] is [req.path] (webob builds it from
    [SCRIPT_NAME] and [PATH_INFO]), [acl] the attribute the proxy server
    sets ([getattr(req, 'acl', None)]) and [referer_hostname] the host name
    [urlparse] finds in [req.referer]. The other attributes read by the
    middleware are views of [environ]. *)
Record Request : Type := MkRequest {
  environ : Env;
  path : string;
  acl : option string;
  referer_hostname : option string
}.

(** [env.get(k, None)] on a [str] valued key. *)
Definition env_get (env : Env) (k : string) : option string := vars env !! k.

(** [req.remote_user] *)
Definition remote_user (req : Request) : option string :=
  env_get (environ req) "REMOTE_USER".

(** [req.remote_addr] *)
Definition remote_addr (req : Request) : option string :=
  env_get (environ req) "REMOTE_ADDR".

(** [swift.common.utils.get_remote_client(req)] *)
Definition get_remote_client (req : Request) : option string :=
  let client := env_get (environ req) "HTTP_X_CLUSTER_CLIENT_IP" in
  let client :=
    if negb (PyStr.truthy_opt client)
    then match env_get (environ req) "HTTP_X_FORWARDED_FOR" with
         | Some xff =>
             Some (PyStr.strip (hd EmptyString (PyStr.split "," None xff)))
         | None => client
         end
    else client in
  if negb (PyStr.truthy_opt client) then remote_addr req else client.

(** [x in hosts] where [x] may be [None]. *)
Definition opt_mem (x : option string) (hosts : list string) : bool :=
  match x with Some s => PyStr.mem s hosts | None => false end.

(* ===================================================================== *)
(** ** The [MultiAuth] object *)
(* ===================================================================== *)

(** [self]: the attributes set by [__init__] and the three interface
    methods, which a subclass (the auth extension) overrides. A method takes
    what [__call__] passes it (nothing for the first two, which therefore
    see neither the environ nor the locals of the call) and gives what it
    returns ([None] or a dict), unless it raises. *)
Record MultiAuth : Type := MkMultiAuth {
  reseller_prefix : string;
  cache_timeout : Z;
  storage_url : string;
  allowed_sync_hosts : list string;
  get_s3_identity : PyResult (option Dict);   (* self.get_s3_identity() *)
  get_identity : PyResult (option Dict);      (* self.get_identity() *)
  validate_token : option string -> PyResult (option Dict)
                                              (* self.validate_token(token) *)
}.

(** The responses [authorize] and [denied_response] build. *)
Inductive HTTPError : Type :=
| HTTPNotFound        (* 404 *)
| HTTPForbidden       (* 403 *)
| HTTPUnauthorized.   (* 401 *)

Definition status_code (r : HTTPError) : Z :=
  match r with
  | HTTPNotFound => 404
  | HTTPForbidden => 403
  | HTTPUnauthorized => 401
  end.

(** What a ['swift.authorize'] callable returns: [None] to let the request
    through, or the response that denies it. *)
Inductive Decision : Type :=
| Allow
| Deny (resp : HTTPError).

(** [MultiAuth.denied_response(req)] *)
Definition denied_response (req : Request) : HTTPError :=
  if PyStr.truthy_opt (remote_user req) then HTTPForbidden
  else HTTPUnauthorized.

(** The container sync test of [authorize]. *)
Definition container_sync_allowed (self : MultiAuth) (req : Request) : bool :=
  let env := environ req in
  PyStr.truthy_opt (env_get env "swift_sync_key")
  && bool_decide (env_get env "swift_sync_key"
                  = env_get env "HTTP_X_CONTAINER_SYNC_KEY")
  && bool_decide (is_Some (env_get env "HTTP_X_TIMESTAMP"))
  && (opt_mem (remote_addr req) (allowed_sync_hosts self)
      || opt_mem (get_remote_client req) (allowed_sync_hosts self)).

(** The loop [for role in user_roles: if role in groups: return None]. *)
Definition role_in_groups (user_roles groups : list string) : bool :=
  existsb (fun role => PyStr.mem role groups) user_roles.

(** The account with the reseller prefix removed:
    [_account[len(self.reseller_prefix)+1:]], or [_account] when the prefix
    is empty. *)
Definition strip_prefix (self : MultiAuth) (_account : string) : string :=
  if PyStr.truthy (reseller_prefix self)
  then PyStr.drop (String.length (reseller_prefix self) + 1) _account
  else _account.

(** [MultiAuth.authorize(req)]: the decision and [req.environ] as the call
    leaves it. *)
Definition authorize (self : MultiAuth) (req : Request)
  : PyResult (Decision * Env) :=
  let env := environ req in
  let identity := default empty_dict (mauth_identity env) in
  match Swift.split_path (path req) 1 4 with
  | Raised ValueError => Ok (Deny HTTPNotFound, env)
  | Raised e => Raised e
  | Ok [version; _account; container; obj] =>
      if negb (PyStr.truthy_opt _account)
         || negb (PyStr.startswith (default EmptyString _account)
                    (reseller_prefix self))
      then Ok (Deny (denied_response req), env)
      else
        let account := strip_prefix self (default EmptyString _account) in
        let user_roles := default [] (d_roles identity) in
        if bool_decide (Some account = d_account identity)
        then Ok (Allow, set_owner true env)
        else if container_sync_allowed self req
        then Ok (Allow, env)
        else
          let '(referrers, groups) := Swift.parse_acl (acl req) in
          match Swift.referrer_allowed (referer_hostname req) referrers with
          | Raised e => Raised e
          | Ok true =>
              if PyStr.truthy_opt obj || PyStr.mem ".rlistings" groups
              then Ok (Allow, env)
              else Ok (Deny (denied_response req), env)
          | Ok false =>
              if role_in_groups user_roles groups
              then Ok (Allow, env)
              else Ok (Deny (denied_response req), env)
          end
  | Ok _ => Raised ValueError
  end.

(** Calling what [__call__] left under ['swift.authorize']. *)
Definition run_hook (self : MultiAuth) (h : Hook) (req : Request)
  : PyResult (Decision * Env) :=
  match h with
  | HookAuthorize => authorize self req
  | HookDenied => Ok (Deny (denied_response req), environ req)
  end.

(* ===================================================================== *)
(** ** [MultiAuth.__call__] *)
(* ===================================================================== *)

(** What a call does outside its environ: the calls of the interface
    methods and the writes to memcache, in order. *)
Inductive Event : Type :=
| CallGetS3Identity
| CallGetIdentity
| CallValidateToken (token : option string)
| CacheSet (key : string) (value : CacheEntry) (timeout : Z).

(** The headers of the response to a token request; [None] is the Python
    value [None]. *)
Record Response : Type := MkResponse {
  x_auth_token : option string;
  x_storage_token : option string;
  x_storage_url : option string
}.

(** The three [return] statements of [__call__]. *)
Inductive Reply : Type :=
| ToApp                        (* return self.app(env, start_response) *)
| Direct (resp : Response)     (* return req.response(env, start_response) *)
| PathNotFound.                (* return HTTPNotFound(request=req) *)

(** State threaded through a call: the environ, which the call updates in
    place, and the events so far. *)
Record St : Type := MkSt {
  st_env : Env;
  st_trace : list Event
}.

(** A statement either goes on with a value, leaves the function with a
    [return], or raises. *)
Inductive Step (A : Type) : Type :=
| Next (a : A)
| Return (r : Reply)
| Raise (e : PyExn).
Arguments Next {A} a.
Arguments Return {A} r.
Arguments Raise {A} e.

Definition M (A : Type) : Type := St -> Step A * St.

Definition ret {A} (a : A) : M A := fun s => (Next a, s).

Definition bind {A B} (m : M A) (f : A -> M B) : M B :=
  fun s =>
    match m s with
    | (Next a, s') => f a s'
    | (Return r, s') => (Return r, s')
    | (Raise e, s') => (Raise e, s')
    end.

Notation "'do' x <- m ; k" := (bind m (fun x => k))
  (at level 10, x name, m at level 100, k at level 200, only parsing).

Definition return_ {A} (r : Reply) : M A := fun s => (Return r, s).
Definition raise {A} (e : PyExn) : M A := fun s => (Raise e, s).

Definition lift {A} (r : PyResult A) : M A :=
  match r with Ok a => ret a | Raised e => raise e end.

Definition get_env : M Env := fun s => (Next (st_env s), s).

Definition update_env (f : Env -> Env) : M unit :=
  fun s => (Next tt, MkSt (f (st_env s)) (st_trace s)).

Definition emit (ev : Event) : M unit :=
  fun s => (Next tt, MkSt (st_env s) (st_trace s ++ [ev])).

(** A local variable that some paths leave unassigned. *)
Inductive Local (A : Type) : Type :=
| Unbound
| Bound (a : A).
Arguments Unbound {A}.
Arguments Bound {A} a.

Definition read_local {A} (v : Local A) : M A :=
  match v with Bound a => ret a | Unbound => raise UnboundLocalError end.

(** [l[1]] *)
Definition index1 (l : list string) : PyResult string :=
  match l with _ :: x :: _ => Ok x | _ => Raised IndexError end.

(** [a, b = l] *)
Definition unpack2 (l : list string) : PyResult (string * string) :=
  match l with [a; b] => Ok (a, b) | _ => Raised ValueError end.

(** [s.split(' ')[1].rsplit(':', 1)[:]] unpacked into
    [s3_apikey, s3_signature]. *)
Definition s3_credentials (s3 : string) : PyResult (string * string) :=
  match index1 (PyStr.split " " None s3) with
  | Ok cred => unpack2 (PyStr.rsplit1 ":" cred)
  | Raised e => Raised e
  end.

(** ['%s' % v] for [None] or a [str]. *)
Definition py_str (v : option string) : string :=
  match v with Some s => s | None => "None" end.

(** [env[k]] *)
Definition env_item (env : Env) (k : string) : PyResult string :=
  match env_get env k with Some v => Ok v | None => Raised KeyError end.

(** [d[k]] *)
Definition item {A} (o : option A) : PyResult A :=
  match o with Some v => Ok v | None => Raised KeyError end.

(** [s.encode("utf-8")] on a [str]: Python 2 first decodes it as ASCII. *)
Definition encode_utf8 (s : string) : PyResult string :=
  if forallb (fun b => b <? 128) (PyStr.bytes s) then Ok s
  else Raised UnicodeDecodeError.

(** [base64.urlsafe_b64decode(env.get('HTTP_X_AUTH_TOKEN', '')).encode("utf-8")] *)
Definition s3_token_of (env : Env) : PyResult string :=
  match Base64.urlsafe_b64decode
          (default EmptyString (env_get env "HTTP_X_AUTH_TOKEN")) with
  | Ok raw => encode_utf8 raw
  | Raised e => Raised e
  end.

(** [base64.b64encode(hmac.new(secret, msg, hashlib.sha1).digest())] *)
Definition sign (secret msg : string) : string :=
  Base64.b64encode (Hmac.digest secret msg).

(** The check of an S3 request against the cached secret: the decoding of
    the challenge token and the comparison of the signatures. *)
Definition s3_signature_matches (data : Dict) (env : Env)
    (s3_signature : string) : PyResult bool :=
  match s3_token_of env with
  | Ok s3_token =>
      Ok (String.eqb s3_signature
            (sign (default EmptyString (d_secret data)) s3_token))
  | Raised e => Raised e
  end.

(** [env.get('HTTP_X_AUTH_TTL', 1) > 0]. A header value is a [str], and
    Python 2 orders every [str] above every [int]. *)
Definition ttl_positive (env : Env) : bool :=
  match env_get env "HTTP_X_AUTH_TTL" with
  | Some _ => true
  | None => 0 <? 1
  end.

(** [env.get('HTTP_X_AUTH_TOKEN', env.get('HTTP_X_STORAGE_TOKEN', None))] *)
Definition token_header (env : Env) : option string :=
  match env_get env "HTTP_X_AUTH_TOKEN" with
  | Some v => Some v
  | None => env_get env "HTTP_X_STORAGE_TOKEN"
  end.

(** [datetime.fromtimestamp(timestamp)] for an integer, of which the call
    keeps nothing but the exceptions: [OverflowError] for an integer too
    large for a C double, [ValueError] for one whose date is outside the
    years 1 to 9999, which is all a [datetime] holds. The bounds are those
    of a platform with a 64 bit [time_t] and UTC as local time. *)
Definition fromtimestamp (timestamp : Z) : PyResult unit :=
  if 2 ^ 1024 - 2 ^ 970 <=? Z.abs timestamp then Raised OverflowError
  else if (-62135596800 <=? timestamp) && (timestamp <=? 253402300799)
  then Ok tt
  else Raised ValueError.

(** The path an S3 request is mapped to. *)
Definition s3_account_path (self : MultiAuth) (path_info s3_apikey : string)
    (identity : Dict) : string :=
  let account := default EmptyString (d_account identity) in
  if PyStr.truthy (reseller_prefix self)
  then PyStr.replace path_info s3_apikey
         (reseller_prefix self +:+ "_" +:+ account)
  else PyStr.replace path_info s3_apikey account.

Section Call.

Variable self : MultiAuth.
(** [cache_from_env(env)], which is [None] without a cache middleware. *)
Variable memcache_client : option Memcache.
(** [time()]: the clock, which a call reads as one value. *)
Variable now : Z.

(** [memcache_client.get(key)] *)
Definition client_get (key : PyResult string) : M (option CacheEntry) :=
  match memcache_client with
  | None => raise AttributeError
  | Some mc => do k <- lift key; ret (memcache_get mc k)
  end.

(** [if memcache_result and self.cache_timeout > 0: ... if expires > time()]:
    the data of a usable entry. *)
Definition fresh_entry (memcache_result : option CacheEntry) : option Dict :=
  match memcache_result with
  | Some (expires, data) =>
      if (0 <? cache_timeout self) && (now <? expires) then Some data
      else None
  | None => None
  end.

Definition deny_downstream {A} : M A :=
  do _ <- update_env (set_authorize HookDenied);
  return_ ToApp.

(** Lines 131-162: the S3 request. Gives the locals [identity] and
    [token]. What [get_s3_identity] returns is not kept. *)
Definition s3_request : M (option Dict * Local (option string)) :=
  do env <- get_env;
  let s3 := env_get env "HTTP_AUTHORIZATION" in
  if PyStr.truthy_opt s3 && PyStr.startswith (default EmptyString s3) "AWS"
  then
    do pair <- lift (s3_credentials (default EmptyString s3));
    let '(s3_apikey, s3_signature) := pair in
    if PyStr.truthy s3_apikey && PyStr.truthy s3_signature
    then
      do memcache_result <- client_get (Ok ("mauth_s3_apikey/" +:+ s3_apikey));
      match fresh_entry memcache_result with
      | Some data =>
          do ok <- lift (s3_signature_matches data env s3_signature);
          if ok
          then
            match d_identity data with
            | None => raise AttributeError
            | Some d =>
                let identity := d in
                let token := d_token identity in
                do path_info <- lift (env_item env "PATH_INFO");
                do _ <- update_env
                  (set_var "PATH_INFO"
                     (s3_account_path self path_info s3_apikey identity));
                ret (Some identity, Bound token)
            end
          else ret (None, Unbound)
      | None =>
          do _ <- emit CallGetS3Identity;
          do _ <- lift (get_s3_identity self);
          ret (None, Unbound)
      end
    else deny_downstream
  else ret (None, Unbound).

(** Lines 165-203: the request for a token, for a request without
    [Authorization] header. What [get_identity] returns is not kept. *)
Definition auth_request (identity : option Dict)
    (token : Local (option string))
  : M (option Dict * Local (option string)) :=
  do env <- get_env;
  if negb (PyStr.truthy_opt (env_get env "HTTP_AUTHORIZATION"))
  then
    do path_info <- lift (env_item env "PATH_INFO");
    match Swift.split_path path_info 1 2 with
    | Raised ValueError => return_ PathNotFound
    | Raised e => raise e
    | Ok [auth_url_piece; rest_of_url] =>
        if PyStr.mem (default EmptyString auth_url_piece) ["auth"; "v1.0"]
        then
          let auth_user := env_get env "HTTP_X_AUTH_USER" in
          let auth_key := env_get env "HTTP_X_AUTH_KEY" in
          if PyStr.truthy_opt auth_user && PyStr.truthy_opt auth_key
          then
            do memcache_result <-
              client_get (Ok ("mauth_creds/" +:+ default EmptyString auth_user
                              +:+ "/" +:+ default EmptyString auth_key));
            match (if ttl_positive env then fresh_entry memcache_result
                   else None) with
            | Some data =>
                let identity := data in
                let token := d_token identity in
                return_ (Direct (MkResponse token token
                                   (d_account_url identity)))
            | None =>
                do _ <- emit CallGetIdentity;
                do _ <- lift (get_identity self);
                ret (identity, token)
            end
          else deny_downstream
        else ret (identity, Bound (token_header env))
    | Ok _ => raise ValueError
    end
  else ret (identity, token).

(** Lines 215-221: the identity cached for the token, when there is no
    identity yet. *)
Definition cached_identity (identity : option Dict)
    (token : Local (option string)) : M (option Dict) :=
  if negb (identity_truthy identity)
  then
    do memcache_result <-
      client_get (match token with
                  | Bound t => Ok ("mauth_token/" +:+ py_str t)
                  | Unbound => Raised UnboundLocalError
                  end);
    match fresh_entry memcache_result with
    | Some _identity => ret (Some _identity)
    | None => ret identity
    end
  else ret identity.

(** Lines 223-234: the token validated by the extension, when there is
    still no identity. Line 229 renders [expires] as a date for the logger;
    the date is not used, but making it may raise. *)
Definition validated_identity (identity : option Dict)
    (token : Local (option string)) : M (option Dict) :=
  if negb (identity_truthy identity)
  then
    do t <- read_local token;
    do _ <- emit (CallValidateToken t);
    do identity <- lift (validate_token self t);
    match identity, memcache_client with
    | Some d, Some _ =>
        if dict_truthy d
        then
          do expires <- lift (item (d_expires d));
          do _ <- emit (CacheSet ("mauth_token/" +:+ py_str t)
                          (expires, d) (expires - now));
          do _ <- lift (fromtimestamp expires);   (* ts = str(...) *)
          ret identity
        else deny_downstream
    | _, _ => deny_downstream
    end
  else ret identity.

(** Lines 236-245: the identity put in the environ. *)
Definition install_identity (identity : option Dict) : M Empty_set :=
  match identity with
  | Some d =>
      if dict_truthy d
      then
        do _ <- update_env (set_identity d);
        do roles <- lift (item (d_roles d));
        do _ <- update_env (set_var "REMOTE_USER" (PyStr.join ":" roles));
        do _ <- update_env (set_authorize HookAuthorize);
        do _ <- update_env set_clean_acl;
        return_ ToApp
      else deny_downstream
  | None => deny_downstream
  end.

(** Lines 205-245: the anonymous request, then the token. The calls of
    the logger are left out. *)
Definition token_request (identity : option Dict)
    (token : Local (option string)) : M Empty_set :=
  do env <- get_env;
  if negb (identity_truthy identity)
     && negb (PyStr.truthy_opt (token_header env))
  then
    do _ <- update_env (set_authorize HookAuthorize);
    do _ <- update_env set_clean_acl;
    return_ ToApp
  else
    do identity <- cached_identity identity token;
    do identity <- validated_identity identity token;
    install_identity identity.

(** The body of [__call__]. It ends with a [return] on every path, which
    its type records: there is no value to go on with. *)
Definition call_body : M Empty_set :=
  do locals <- s3_request;
  do locals <- auth_request (fst locals) (snd locals);
  token_request (fst locals) (snd locals).

End Call.

(** How a call ends. *)
Inductive Outcome : Type :=
| Forwarded (env : Env)          (* the downstream app runs, on this environ *)
| Responded (resp : Response)    (* the token response, not the app *)
| NotFound                       (* a 404 for a path that does not split *)
| Failed (e : PyExn).            (* the exception leaves the middleware *)

(** [MultiAuth.__call__(env, start_response)]: the outcome and the events of
    the call. *)
Definition call (self : MultiAuth) (memcache_client : option Memcache)
    (now : Z) (env : Env) : Outcome * list Event :=
  match call_body self memcache_client now (MkSt env []) with
  | (Return ToApp, s) => (Forwarded (st_env s), st_trace s)
  | (Return (Direct resp), s) => (Responded resp, st_trace s)
  | (Return PathNotFound, s) => (NotFound, st_trace s)
  | (Raise e, s) => (Failed e, st_trace s)
  | (Next v, _) => match v with end
  end.

(* ===================================================================== *)
(** ** Notions used to state the properties *)
(* ===================================================================== *)

(** The ownership rule of [authorize] applies to [req]: its path splits, the
    account segment is not empty and starts with the reseller prefix, and
    what is left of it without the prefix is the account of the identity in
    the environ. *)
Definition owns (self : MultiAuth) (req : Request) : Prop :=
  exists version _account container obj,
    Swift.split_path (path req) 1 4
      = Ok [version; Some _account; container; obj]
    /\ PyStr.truthy _account = true
    /\ PyStr.startswith _account (reseller_prefix self) = true
    /\ d_account (default empty_dict (mauth_identity (environ req)))
       = Some (strip_prefix self _account).

(** [authorize] gets as far as the referrer rule: the path splits, the
    account passes the reseller prefix test, and neither the ownership rule
    nor container sync let the request in. *)
Definition reaches_acl (self : MultiAuth) (req : Request)
    (obj : option string) : Prop :=
  exists version _account container,
    Swift.split_path (path req) 1 4
      = Ok [version; Some _account; container; obj]
    /\ PyStr.truthy _account = true
    /\ PyStr.startswith _account (reseller_prefix self) = true
    /\ d_account (default empty_dict (mauth_identity (environ req)))
       <> Some (strip_prefix self _account)
    /\ container_sync_allowed self req = false.

(** The path of [req] has an account segment: it splits and the second
    segment is there and not empty. *)
Definition path_has_account (req : Request) : bool :=
  match Swift.split_path (path req) 1 4 with
  | Ok (_ :: _account :: _) => PyStr.truthy_opt _account
  | _ => false
  end.

(** An S3 request with access key [k] and signature [sig]: the
    [Authorization] header starts with [AWS] and splits into two non-empty
    parts. *)
Definition is_s3_request (env : Env) (k sig : string) : Prop :=
  exists s3,
    env_get env "HTTP_AUTHORIZATION" = Some s3
    /\ PyStr.startswith s3 "AWS" = true
    /\ s3_credentials s3 = Ok (k, sig)
    /\ PyStr.truthy k = true
    /\ PyStr.truthy sig = true.

(** The path of a request without [Authorization] header splits, with
    leading segment [piece]. *)
Definition leading_segment (env : Env) (piece : string) : Prop :=
  PyStr.truthy_opt (env_get env "HTTP_AUTHORIZATION") = false
  /\ exists path_info rest,
       env_get env "PATH_INFO" = Some path_info
       /\ Swift.split_path path_info 1 2 = Ok [Some piece; rest].

(** A request for a token: no [Authorization] header, a leading segment
    [auth] or [v1.0], and [X-Auth-User] and [X-Auth-Key], not empty. *)
Definition is_auth_request (env : Env) (auth_user auth_key : string) : Prop :=
  (exists piece,
      leading_segment env piece /\ PyStr.mem piece ["auth"; "v1.0"] = true)
  /\ env_get env "HTTP_X_AUTH_USER" = Some auth_user
  /\ PyStr.truthy auth_user = true
  /\ env_get env "HTTP_X_AUTH_KEY" = Some auth_key
  /\ PyStr.truthy auth_key = true.

(** A request with a token, on another path than the two that give out
    tokens. *)
Definition is_token_request (env : Env) (token : string) : Prop :=
  (exists piece,
      leading_segment env piece /\ PyStr.mem piece ["auth"; "v1.0"] = false)
  /\ token_header env = Some token
  /\ PyStr.truthy token = true.

(** A request that [__call__] passes on as anonymous: no token, and either
    an [Authorization] header that is not an S3 one, or no such header and a
    path whose leading segment is neither [auth] nor [v1.0]. *)
Definition is_anonymous_request (env : Env) : Prop :=
  PyStr.truthy_opt (token_header env) = false
  /\ ((exists s3,
         env_get env "HTTP_AUTHORIZATION" = Some s3
         /\ PyStr.truthy s3 = true
         /\ PyStr.startswith s3 "AWS" = false)
      \/ (exists piece,
            leading_segment env piece
            /\ PyStr.mem piece ["auth"; "v1.0"] = false)).

(** A usable entry of memcache: present, and not expired at [now]. *)
Definition cached_fresh (memcache_client : option Memcache) (now : Z)
    (key : string) (data : Dict) : Prop :=
  exists mc expires,
    memcache_client = Some mc
    /\ entries mc !! key = Some (expires, data)
    /\ now < expires.

(** Where an identity may come from: what [validate_token] returned in this
    call, or the data of a usable entry of memcache (the entry itself, or
    its ['identity'] for an S3 access key). *)
Inductive Provenance (self : MultiAuth) (memcache_client : option Memcache)
    (now : Z) (trace : list Event) (d : Dict) : Prop :=
| FromProvider (t : option string) :
    In (CallValidateToken t) trace ->
    validate_token self t = Ok (Some d) ->
    Provenance self memcache_client now trace d
| FromCache (key : string) (data : Dict) :
    cached_fresh memcache_client now key data ->
    data = d \/ d_identity data = Some d ->
    Provenance self memcache_client now trace d.

(** The identity a call puts in the environ of the downstream app. *)
Definition outcome_identity (o : Outcome) : option Dict :=
  match o with
  | Forwarded env => mauth_identity env
  | _ => None
  end.

(** A call that ends with [o] has added no identity to the environ it got
    and has not answered with a token. *)
Definition adds_no_identity (env : Env) (o : Outcome) : Prop :=
  match o with
  | Forwarded env' => mauth_identity env' = mauth_identity env
  | Responded _ => False
  | _ => True
  end.

(** The environ of an anonymous request, as passed on. *)
Definition anonymous (env : Env) : Env :=
  set_clean_acl (set_authorize HookAuthorize env).

(** What a request without identity and with the local [token] unassigned
    comes to. *)
Definition without_token (env : Env) : Outcome :=
  if PyStr.truthy_opt (token_header env) then Failed UnboundLocalError
  else Forwarded (anonymous env).

(** The environ with the identity [d] in it. *)
Definition installed (d : Dict) (roles : list string) (env : Env) : Env :=
  set_clean_acl
    (set_authorize HookAuthorize
       (set_var "REMOTE_USER" (PyStr.join ":" roles) (set_identity d env))).

(** What a request with a token comes to when memcache has no usable entry
    for the token: the extension decides. *)
Definition validated (self : MultiAuth) (now : Z) (tok : string) (env : Env)
  : Outcome * list Event :=
  let ev := CallValidateToken (Some tok) in
  match validate_token self (Some tok) with
  | Raised e => (Failed e, [ev])
  | Ok (Some d) =>
      if dict_truthy d
      then
        match d_expires d with
        | None => (Failed KeyError, [ev])
        | Some expires =>
            (match fromtimestamp expires with
             | Raised e => Failed e
             | Ok _ =>
                 match d_roles d with
                 | Some roles => Forwarded (installed d roles env)
                 | None => Failed KeyError
                 end
             end,
             [ev; CacheSet ("mauth_token/" +:+ tok) (expires, d)
                    (expires - now)])
        end
      else (Forwarded (set_authorize HookDenied env), [ev])
  | Ok None => (Forwarded (set_authorize HookDenied env), [ev])
  end.

(* ===================================================================== *)
(** ** [MultiAuth.__init__] and the interface methods *)
(* ===================================================================== *)

(** The interface methods as [MultiAuth] itself has them: [pass], with
    [self] as only parameter. The first two return [None]; the third is
    called with a token and has no parameter for it. *)
Definition interface_get_s3_identity : PyResult (option Dict) := Ok None.
Definition interface_get_identity : PyResult (option Dict) := Ok None.
Definition interface_validate_token (token : option string)
  : PyResult (option Dict) := Raised TypeError.

(** [[h.strip() for h in setting.split(',') if h.strip()]] *)
Definition sync_hosts (setting : string) : list string :=
  List.map PyStr.strip
    (List.filter (fun h => PyStr.truthy (PyStr.strip h))
       (PyStr.split "," None setting)).

Section Init.

(** [int(s)] for a [str]: the builtin is not part of this code. *)
Variable py_int : string -> PyResult Z.

(** [MultiAuth.__init__(app, conf)]: the attributes the other methods
    read, in the order of the assignments. [conf] holds strings; the three
    methods are those of the class of [self]. The logger is left out. *)
Definition init (s3_identity identity : PyResult (option Dict))
    (validate : option string -> PyResult (option Dict))
    (conf : gmap string string) : PyResult MultiAuth :=
  let reseller_prefix :=
    PyStr.strip (default EmptyString (conf !! "reseller_prefix")) in
  match (match conf !! "cache_timeout" with
         | Some s => py_int s
         | None => Ok 86400
         end) with
  | Raised e => Raised e
  | Ok cache_timeout =>
      match conf !! "swift_storage_url" with
      | None => Raised AttributeError
      | Some url =>
          Ok (MkMultiAuth reseller_prefix cache_timeout (PyStr.strip url)
                (sync_hosts (default "127.0.0.1"
                               (conf !! "allowed_sync_hosts")))
                s3_identity identity validate)
      end
  end.

End Init.

(* ===================================================================== *)
(** ** Notions used to state further properties *)
(* ===================================================================== *)

(** [c in s] for a character [c]. *)
Fixpoint occurs (c : ascii) (s : string) : bool :=
  match s with
  | EmptyString => false
  | String c' s' => Ascii.eqb c' c || occurs c s'
  end.

(** Every character of [s] passes the test [p]. *)
Fixpoint all_chars (p : ascii -> bool) (s : string) : bool :=
  match s with
  | EmptyString => true
  | String c s' => p c && all_chars p s'
  end.

(** The rule of [authorize] that lets [req] in: the four places where it
    returns [None]. *)
Definition let_in (self : MultiAuth) (req : Request) : Prop :=
  exists version _account container obj referrers groups,
    Swift.split_path (path req) 1 4
      = Ok [version; Some _account; container; obj]
    /\ PyStr.truthy _account = true
    /\ PyStr.startswith _account (reseller_prefix self) = true
    /\ Swift.parse_acl (acl req) = (referrers, groups)
    /\ (owns self req
        \/ container_sync_allowed self req = true
        \/ (Swift.referrer_allowed (referer_hostname req) referrers = Ok true
            /\ (PyStr.truthy_opt obj = true
                \/ PyStr.mem ".rlistings" groups = true))
        \/ (Swift.referrer_allowed (referer_hostname req) referrers = Ok false
            /\ role_in_groups
                 (default [] (d_roles (default empty_dict
                                         (mauth_identity (environ req)))))
                 groups = true)).

(** The environ a call works on after its S3 part: the one it got, or,
    for a request with [Authorization] header, that one with another
    [PATH_INFO]. *)
Definition path_mapped (env e0 : Env) : Prop :=
  e0 = env
  \/ (PyStr.truthy_opt (env_get env "HTTP_AUTHORIZATION") = true
      /\ exists path_info, e0 = set_var "PATH_INFO" path_info env).

(** The three ways a call prepares the environ for the downstream app:
    the denial hook; the [authorize] hook for an anonymous request; an
    identity with its roles and the [authorize] hook. *)
Definition hooked (e0 env' : Env) : Prop :=
  env' = set_authorize HookDenied e0
  \/ env' = anonymous e0
  \/ exists d roles,
       dict_truthy d = true /\ d_roles d = Some roles
       /\ env' = installed d roles e0.

Definition passed_on (env env' : Env) : Prop :=
  exists e0, path_mapped env e0 /\ hooked e0 env'.

(** The events of the token part of a call: none, the call of
    [validate_token], or that call and the write of what it returned. *)
Definition token_events (self : MultiAuth) (now : Z) (l : list Event) : Prop :=
  l = []
  \/ exists t,
       l = [CallValidateToken t]
       \/ exists d expires,
            validate_token self t = Ok (Some d)
            /\ dict_truthy d = true
            /\ d_expires d = Some expires
            /\ l = [CallValidateToken t;
                    CacheSet ("mauth_token/" +:+ py_str t) (expires, d)
                      (expires - now)].

(** The events of a call. *)
Definition call_events (self : MultiAuth) (now : Z) (tr : list Event) : Prop :=
  tr = [CallGetS3Identity] \/ tr = [CallGetIdentity]
  \/ token_events self now tr.

(** A step that goes on with [a] or raises. *)
Definition goes_on {A} (r : Step A) (a : A) : Prop :=
  r = Next a \/ exists e, r = Raise e.

(** The calls of the interface methods among the events. *)
Definition is_provider_call (ev : Event) : bool :=
  match ev with
  | CacheSet _ _ _ => false
  | _ => true
  end.

(** Two memcache contents with the same usable entries at [now]. *)
Definition same_fresh (self : MultiAuth) (now : Z) (mc mc' : Memcache)
  : Prop :=
  forall key,
    fresh_entry self now (memcache_get mc key)
    = fresh_entry self now (memcache_get mc' key).

(* ===================================================================== *)
(** ** Sample data: the scenarios of the specification *)
(* ===================================================================== *)

(** The time of the sample calls. *)
Definition sample_now : Z := 1000.

Definition alice : Dict :=
  MkDict (Some "alice") (Some ["admin"]) (Some "T1") (Some 4600)
    (Some "http://127.0.0.1:8080/v1/AUTH_alice") None None.

(** What memcache still holds for the token [T2], and what the extension
    answers for it. *)
Definition alice_stale : Dict :=
  MkDict (Some "alice") (Some ["admin"; "billing"]) (Some "T2") (Some 900)
    (Some "http://127.0.0.1:8080/v1/AUTH_alice") None None.

Definition alice_renewed : Dict :=
  MkDict (Some "alice") (Some ["admin"]) (Some "T2") (Some 4600)
    (Some "http://127.0.0.1:8080/v1/AUTH_alice") None None.

(** What memcache holds for the S3 access key of [alice]. *)
Definition alice_s3 : Dict :=
  MkDict None None None None None (Some "s3secret") (Some alice).

(** A configuration with reseller prefix [AUTH]; the extension knows the
    token [T2] and the S3 access key of [alice]. *)
Definition sample_self : MultiAuth :=
  MkMultiAuth "AUTH" 86400 "http://127.0.0.1:8080/v1" ["127.0.0.1"]
    (Ok (Some alice)) (Ok (Some alice))
    (fun token =>
       if bool_decide (token = Some "T2") then Ok (Some alice_renewed)
       else Ok None).

(** The same with the cache switched off. *)
Definition sample_self_no_cache : MultiAuth :=
  MkMultiAuth "AUTH" 0 "http://127.0.0.1:8080/v1" ["127.0.0.1"]
    (Ok (Some alice)) (Ok (Some alice)) (fun _ => Ok None).

(** Entries that expire after [sample_now], and one for [T2] that expired
    before. *)
Definition sample_cache : Memcache :=
  MkMemcache
    (list_to_map
       [("mauth_token/T1", (4600, alice));
        ("mauth_token/T2", (900, alice_stale));
        ("mauth_creds/alice/k1", (4600, alice));
        ("mauth_s3_apikey/AKIAXXX", (4600, alice_s3))]).

Definition empty_cache : Memcache := MkMemcache ∅.

Definition environ_of (l : list (string * string)) (i : option Dict) : Env :=
  MkEnv (list_to_map l) None false i None.

(** [alice], authenticated, on an object of her own account; the container
    ACL names neither her role nor a referrer. *)
Definition alice_on_her_object : Request :=
  MkRequest (environ_of [("REMOTE_USER", "admin")] (Some alice))
    "/v1/AUTH_alice/c1/obj" (Some "auditors") None.

(** [alice], authenticated, listing a container of another account whose
    ACL admits every referrer and the group [admin], without listings. *)
Definition alice_lists_bobs_container : Request :=
  MkRequest (environ_of [("REMOTE_USER", "admin")] (Some alice))
    "/v1/AUTH_bob/c1" (Some ".r:*,admin") (Some "www.example.com").

(** The same listing by an anonymous client. *)
Definition anonymous_lists_bobs_container : Request :=
  MkRequest (environ_of [] None)
    "/v1/AUTH_bob/c1" (Some ".r:*,admin") (Some "www.example.com").

(** [alice] listing a container of her own under the same ACL. *)
Definition alice_lists_her_container : Request :=
  MkRequest (environ_of [("REMOTE_USER", "admin")] (Some alice))
    "/v1/AUTH_alice/c1" (Some ".r:*,admin") (Some "www.example.com").

(** A request on the version segment alone. *)
Definition anonymous_on_version : Request :=
  MkRequest (environ_of [] None) "/v1" None None.

(** A request for a token with the credentials of [alice]. *)
Definition token_wanted : Env :=
  environ_of [("PATH_INFO", "/v1.0"); ("HTTP_X_AUTH_USER", "alice");
              ("HTTP_X_AUTH_KEY", "k1")] None.

(** The same with an [Authorization] header that is not an S3 one. *)
Definition token_wanted_basic : Env :=
  environ_of [("PATH_INFO", "/v1.0"); ("HTTP_X_AUTH_USER", "alice");
              ("HTTP_X_AUTH_KEY", "k1");
              ("HTTP_AUTHORIZATION", "Basic YWxpY2U6azE=")] None.

(** A request on the token path without credentials, and one whose path
    does not split. *)
Definition token_path_bare : Env := environ_of [("PATH_INFO", "/v1.0")] None.
Definition no_leading_slash : Env := environ_of [("PATH_INFO", "v1/a")] None.

(** An anonymous request on a container. *)
Definition anonymous_get : Env :=
  environ_of [("PATH_INFO", "/v1/AUTH_bob/c1")] None.

(** A request with the expired token [T2]. *)
Definition with_token_T2 : Env :=
  environ_of [("PATH_INFO", "/v1/AUTH_alice/c1");
              ("HTTP_X_AUTH_TOKEN", "T2")] None.

(** S3 requests for the access key [AKIAXXX]. [R0VUCgoKL2I=] is the string
    to sign [GET\n\n\n/b] in base64; its signature under [s3secret] is
    [MWahK9n18JdP7+0CZGmsecTg17Q=]. *)
Definition s3_signed : Env :=
  environ_of [("PATH_INFO", "/v1/AKIAXXX/bucket");
              ("HTTP_AUTHORIZATION", "AWS AKIAXXX:MWahK9n18JdP7+0CZGmsecTg17Q=");
              ("HTTP_X_AUTH_TOKEN", "R0VUCgoKL2I=")] None.

Definition s3_forged : Env :=
  environ_of [("PATH_INFO", "/v1/AKIAXXX/bucket");
              ("HTTP_AUTHORIZATION", "AWS AKIAXXX:sig1");
              ("HTTP_X_AUTH_TOKEN", "R0VUCgoKL2I=")] None.

Definition s3_forged_no_token : Env :=
  environ_of [("PATH_INFO", "/v1/AKIAXXX/bucket");
              ("HTTP_AUTHORIZATION", "AWS AKIAXXX:sig1")] None.

Definition s3_bad_padding : Env :=
  environ_of [("PATH_INFO", "/v1/AKIAXXX/bucket");
              ("HTTP_AUTHORIZATION", "AWS AKIAXXX:sig1");
              ("HTTP_X_AUTH_TOKEN", "a")] None.

(** The same with a token that decodes to the byte 255. *)
Definition s3_not_ascii : Env :=
  environ_of [("PATH_INFO", "/v1/AKIAXXX/bucket");
              ("HTTP_AUTHORIZATION", "AWS AKIAXXX:sig1");
              ("HTTP_X_AUTH_TOKEN", "_w==")] None.

Definition s3_malformed : Env :=
  environ_of [("PATH_INFO", "/v1/AKIAXXX/bucket");
              ("HTTP_AUTHORIZATION", "AWS malformed")] None.

Definition s3_no_credentials : Env :=
  environ_of [("PATH_INFO", "/v1/AKIAXXX/bucket");
              ("HTTP_AUTHORIZATION", "AWS")] None.

(** An anonymous client reading an object of a container that admits every
    referrer. *)
Definition anonymous_reads_bobs_object : Request :=
  MkRequest (environ_of [] None)
    "/v1/AUTH_bob/c1/obj" (Some ".r:*") (Some "www.example.com").

(** [alice] on a container of another account whose ACL names her role. *)
Definition alice_reads_bobs_container : Request :=
  MkRequest (environ_of [("REMOTE_USER", "admin")] (Some alice))
    "/v1/AUTH_bob/c1" (Some "admin") None.

(** [alice] on her account, written with a dash after the prefix. *)
Definition alice_with_dash : Request :=
  MkRequest (environ_of [("REMOTE_USER", "admin")] (Some alice))
    "/v1/AUTH-alice/c1" None None.

(** A container sync request from a peer outside the allowed hosts, with
    an allowed host in X-Forwarded-For. *)
Definition sync_request : Request :=
  MkRequest
    (environ_of [("swift_sync_key", "secret");
                 ("HTTP_X_CONTAINER_SYNC_KEY", "secret");
                 ("HTTP_X_TIMESTAMP", "1320000000.00000");
                 ("HTTP_X_FORWARDED_FOR", "127.0.0.1, 10.0.0.1");
                 ("REMOTE_ADDR", "10.9.9.9")] None)
    "/v1/AUTH_bob/c1/obj" None None.

(** Memcache after the write of the call with the token [T2]. *)
Definition cache_after_T2 : Memcache :=
  MkMemcache (<["mauth_token/T2" := (4600, alice_renewed)]>
                (entries sample_cache)).

(** A memcache with one entry, expired. *)
Definition stale_cache : Memcache :=
  MkMemcache (<["mauth_token/T2" := (900, alice_stale)]> ∅).

(** A request with a token nobody knows. *)
Definition with_token_T9 : Env :=
  environ_of [("PATH_INFO", "/v1/AUTH_alice/c1");
              ("HTTP_X_AUTH_TOKEN", "T9")] None.

(** An empty X-Auth-Token next to a good X-Storage-Token. *)
Definition with_empty_auth_token : Env :=
  environ_of [("PATH_INFO", "/v1/AUTH_alice/c1");
              ("HTTP_X_AUTH_TOKEN", "");
              ("HTTP_X_STORAGE_TOKEN", "T1")] None.



(** The class without extension. *)
Definition sample_interface : MultiAuth :=
  MkMultiAuth "AUTH" 86400 "http://127.0.0.1:8080/v1" ["127.0.0.1"]
    interface_get_s3_identity interface_get_identity
    interface_validate_token.

(** The reading of a number in decimal digits, which is all the sample
    configurations ask of [int]. *)
Definition decimal_digits (s : string) : PyResult Z :=
  match s with
  | EmptyString => Raised ValueError
  | _ =>
      fold_left
        (fun acc c =>
           match acc with
           | Ok n =>
               let d := PyStr.byte_of c - 48 in
               if (0 <=? d) && (d <=? 9) then Ok (10 * n + d)
               else Raised ValueError
           | Raised e => Raised e
           end)
        (list_ascii_of_string s) (Ok 0)
  end.

(** Configurations: one with every setting, with white space around the
    values; one without [swift_storage_url]; one whose sync hosts are
    blank; one without reseller prefix. *)
Definition sample_conf : gmap string string :=
  list_to_map
    [("reseller_prefix", " AUTH ");
     ("cache_timeout", "600");
     ("swift_storage_url", "http://127.0.0.1:8080/v1 ");
     ("allowed_sync_hosts", "127.0.0.1, ,10.0.0.1 ")].

Definition conf_without_url : gmap string string :=
  list_to_map [("reseller_prefix", "AUTH")].

Definition conf_without_hosts : gmap string string :=
  list_to_map
    [("reseller_prefix", "AUTH");
     ("swift_storage_url", "http://127.0.0.1:8080/v1");
     ("allowed_sync_hosts", " , ")].

Definition conf_without_prefix : gmap string string :=
  list_to_map [("swift_storage_url", "http://127.0.0.1:8080/v1")].

(** [alice] on her account under a configuration without prefix. *)
Definition alice_without_prefix : Request :=
  MkRequest (environ_of [("REMOTE_USER", "admin")] (Some alice))
    "/v1/alice/c1" None None.

(* ===================================================================== *)
(** ** The library functions on known values *)
(* ===================================================================== *)

(** SHA-1 of [abc] (FIPS 180) and HMAC-SHA1 of the second test case of
    RFC 2202, in base64. *)
Example sha1_abc :
  Base64.encode_bytes (Sha1.digest (PyStr.bytes "abc"))
  = "qZk+NkcGgWq6PiVxeFDCbJzQ2J0=".
Proof. vm_compute. reflexivity. Qed.

Example hmac_sha1_rfc2202 :
  sign "Jefe" "what do ya want for nothing?" = "7/zfauXrL6LSdBbV8YTfnCWafHk=".
Proof. vm_compute. reflexivity. Qed.

Example urlsafe_b64decode_values :
  Base64.urlsafe_b64decode "Zm9vYmFy" = Ok "foobar"
  /\ Base64.urlsafe_b64decode "Zm9vYg==" = Ok "foob"
  /\ Base64.urlsafe_b64decode "Zm9vYg" = Raised TypeError
  /\ Base64.urlsafe_b64decode "" = Ok "".
Proof. vm_compute. repeat split; reflexivity. Qed.

Example split_path_values :
  Swift.split_path "/v1/AUTH_alice/c1/obj/x" 1 4
  = Ok [Some "v1"; Some "AUTH_alice"; Some "c1"; Some "obj/x"]
  /\ Swift.split_path "/v1" 1 4 = Ok [Some "v1"; None; None; None]
  /\ Swift.split_path "/v1/" 1 4 = Ok [Some "v1"; Some ""; None; None]
  /\ Swift.split_path "//a" 1 4 = Raised ValueError
  /\ Swift.split_path "v1/a" 1 4 = Raised ValueError
  /\ Swift.split_path "" 1 2 = Raised ValueError.
Proof. vm_compute. repeat split; reflexivity. Qed.

(** The test on [X-Auth-TTL] never fails: a header value is a [str], which
    Python 2 puts above every [int]. *)
Lemma ttl_positive_always (env : Env) : ttl_positive env = true.
Proof. unfold ttl_positive. by destruct (env_get env "HTTP_X_AUTH_TTL"). Qed.

(* ===================================================================== *)
(** ** Properties of [authorize] and [denied_response] *)
(* ===================================================================== *)

Lemma split_path_length path minsegs maxsegs segs :
  Swift.split_path path minsegs maxsegs = Ok segs ->
  length segs = maxsegs.
Proof.
  unfold Swift.split_path.
  destruct (_ || _) eqn:Hguard; [discriminate |].
  intros [= <-].
  apply orb_false_iff in Hguard as [Hguard _].
  apply orb_false_iff in Hguard as [_ Hcount].
  apply Nat.ltb_ge in Hcount.
  rewrite length_app, length_map, repeat_length, length_firstn.
  rewrite length_skipn. lia.
Qed.

(** The four names [authorize] unpacks the segments into. *)
Lemma split_path_4 path segs :
  Swift.split_path path 1 4 = Ok segs ->
  exists version _account container obj,
    segs = [version; _account; container; obj].
Proof.
  intros H. apply split_path_length in H.
  destruct segs as [|a [|b [|c [|d [|e l]]]]]; try discriminate.
  by exists a, b, c, d.
Qed.

Lemma split_path_raises path minsegs maxsegs e :
  Swift.split_path path minsegs maxsegs = Raised e -> e = ValueError.
Proof.
  unfold Swift.split_path. destruct (_ || _); [|discriminate]. by intros [= <-].
Qed.

(** [authorize] before the rules on the container ACL. *)
Lemma authorize_no_account self req version _account container obj :
  Swift.split_path (path req) 1 4 = Ok [version; _account; container; obj] ->
  PyStr.truthy_opt _account = false
  \/ PyStr.startswith (default EmptyString _account) (reseller_prefix self)
     = false ->
  authorize self req = Ok (Deny (denied_response req), environ req).
Proof.
  intros Hsplit Hacc. unfold authorize. rewrite Hsplit.
  destruct Hacc as [-> | ->]; [done |].
  by rewrite orb_true_r.
Qed.

Lemma authorize_owns self req :
  owns self req ->
  authorize self req = Ok (Allow, set_owner true (environ req)).
Proof.
  intros (version & _account & container & obj & Hsplit & Ht & Hp & Hacc).
  unfold authorize. rewrite Hsplit. simpl.
  rewrite Ht, Hp. simpl. rewrite Hacc.
  by rewrite bool_decide_eq_true_2.
Qed.

Lemma authorize_reaches_acl self req obj :
  reaches_acl self req obj ->
  authorize self req =
    let '(referrers, groups) := Swift.parse_acl (acl req) in
    match Swift.referrer_allowed (referer_hostname req) referrers with
    | Raised e => Raised e
    | Ok true =>
        if PyStr.truthy_opt obj || PyStr.mem ".rlistings" groups
        then Ok (Allow, environ req)
        else Ok (Deny (denied_response req), environ req)
    | Ok false =>
        if role_in_groups
             (default [] (d_roles (default empty_dict
                                     (mauth_identity (environ req))))) groups
        then Ok (Allow, environ req)
        else Ok (Deny (denied_response req), environ req)
    end.
Proof.
  intros (version & _account & container & Hsplit & Ht & Hp & Hacc & Hsync).
  unfold authorize. rewrite Hsplit. simpl.
  rewrite Ht, Hp. simpl.
  rewrite bool_decide_eq_false_2 by (intros Heq; apply Hacc; by rewrite Heq).
  by rewrite Hsync.
Qed.

(** Whatever [authorize] decides, it leaves the environ as it was unless the
    ownership rule applies. *)
Lemma authorize_environ self req d env' :
  authorize self req = Ok (d, env') ->
  ~ owns self req ->
  env' = environ req.
Proof.
  intros Hauth Hnot. unfold authorize in Hauth.
  destruct (Swift.split_path (path req) 1 4) as [segs | e] eqn:Hsplit.
  - destruct (split_path_4 _ _ Hsplit) as (v & a & c & o & ->).
    destruct (negb (PyStr.truthy_opt a) || _) eqn:Hgate;
      [by inversion Hauth |].
    apply orb_false_iff in Hgate as [Ht Hp].
    apply negb_false_iff in Ht. apply negb_false_iff in Hp.
    destruct a as [_account |]; [| discriminate]. simpl in *.
    case_bool_decide as Hacc.
    + exfalso. apply Hnot. exists v, _account, c, o. eauto.
    + destruct (container_sync_allowed self req); [by inversion Hauth |].
      destruct (Swift.parse_acl (acl req)) as [referrers groups].
      destruct (Swift.referrer_allowed _ _) as [[|] |]; [| | discriminate].
      * destruct (_ || _); by inversion Hauth.
      * destruct (role_in_groups _ _); by inversion Hauth.
  - apply split_path_raises in Hsplit as ->. by inversion Hauth.
Qed.

(* --------------------------------------------------------------------- *)
(** *** Ownership *)
(* --------------------------------------------------------------------- *)

(** C1. When the path of the request has a non-empty account segment that
    starts with the reseller prefix and, once the prefix and its separator
    are dropped, equals the account of the identity, [authorize] lets the
    request through and leaves [swift_owner] at true in the environ, with
    nothing else changed, whatever the container ACL and the referrer are.
    No other rule touches the environ: when the ownership rule does not
    apply, [authorize] leaves it as it was, [swift_owner] included. *)
Theorem authorize_owner (self : MultiAuth) (req : Request) :
  owns self req ->
  (forall acl' hostname',
      exists env',
        authorize self (MkRequest (environ req) (path req) acl' hostname')
        = Ok (Allow, env')
        /\ swift_owner env' = Some true
        /\ vars env' = vars (environ req)
        /\ mauth_identity env' = mauth_identity (environ req)
        /\ swift_authorize env' = swift_authorize (environ req)
        /\ swift_clean_acl env' = swift_clean_acl (environ req))
  /\ (forall req' d env',
        authorize self req' = Ok (d, env') ->
        ~ owns self req' ->
        env' = environ req'
        /\ swift_owner env' = swift_owner (environ req')).
Proof.
  intros Howns. split.
  - intros acl' hostname'. exists (set_owner true (environ req)).
    split; [| by repeat split].
    apply (authorize_owns self
             (MkRequest (environ req) (path req) acl' hostname')).
    exact Howns.
  - intros req' d env' Hauth Hnot.
    by rewrite (authorize_environ _ _ _ _ Hauth Hnot).
Qed.

Lemma authorize_owner_witness :
  owns sample_self alice_on_her_object
  /\ swift_owner (environ alice_on_her_object) = None
  /\ exists env',
       authorize sample_self alice_on_her_object = Ok (Allow, env')
       /\ swift_owner env' = Some true.
Proof.
  assert (H : owns sample_self alice_on_her_object).
  { exists (Some "v1"), "AUTH_alice", (Some "c1"), (Some "obj").
    vm_compute. auto. }
  split; [exact H |]. split; [reflexivity |].
  destruct (proj1 (authorize_owner sample_self alice_on_her_object H)
              (Some "auditors") None) as (env' & Hauth & Hown & _).
  exists env'. split; [exact Hauth | exact Hown].
Defined.

(* --------------------------------------------------------------------- *)
(** *** The referrer rule *)
(* --------------------------------------------------------------------- *)

(** C2, as stated, fails. With a matching referrer, no object segment and no
    [.rlistings] in the groups, an anonymous request is refused with 401,
    not 403; and when the account is the caller's own the ownership rule has
    already let the request in. *)
Lemma referrer_match_not_always_forbidden :
  (Swift.referrer_allowed (referer_hostname anonymous_lists_bobs_container)
     (fst (Swift.parse_acl (acl anonymous_lists_bobs_container))) = Ok true
   /\ Swift.split_path (path anonymous_lists_bobs_container) 1 4
      = Ok [Some "v1"; Some "AUTH_bob"; Some "c1"; None]
   /\ PyStr.mem ".rlistings"
        (snd (Swift.parse_acl (acl anonymous_lists_bobs_container))) = false
   /\ authorize sample_self anonymous_lists_bobs_container
      = Ok (Deny HTTPUnauthorized, environ anonymous_lists_bobs_container))
  /\ (Swift.referrer_allowed (referer_hostname alice_lists_her_container)
        (fst (Swift.parse_acl (acl alice_lists_her_container))) = Ok true
      /\ Swift.split_path (path alice_lists_her_container) 1 4
         = Ok [Some "v1"; Some "AUTH_alice"; Some "c1"; None]
      /\ PyStr.mem ".rlistings"
           (snd (Swift.parse_acl (acl alice_lists_her_container))) = false
      /\ authorize sample_self alice_lists_her_container
         = Ok (Allow, set_owner true (environ alice_lists_her_container))).
Proof. vm_compute. repeat split; reflexivity. Qed.

(** C2, amended. When [authorize] gets as far as the container ACL, the
    referrer of the request matches a referrer rule, the path has no object
    segment and the groups do not hold [.rlistings], the request is refused
    with the response of [denied_response]: 403 when [REMOTE_USER] is set,
    401 when it is not. The roles of the identity are never looked at. *)
Theorem referrer_match_without_listing (self : MultiAuth) (req : Request)
    (obj : option string) (referrers groups : list string) :
  reaches_acl self req obj ->
  Swift.parse_acl (acl req) = (referrers, groups) ->
  Swift.referrer_allowed (referer_hostname req) referrers = Ok true ->
  PyStr.truthy_opt obj = false ->
  PyStr.mem ".rlistings" groups = false ->
  authorize self req
  = Ok (Deny (if PyStr.truthy_opt (remote_user req)
              then HTTPForbidden else HTTPUnauthorized),
        environ req).
Proof.
  intros Hreach Hacl Href Hobj Hlist.
  rewrite (authorize_reaches_acl _ _ _ Hreach), Hacl, Href, Hobj, Hlist.
  reflexivity.
Qed.

Lemma referrer_match_without_listing_witness :
  role_in_groups ["admin"] ["admin"] = true
  /\ authorize sample_self alice_lists_bobs_container
     = Ok (Deny HTTPForbidden, environ alice_lists_bobs_container).
Proof.
  split; [reflexivity |].
  apply (referrer_match_without_listing sample_self
           alice_lists_bobs_container None ["*"] ["admin"]).
  - exists (Some "v1"), "AUTH_bob", (Some "c1"). vm_compute.
    repeat split; congruence.
  - vm_compute; reflexivity.
  - vm_compute; reflexivity.
  - reflexivity.
  - vm_compute; reflexivity.
Defined.

(* --------------------------------------------------------------------- *)
(** *** Paths without an account *)
(* --------------------------------------------------------------------- *)

(** C8, as stated, fails: the path [/v1] has no account segment, and the
    request is refused with 401, not 404. *)
Lemma no_account_not_always_404 :
  path_has_account anonymous_on_version = false
  /\ authorize sample_self anonymous_on_version
     = Ok (Deny HTTPUnauthorized, environ anonymous_on_version).
Proof. vm_compute. split; reflexivity. Qed.

(** C8, amended. A request whose path has no account segment is refused.
    The response is 404 when the path does not split at all, that is when
    [split_path] raises [ValueError]; when the path splits and the account
    segment is missing or empty, it is the response of [denied_response],
    401 or 403. *)
Theorem authorize_without_account (self : MultiAuth) (req : Request) :
  path_has_account req = false ->
  authorize self req
  = Ok (Deny (match Swift.split_path (path req) 1 4 with
              | Raised _ => HTTPNotFound
              | Ok _ => denied_response req
              end),
        environ req).
Proof.
  unfold path_has_account. intros Hno.
  destruct (Swift.split_path (path req) 1 4) as [segs | e] eqn:Hsplit.
  - destruct (split_path_4 _ _ Hsplit) as (v & a & c & o & ->).
    apply (authorize_no_account self req v a c o Hsplit). by left.
  - unfold authorize. rewrite Hsplit.
    by apply split_path_raises in Hsplit as ->.
Qed.

Lemma authorize_without_account_witness :
  authorize sample_self (MkRequest (environ_of [] None) "v1/AUTH_alice" None None)
  = Ok (Deny HTTPNotFound, environ_of [] None).
Proof.
  apply (authorize_without_account sample_self
           (MkRequest (environ_of [] None) "v1/AUTH_alice" None None)).
  vm_compute; reflexivity.
Defined.

(* ===================================================================== *)
(** ** The parts of a call *)
(* ===================================================================== *)

Arguments PyStr.startswith : simpl never.
Arguments PyStr.split : simpl never.
Arguments PyStr.rsplit1 : simpl never.
Arguments PyStr.replace : simpl never.
Arguments PyStr.join : simpl never.
Arguments PyStr.mem : simpl never.
Arguments Swift.split_path : simpl never.
Arguments s3_credentials : simpl never.
Arguments s3_signature_matches : simpl never.
Arguments s3_token_of : simpl never.
Arguments s3_account_path : simpl never.
Arguments sign : simpl never.
Arguments memcache_get : simpl never.
Arguments fromtimestamp : simpl never.
Arguments String.append : simpl never.

(** Running the statements of the monad, and splitting on what they
    branch on. *)
Ltac run :=
  unfold bind, ret, raise, return_, lift, get_env, update_env, emit,
    deny_downstream, client_get, read_local, item, env_item in *;
  simpl in *.

Ltac crunch :=
  repeat (first [progress run | case_match | progress simplify_eq]).

Section CallProperties.

Variable self : MultiAuth.
Variable now : Z.

Lemma fresh_entry_Some r data :
  fresh_entry self now r = Some data ->
  exists expires,
    r = Some (expires, data) /\ now < expires /\ 0 < cache_timeout self.
Proof.
  unfold fresh_entry. destruct r as [[expires d] |]; [| discriminate].
  destruct (0 <? cache_timeout self) eqn:Hc; [| discriminate].
  destruct (now <? expires) eqn:Hn; [| discriminate].
  intros [= ->]. exists expires.
  apply Z.ltb_lt in Hc, Hn. auto.
Qed.

Lemma fresh_entry_expired expires data :
  expires <= now -> fresh_entry self now (Some (expires, data)) = None.
Proof.
  intros H. unfold fresh_entry.
  destruct (now <? expires) eqn:Hn; [apply Z.ltb_lt in Hn; lia |].
  by rewrite andb_false_r.
Qed.

Lemma fresh_entry_fresh expires data :
  0 < cache_timeout self -> now < expires ->
  fresh_entry self now (Some (expires, data)) = Some data.
Proof.
  intros Hc Hn. unfold fresh_entry.
  apply Z.ltb_lt in Hc, Hn. by rewrite Hc, Hn.
Qed.

Lemma client_get_fresh mc key data :
  fresh_entry self now (memcache_get mc key) = Some data ->
  cached_fresh (Some mc) now key data.
Proof.
  intros Hf. apply fresh_entry_Some in Hf as (expires & Hget & Hn & _).
  exists mc, expires. auto.
Qed.

(** What the S3 part of a call leaves behind. *)
Lemma s3_request_inv memcache_client st r st' :
  s3_request self memcache_client now st = (r, st') ->
  mauth_identity (st_env st') = mauth_identity (st_env st)
  /\ match r with
     | Next (Some d, _) =>
         exists key data,
           cached_fresh memcache_client now key data
           /\ d_identity data = Some d
     | Next (None, _) => True
     | Return ToApp => True
     | Return _ => False
     | Raise _ => True
     end.
Proof.
  unfold s3_request. intros H. crunch; auto.
  split; [done |].
  eexists _, _. split; [eapply client_get_fresh; eauto | done].
Qed.

(** What the token request part leaves behind. *)
Lemma auth_request_inv memcache_client identity token st r st' :
  auth_request self memcache_client now identity token st = (r, st') ->
  mauth_identity (st_env st') = mauth_identity (st_env st)
  /\ match r with
     | Next (identity', _) => identity' = identity
     | Return (Direct resp) =>
         exists key data,
           cached_fresh memcache_client now key data
           /\ resp = MkResponse (d_token data) (d_token data)
                       (d_account_url data)
     | Return _ => True
     | Raise _ => True
     end.
Proof.
  unfold auth_request. intros H. crunch; auto.
  split; [done |].
  eexists _, _. split; [eapply client_get_fresh; eauto | done].
Qed.

Lemma cached_identity_inv memcache_client identity token st r st' :
  cached_identity self memcache_client now identity token st = (r, st') ->
  st' = st
  /\ match r with
     | Next identity' =>
         identity' = identity
         \/ exists key d,
             identity' = Some d /\ cached_fresh memcache_client now key d
     | Return _ => False
     | Raise _ => True
     end.
Proof.
  unfold cached_identity. intros H. crunch; auto.
  split; [done |]. right. eexists _, _. split; [done |].
  by eapply client_get_fresh.
Qed.

Lemma validated_identity_inv memcache_client identity token st r st' :
  validated_identity self memcache_client now identity token st = (r, st') ->
  mauth_identity (st_env st') = mauth_identity (st_env st)
  /\ match r with
     | Next identity' =>
         (identity' = identity /\ st_trace st' = st_trace st)
         \/ exists t d,
             identity' = Some d
             /\ In (CallValidateToken t) (st_trace st')
             /\ validate_token self t = Ok (Some d)
     | Return ToApp => True
     | Return _ => False
     | Raise _ => True
     end.
Proof.
  unfold validated_identity. intros H. crunch; auto.
  split; [done |]. right. eexists _, _. split; [done |].
  split; [| eassumption]. rewrite !in_app_iff. simpl. auto.
Qed.

Lemma install_identity_inv identity st r st' :
  install_identity identity st = (r, st') ->
  st_trace st' = st_trace st
  /\ match r with
     | Return ToApp =>
         mauth_identity (st_env st') = mauth_identity (st_env st)
         \/ exists d, identity = Some d
                      /\ mauth_identity (st_env st') = Some d
     | Return _ => False
     | Next _ => False
     | Raise _ => True
     end.
Proof.
  unfold install_identity. intros H. crunch; eauto.
Qed.

(** The last part either leaves the identity of the environ alone or puts
    there one whose provenance is known. *)
Lemma token_request_inv memcache_client identity token st r st' :
  token_request self memcache_client now identity token st = (r, st') ->
  (forall d, identity = Some d ->
             Provenance self memcache_client now (st_trace st) d) ->
  match r with
  | Return ToApp =>
      mauth_identity (st_env st') = mauth_identity (st_env st)
      \/ exists d, mauth_identity (st_env st') = Some d
                   /\ Provenance self memcache_client now (st_trace st') d
  | Return _ => False
  | Next _ => False
  | Raise _ => True
  end.
Proof.
  unfold token_request, bind at 1, get_env. intros H Hid.
  destruct (negb (identity_truthy identity) && _).
  { run. simplify_eq. simpl. auto. }
  unfold bind at 1 in H.
  destruct (cached_identity _ _ _ _ _ _) as [r1 s1] eqn:H1.
  apply cached_identity_inv in H1 as [-> H1].
  destruct r1 as [id1 | rep | e]; [| done | by simplify_eq].
  unfold bind at 1 in H.
  destruct (validated_identity _ _ _ _ _ _) as [r2 s2] eqn:H2.
  apply validated_identity_inv in H2 as [He2 H2].
  destruct r2 as [id2 | [| resp |] | e]; try done;
    [| simplify_eq; auto | by simplify_eq].
  apply install_identity_inv in H as [Htr H].
  destruct r as [[] | [| resp |] | e]; try done.
  destruct H as [H | (d & Hd & H)]; [left; congruence |].
  right. exists d. split; [done |]. rewrite Htr. subst id2.
  destruct H2 as [[Heq Htr2] | (t & d' & Heq & Hin & Hval)].
  - rewrite Htr2. subst id1.
    destruct H1 as [Heq | (key & d' & Heq & Hf)].
    + by apply Hid.
    + injection Heq as <-. eapply FromCache; eauto.
  - injection Heq as <-. eapply FromProvider; eauto.
Qed.

(** The whole call: the identity of the forwarded environ and the token
    response. *)
Lemma call_inv memcache_client env o tr :
  call self memcache_client now env = (o, tr) ->
  match o with
  | Forwarded env' =>
      mauth_identity env' = mauth_identity env
      \/ exists d, mauth_identity env' = Some d
                   /\ Provenance self memcache_client now tr d
  | Responded resp =>
      exists key data,
        cached_fresh memcache_client now key data
        /\ resp = MkResponse (d_token data) (d_token data)
                    (d_account_url data)
  | NotFound => True
  | Failed _ => True
  end.
Proof.
  unfold call, call_body, bind.
  destruct (s3_request _ _ _ _) as [r1 s1] eqn:H1.
  apply s3_request_inv in H1 as [He1 H1]. simpl in He1.
  destruct r1 as [[identity token] | [| resp |] | e];
    try (intros [= <- <-]; auto; done).
  simpl.
  destruct (auth_request _ _ _ _ _ _) as [r2 s2] eqn:H2.
  apply auth_request_inv in H2 as [He2 H2].
  destruct r2 as [[identity' token'] | [| resp |] | e];
    try (intros [= <- <-]; auto; rewrite He2; auto; done).
  subst identity'. simpl.
  destruct (token_request _ _ _ _ _ _) as [r3 s3] eqn:H3.
  apply token_request_inv in H3.
  - destruct r3 as [[] | [| resp |] | e]; try done;
      try (intros [= <- <-]; auto; done).
    intros [= <- <-]. rewrite He2, He1 in H3. exact H3.
  - intros d ->. destruct H1 as (key & data & Hf & Hd).
    eapply FromCache; eauto.
Qed.

End CallProperties.

Section Phases.
Variable self : MultiAuth.
Variable now : Z.

Lemma startswith_truthy s p :
  PyStr.truthy p = true -> PyStr.startswith s p = true ->
  PyStr.truthy s = true.
Proof. destruct p, s; simpl; try done. Qed.

(** A request that is not an S3 request goes through the first part
    untouched. *)
Lemma s3_request_skip memcache_client st :
  PyStr.truthy_opt (env_get (st_env st) "HTTP_AUTHORIZATION")
  && PyStr.startswith
       (default EmptyString (env_get (st_env st) "HTTP_AUTHORIZATION")) "AWS"
  = false ->
  s3_request self memcache_client now st = (Next (None, Unbound), st).
Proof. intros H. unfold s3_request. run. by rewrite H. Qed.

(** An S3 request, by what memcache holds for the access key. *)
Lemma s3_request_run mc st k sig :
  is_s3_request (st_env st) k sig ->
  s3_request self (Some mc) now st
  = match fresh_entry self now
            (memcache_get mc ("mauth_s3_apikey/" +:+ k)) with
    | None =>
        (match get_s3_identity self with
         | Ok _ => Next (None, Unbound)
         | Raised e => Raise e
         end,
         MkSt (st_env st) (st_trace st ++ [CallGetS3Identity]))
    | Some data =>
        match s3_signature_matches data (st_env st) sig with
        | Raised e => (Raise e, st)
        | Ok false => (Next (None, Unbound), st)
        | Ok true =>
            match d_identity data with
            | None => (Raise AttributeError, st)
            | Some d =>
                match env_get (st_env st) "PATH_INFO" with
                | None => (Raise KeyError, st)
                | Some path_info =>
                    (Next (Some d, Bound (d_token d)),
                     MkSt (set_var "PATH_INFO"
                             (s3_account_path self path_info k d)
                             (st_env st))
                       (st_trace st))
                end
            end
        end
    end.
Proof.
  intros (s3 & Hs3 & Haws & Hcred & Hk & Hsig).
  pose proof (startswith_truthy s3 "AWS" eq_refl Haws) as Ht.
  unfold s3_request. run. rewrite Hs3. simpl. rewrite Ht, Haws. simpl.
  rewrite Hcred. simpl. rewrite Hk, Hsig. simpl.
  destruct st as [env tr]; simpl in *.
  crunch; reflexivity.
Qed.

(** A request with an [Authorization] header goes through the second part
    untouched. *)
Lemma auth_request_skip memcache_client identity token st :
  PyStr.truthy_opt (env_get (st_env st) "HTTP_AUTHORIZATION") = true ->
  auth_request self memcache_client now identity token st
  = (Next (identity, token), st).
Proof. intros H. unfold auth_request. run. by rewrite H. Qed.

(** A request for a token, by what memcache holds for the credentials. *)
Lemma auth_request_run mc identity token st auth_user auth_key :
  is_auth_request (st_env st) auth_user auth_key ->
  auth_request self (Some mc) now identity token st
  = match (if ttl_positive (st_env st)
           then fresh_entry self now
                  (memcache_get mc
                     ("mauth_creds/" +:+ auth_user +:+ "/" +:+ auth_key))
           else None) with
    | Some data =>
        (Return (Direct (MkResponse (d_token data) (d_token data)
                           (d_account_url data))), st)
    | None =>
        (match get_identity self with
         | Ok _ => Next (identity, token)
         | Raised e => Raise e
         end,
         MkSt (st_env st) (st_trace st ++ [CallGetIdentity]))
    end.
Proof.
  intros ((piece & (Hauth & p & rest & Hp & Hsplit) & Hpiece)
          & Hu & Hut & Hk & Hkt).
  unfold auth_request. run. rewrite Hauth. simpl. rewrite Hp. simpl.
  rewrite Hsplit. simpl. rewrite Hpiece, Hu, Hk. simpl.
  rewrite Hut, Hkt. simpl.
  destruct st as [env tr]; simpl in *.
  crunch; reflexivity.
Qed.

(** A request on another path than the two that give out tokens. *)
Lemma auth_request_other memcache_client identity token st piece :
  leading_segment (st_env st) piece ->
  PyStr.mem piece ["auth"; "v1.0"] = false ->
  auth_request self memcache_client now identity token st
  = (Next (identity, Bound (token_header (st_env st))), st).
Proof.
  intros (Hauth & p & rest & Hp & Hsplit) Hpiece.
  unfold auth_request. run. rewrite Hauth. simpl. rewrite Hp. simpl.
  rewrite Hsplit. simpl. by rewrite Hpiece.
Qed.

(** The anonymous request. *)
Lemma token_request_anonymous memcache_client identity token st :
  identity_truthy identity = false ->
  PyStr.truthy_opt (token_header (st_env st)) = false ->
  token_request self memcache_client now identity token st
  = (Return ToApp,
     MkSt (set_clean_acl (set_authorize HookAuthorize (st_env st)))
       (st_trace st)).
Proof.
  intros Hi Ht. unfold token_request. run. by rewrite Hi, Ht.
Qed.

(** A token header with the local [token] never assigned. *)
Lemma token_request_unbound mc identity st :
  identity_truthy identity = false ->
  PyStr.truthy_opt (token_header (st_env st)) = true ->
  token_request self (Some mc) now identity Unbound st
  = (Raise UnboundLocalError, st).
Proof.
  intros Hi Ht. unfold token_request, cached_identity. run.
  by rewrite Hi, Ht.
Qed.



Lemma token_request_without_token mc st :
  token_request self (Some mc) now None Unbound st
  = (if PyStr.truthy_opt (token_header (st_env st))
     then Raise UnboundLocalError else Return ToApp,
     if PyStr.truthy_opt (token_header (st_env st)) then st
     else MkSt (set_clean_acl (set_authorize HookAuthorize (st_env st)))
            (st_trace st)).
Proof.
  destruct (PyStr.truthy_opt (token_header (st_env st))) eqn:Ht.
  - by apply token_request_unbound.
  - by apply token_request_anonymous.
Qed.

Lemma token_request_identity memcache_client d token st :
  dict_truthy d = true ->
  token_request self memcache_client now (Some d) token st
  = match d_roles d with
    | Some roles =>
        (Return ToApp, MkSt (installed d roles (st_env st)) (st_trace st))
    | None =>
        (Raise KeyError, MkSt (set_identity d (st_env st)) (st_trace st))
    end.
Proof.
  intros Hd.
  unfold token_request, cached_identity, validated_identity,
    install_identity.
  repeat (first [progress run | rewrite Hd]).
  destruct (d_roles d); reflexivity.
Qed.

(** An S3 request whose access key has no usable entry in memcache. *)
Lemma call_s3_miss mc env k sig :
  is_s3_request env k sig ->
  fresh_entry self now (memcache_get mc ("mauth_s3_apikey/" +:+ k)) = None ->
  call self (Some mc) now env
  = (match get_s3_identity self with
     | Ok _ => without_token env
     | Raised e => Failed e
     end, [CallGetS3Identity]).
Proof.
  intros Hs3 Hmiss.
  assert (Hauth : PyStr.truthy_opt (env_get env "HTTP_AUTHORIZATION") = true).
  { destruct Hs3 as (s3 & -> & Haws & _).
    exact (startswith_truthy s3 "AWS" eq_refl Haws). }
  unfold call, call_body. unfold bind at 1.
  rewrite (s3_request_run mc (MkSt env []) k sig Hs3), Hmiss.
  destruct (get_s3_identity self); [| done].
  unfold bind at 1. rewrite auth_request_skip by done.
  rewrite token_request_without_token. unfold without_token, anonymous. simpl.
  by destruct (PyStr.truthy_opt (token_header env)).
Qed.

Lemma s3_authorization_truthy env k sig :
  is_s3_request env k sig ->
  PyStr.truthy_opt (env_get env "HTTP_AUTHORIZATION") = true.
Proof.
  intros (s3 & -> & Haws & _).
  exact (startswith_truthy s3 "AWS" eq_refl Haws).
Qed.

(** An S3 request whose access key has a usable entry: the check of the
    signature raises. *)
Lemma call_s3_error mc env k sig data e :
  is_s3_request env k sig ->
  fresh_entry self now (memcache_get mc ("mauth_s3_apikey/" +:+ k))
  = Some data ->
  s3_signature_matches data env sig = Raised e ->
  call self (Some mc) now env = (Failed e, []).
Proof.
  intros Hs3 Hhit Hsig.
  unfold call, call_body. unfold bind at 1.
  rewrite (s3_request_run mc (MkSt env []) k sig Hs3), Hhit.
  cbn [st_env st_trace]. by rewrite Hsig.
Qed.

(** The signatures differ. *)
Lemma call_s3_mismatch mc env k sig data :
  is_s3_request env k sig ->
  fresh_entry self now (memcache_get mc ("mauth_s3_apikey/" +:+ k))
  = Some data ->
  s3_signature_matches data env sig = Ok false ->
  call self (Some mc) now env = (without_token env, []).
Proof.
  intros Hs3 Hhit Hsig.
  pose proof (s3_authorization_truthy _ _ _ Hs3) as Hauth.
  unfold call, call_body. unfold bind at 1.
  rewrite (s3_request_run mc (MkSt env []) k sig Hs3), Hhit.
  cbn [st_env st_trace]. rewrite Hsig.
  unfold bind at 1. rewrite auth_request_skip by done.
  rewrite token_request_without_token. unfold without_token, anonymous. simpl.
  by destruct (PyStr.truthy_opt (token_header env)).
Qed.

(** The signatures agree. *)
Lemma call_s3_match mc env k sig data d path_info :
  is_s3_request env k sig ->
  fresh_entry self now (memcache_get mc ("mauth_s3_apikey/" +:+ k))
  = Some data ->
  s3_signature_matches data env sig = Ok true ->
  d_identity data = Some d ->
  dict_truthy d = true ->
  env_get env "PATH_INFO" = Some path_info ->
  call self (Some mc) now env
  = (match d_roles d with
     | Some roles =>
         Forwarded
           (installed d roles
              (set_var "PATH_INFO" (s3_account_path self path_info k d) env))
     | None => Failed KeyError
     end, []).
Proof.
  intros Hs3 Hhit Hsig Hid Hd Hp.
  pose proof (s3_authorization_truthy _ _ _ Hs3) as Hauth.
  unfold call, call_body. unfold bind at 1.
  rewrite (s3_request_run mc (MkSt env []) k sig Hs3), Hhit.
  cbn [st_env st_trace]. rewrite Hsig, Hid, Hp.
  unfold bind at 1. rewrite auth_request_skip.
  - simpl. rewrite token_request_identity by done. simpl.
    by destruct (d_roles d).
  - simpl. unfold env_get, set_var. simpl.
    rewrite lookup_insert_ne by done. exact Hauth.
Qed.


Lemma not_aws env :
  PyStr.truthy_opt (env_get env "HTTP_AUTHORIZATION") = false ->
  PyStr.truthy_opt (env_get env "HTTP_AUTHORIZATION")
  && PyStr.startswith
       (default EmptyString (env_get env "HTTP_AUTHORIZATION")) "AWS"
  = false.
Proof. by intros ->. Qed.

(** A request for a token with user and key. *)
Lemma call_auth mc env auth_user auth_key :
  is_auth_request env auth_user auth_key ->
  call self (Some mc) now env
  = match (if ttl_positive env
           then fresh_entry self now
                  (memcache_get mc
                     ("mauth_creds/" +:+ auth_user +:+ "/" +:+ auth_key))
           else None) with
    | Some data =>
        (Responded (MkResponse (d_token data) (d_token data)
                      (d_account_url data)), [])
    | None =>
        (match get_identity self with
         | Ok _ => without_token env
         | Raised e => Failed e
         end, [CallGetIdentity])
    end.
Proof.
  intros Hreq.
  assert (Hauth : PyStr.truthy_opt (env_get env "HTTP_AUTHORIZATION") = false)
    by (by destruct Hreq as ((piece & (H & _) & _) & _)).
  unfold call, call_body. unfold bind at 1.
  rewrite s3_request_skip by (by apply not_aws).
  unfold bind at 1. cbn [fst snd].
  rewrite (auth_request_run mc None Unbound (MkSt env []) _ _ Hreq).
  cbn [st_env st_trace fst snd].
  destruct (if ttl_positive env then _ else _); [done |].
  destruct (get_identity self); [| done].
  rewrite token_request_without_token. unfold without_token, anonymous. simpl.
  by destruct (PyStr.truthy_opt (token_header env)).
Qed.

(** A request on another path, without token. *)
Lemma call_anonymous memcache_client env piece :
  leading_segment env piece ->
  PyStr.mem piece ["auth"; "v1.0"] = false ->
  PyStr.truthy_opt (token_header env) = false ->
  call self memcache_client now env
  = (Forwarded (anonymous env), []).
Proof.
  intros Hseg Hpiece Htok.
  assert (Hauth : PyStr.truthy_opt (env_get env "HTTP_AUTHORIZATION") = false)
    by (by destruct Hseg as [H _]).
  unfold call, call_body. unfold bind at 1.
  rewrite s3_request_skip by (by apply not_aws).
  unfold bind at 1. cbn [fst snd].
  rewrite (auth_request_other _ None Unbound (MkSt env []) piece Hseg Hpiece).
  cbn [st_env st_trace fst snd].
  by rewrite token_request_anonymous.
Qed.

Lemma token_truthy env tok :
  token_header env = Some tok -> PyStr.truthy tok = true ->
  PyStr.truthy_opt (token_header env) = true.
Proof. intros -> H. exact H. Qed.

Lemma call_token_request mc env tok :
  is_token_request env tok ->
  call self (Some mc) now env
  = match fresh_entry self now
            (memcache_get mc ("mauth_token/" +:+ tok)) with
    | Some d =>
        if dict_truthy d
        then (match d_roles d with
              | Some roles => Forwarded (installed d roles env)
              | None => Failed KeyError
              end, [])
        else validated self now tok env
    | None => validated self now tok env
    end.
Proof.
  intros ((piece & Hseg & Hpiece) & Htok & Ht).
  assert (Hauth : PyStr.truthy_opt (env_get env "HTTP_AUTHORIZATION") = false)
    by (by destruct Hseg as [H _]).
  pose proof (token_truthy _ _ Htok Ht) as Htt.
  unfold call, call_body. unfold bind at 1.
  rewrite s3_request_skip by (by apply not_aws).
  unfold bind at 1. cbn [fst snd].
  rewrite (auth_request_other _ None Unbound (MkSt env []) piece Hseg Hpiece).
  cbn [st_env st_trace fst snd]. rewrite Htok.
  unfold token_request, cached_identity, validated_identity,
    install_identity, validated, installed.
  run. rewrite ?Htok; simpl; rewrite ?Ht; simpl.
  destruct (fresh_entry _ _ _) as [d0 |]; simpl;
    [destruct (dict_truthy d0) eqn:Hd0; simpl |].
  - rewrite ?Hd0. destruct (d_roles d0); reflexivity.
  - destruct (validate_token self (Some tok)) as [[d |] | e]; run;
      try reflexivity.
    destruct (dict_truthy d) eqn:Hd; run; [| reflexivity].
    destruct (d_expires d) as [expires |]; run; [| reflexivity].
    destruct (fromtimestamp expires); run; [| reflexivity].
    rewrite ?Hd. destruct (d_roles d); reflexivity.
  - destruct (validate_token self (Some tok)) as [[d |] | e]; run;
      try reflexivity.
    destruct (dict_truthy d) eqn:Hd; run; [| reflexivity].
    destruct (d_expires d) as [expires |]; run; [| reflexivity].
    destruct (fromtimestamp expires); run; [| reflexivity].
    rewrite ?Hd. destruct (d_roles d); reflexivity.
Qed.

End Phases.

(* ===================================================================== *)
(** ** Properties of [__call__] *)
(* ===================================================================== *)

Lemma call_anonymous_other_header self memcache_client now env s3 :
  env_get env "HTTP_AUTHORIZATION" = Some s3 ->
  PyStr.truthy s3 = true ->
  PyStr.startswith s3 "AWS" = false ->
  PyStr.truthy_opt (token_header env) = false ->
  call self memcache_client now env = (Forwarded (anonymous env), []).
Proof.
  intros Hs3 Ht Haws Htok.
  unfold call, call_body. unfold bind at 1.
  rewrite s3_request_skip
    by (cbn [st_env]; rewrite Hs3; simpl; rewrite Haws; apply andb_false_r).
  unfold bind at 1.
  rewrite auth_request_skip by (cbn [st_env]; by rewrite Hs3).
  cbn [fst snd]. by rewrite token_request_anonymous.
Qed.

Lemma call_anonymous_request self memcache_client now env :
  is_anonymous_request env ->
  call self memcache_client now env = (Forwarded (anonymous env), []).
Proof.
  intros [Htok [(s3 & Hs3 & Ht & Haws) | (piece & Hseg & Hpiece)]].
  - by eapply call_anonymous_other_header.
  - by eapply call_anonymous.
Qed.

(** A refusal of [authorize] is a 404 or the response of
    [denied_response]. *)
Lemma authorize_deny_response self req resp env' :
  authorize self req = Ok (Deny resp, env') ->
  resp = HTTPNotFound \/ resp = denied_response req.
Proof.
  unfold authorize. intros Hauth.
  destruct (Swift.split_path (path req) 1 4) as [segs | e] eqn:Hsplit.
  - destruct (split_path_4 _ _ Hsplit) as (v & a & c & o & ->).
    destruct (negb (PyStr.truthy_opt a) || _);
      [right; congruence |].
    case_bool_decide; [discriminate |].
    destruct (container_sync_allowed self req); [discriminate |].
    destruct (Swift.parse_acl (acl req)) as [referrers groups].
    destruct (Swift.referrer_allowed _ _) as [[|] |]; [| | discriminate].
    + destruct (_ || _); [discriminate | right; congruence].
    + destruct (role_in_groups _ _); [discriminate | right; congruence].
  - apply split_path_raises in Hsplit as ->. left. congruence.
Qed.

(** The decoding of the challenge token raises nothing but [TypeError]
    (padding) and [UnicodeDecodeError] (bytes that are not ASCII). *)
Lemma s3_token_of_raises env e :
  s3_token_of env = Raised e -> e = TypeError \/ e = UnicodeDecodeError.
Proof.
  unfold s3_token_of, Base64.urlsafe_b64decode, Base64.b64decode, encode_utf8.
  destruct (Base64.a2b_loop _ _ _ _ _) as [leftbits out].
  destruct (leftbits =? 0); [| intros [= <-]; by left].
  destruct (forallb _ _); [discriminate | intros [= <-]; by right].
Qed.

Lemma fresh_entry_lookup self now mc key expires data :
  0 < cache_timeout self ->
  entries mc !! key = Some (expires, data) ->
  now < expires ->
  fresh_entry self now (memcache_get mc key) = Some data.
Proof.
  intros Hc Hget Hn. unfold memcache_get. rewrite Hget.
  by apply fresh_entry_fresh.
Qed.

Lemma expired_entry_lookup self now mc key expires data :
  entries mc !! key = Some (expires, data) ->
  expires <= now ->
  fresh_entry self now (memcache_get mc key) = None.
Proof.
  intros Hget Hn. unfold memcache_get. rewrite Hget.
  by apply fresh_entry_expired.
Qed.

(* --------------------------------------------------------------------- *)
(** *** Expired entries of memcache *)
(* --------------------------------------------------------------------- *)

(** C3. An identity that a call adds to the environ was returned by
    [validate_token] in this call or is the data of an entry of memcache
    with [expires > now], and the token response is built from such an
    entry. An entry with [expires <= now] is a miss on each of the three
    paths: for an S3 access key [get_s3_identity] is called, for credentials
    [get_identity], for a token [validate_token]; the data of the entry is
    not used: the call adds no identity and gives no token response, unless
    the identity is the one [validate_token] returned. *)
Theorem expired_entry_is_a_miss (self : MultiAuth)
    (memcache_client : option Memcache) (now : Z) (env : Env) :
  (forall env' tr d,
      call self memcache_client now env = (Forwarded env', tr) ->
      mauth_identity env' = Some d ->
      mauth_identity env <> Some d ->
      Provenance self memcache_client now tr d)
  /\ (forall resp tr,
        call self memcache_client now env = (Responded resp, tr) ->
        exists key data,
          cached_fresh memcache_client now key data
          /\ resp = MkResponse (d_token data) (d_token data)
                      (d_account_url data))
  /\ (forall mc expires data,
        memcache_client = Some mc ->
        expires <= now ->
        (forall k sig,
            is_s3_request env k sig ->
            entries mc !! ("mauth_s3_apikey/" +:+ k) = Some (expires, data) ->
            exists o,
              call self memcache_client now env = (o, [CallGetS3Identity])
              /\ adds_no_identity env o)
        /\ (forall auth_user auth_key,
              is_auth_request env auth_user auth_key ->
              entries mc !! ("mauth_creds/" +:+ auth_user +:+ "/" +:+ auth_key)
              = Some (expires, data) ->
              exists o,
                call self memcache_client now env = (o, [CallGetIdentity])
                /\ adds_no_identity env o)
        /\ (forall token,
              is_token_request env token ->
              entries mc !! ("mauth_token/" +:+ token) = Some (expires, data) ->
              exists o tr,
                call self memcache_client now env
                = (o, CallValidateToken (Some token) :: tr)
                /\ (adds_no_identity env o
                    \/ exists d,
                        outcome_identity o = Some d
                        /\ validate_token self (Some token) = Ok (Some d)))).
Proof.
  split; [| split].
  - intros env' tr d Hcall Hd Hnew.
    apply call_inv in Hcall as [Hsame | (d' & Hd' & Hprov)]; congruence.
  - intros resp tr Hcall. by apply call_inv in Hcall.
  - intros mc expires data -> Hexp. split; [| split].
    + intros k sig Hs3 Hget.
      rewrite (call_s3_miss self now mc env k sig Hs3)
        by (by eapply expired_entry_lookup).
      eexists. split; [reflexivity |].
      destruct (get_s3_identity self); [| done].
      unfold without_token. destruct (PyStr.truthy_opt _); done.
    + intros auth_user auth_key Hreq Hget.
      rewrite (call_auth self now mc env auth_user auth_key Hreq).
      rewrite (expired_entry_lookup self now mc _ expires data Hget Hexp).
      replace (if ttl_positive env then None else None)
        with (@None Dict) by (by destruct (ttl_positive env)).
      eexists. split; [reflexivity |].
      destruct (get_identity self); [| done].
      unfold without_token. destruct (PyStr.truthy_opt _); done.
    + intros token Hreq Hget.
      rewrite (call_token_request self now mc env token Hreq).
      rewrite (expired_entry_lookup self now mc _ expires data Hget Hexp).
      unfold validated.
      destruct (validate_token self (Some token)) as [[d |] | e];
        [destruct (dict_truthy d);
         [destruct (d_expires d) as [ex |];
          [destruct (fromtimestamp ex); [destruct (d_roles d) |] |] |] | |].
      all: eexists _, _; (split; [reflexivity |]).
      all: try (by left).
      right. by exists d.
Qed.

Lemma expired_entry_is_a_miss_witness :
  entries sample_cache !! "mauth_token/T2" = Some (900, alice_stale)
  /\ 900 <= sample_now
  /\ Provenance sample_self (Some sample_cache) sample_now
       [CallValidateToken (Some "T2");
        CacheSet "mauth_token/T2" (4600, alice_renewed) 3600] alice_renewed.
Proof.
  split; [vm_compute; reflexivity |].
  split; [vm_compute; discriminate |].
  apply (proj1 (expired_entry_is_a_miss sample_self (Some sample_cache)
                  sample_now with_token_T2)
           (installed alice_renewed ["admin"] with_token_T2)).
  - vm_compute. reflexivity.
  - reflexivity.
  - discriminate.
Defined.

(* --------------------------------------------------------------------- *)
(** *** The token response from cached credentials *)
(* --------------------------------------------------------------------- *)

(** C4, as stated, fails. With [cache_timeout] set to 0 the entry for the
    credentials, though not expired, is not used: [get_identity] is called
    and the request goes downstream. And with an [Authorization] header that
    is not an S3 one the request for a token is passed on as anonymous. *)
Lemma cached_credentials_not_always_answered :
  Swift.split_path "/v1.0" 1 2 = Ok [Some "v1.0"; None]
  /\ entries sample_cache !! "mauth_creds/alice/k1" = Some (4600, alice)
  /\ sample_now < 4600
  /\ ttl_positive token_wanted = true
  /\ call sample_self_no_cache (Some sample_cache) sample_now token_wanted
     = (Forwarded (anonymous token_wanted), [CallGetIdentity])
  /\ call sample_self (Some sample_cache) sample_now token_wanted_basic
     = (Forwarded (anonymous token_wanted_basic), []).
Proof. vm_compute. repeat split; reflexivity. Qed.

(** C4, amended. For a request for a token (no [Authorization] header,
    leading segment [auth] or [v1.0], [X-Auth-User] and [X-Auth-Key] not
    empty), when caching is on ([cache_timeout > 0]), memcache holds an
    entry for the credentials with [expires > now] and the test on
    [X-Auth-TTL] passes, the call answers with the token and the account
    URL of the cached identity; no interface method is called and the
    downstream app does not run. *)
Theorem cached_credentials_answered (self : MultiAuth) (mc : Memcache)
    (now : Z) (env : Env) (auth_user auth_key : string) (expires : Z)
    (identity : Dict) :
  is_auth_request env auth_user auth_key ->
  0 < cache_timeout self ->
  entries mc !! ("mauth_creds/" +:+ auth_user +:+ "/" +:+ auth_key)
  = Some (expires, identity) ->
  now < expires ->
  ttl_positive env = true ->
  call self (Some mc) now env
  = (Responded (MkResponse (d_token identity) (d_token identity)
                  (d_account_url identity)), []).
Proof.
  intros Hreq Hc Hget Hn Httl.
  rewrite (call_auth self now mc env auth_user auth_key Hreq), Httl.
  by rewrite (fresh_entry_lookup self now mc _ expires identity Hc Hget Hn).
Qed.

Lemma cached_credentials_answered_witness :
  call sample_self (Some sample_cache) sample_now token_wanted
  = (Responded (MkResponse (Some "T1") (Some "T1")
                  (Some "http://127.0.0.1:8080/v1/AUTH_alice")), []).
Proof.
  apply (cached_credentials_answered sample_self sample_cache sample_now
           token_wanted "alice" "k1" 4600 alice).
  - split; [| vm_compute; repeat split; reflexivity].
    exists "v1.0". split; [| reflexivity].
    split; [reflexivity |]. exists "/v1.0", None.
    vm_compute. split; reflexivity.
  - reflexivity.
  - vm_compute. reflexivity.
  - reflexivity.
  - reflexivity.
Defined.

(* --------------------------------------------------------------------- *)
(** *** S3 requests *)
(* --------------------------------------------------------------------- *)

(** X23. An S3 request checked against a usable entry whose signature
    differs: [get_s3_identity] is not called; the call raises
    [UnboundLocalError]
    when the request has a token header, and passes the request on as
    anonymous when it has none. *)
Lemma s3_mismatch_outcome (self : MultiAuth) (mc : Memcache) (now : Z)
    (env : Env) (k sig : string) (expires : Z) (data : Dict) :
  is_s3_request env k sig ->
  0 < cache_timeout self ->
  entries mc !! ("mauth_s3_apikey/" +:+ k) = Some (expires, data) ->
  now < expires ->
  s3_signature_matches data env sig = Ok false ->
  call self (Some mc) now env = (without_token env, []).
Proof.
  intros Hs3 Hc Hget Hn Hsig.
  apply (call_s3_mismatch self now mc env k sig data Hs3); [| done].
  by eapply fresh_entry_lookup.
Qed.

(** C5, on the code. The S3 request [s3_forged] comes with a signature that
    is not the one computed from the cached secret, for an access key whose
    entry has not expired. The call does not deny it: it raises
    [UnboundLocalError], the local [token] being read at line 216 without
    having been assigned. Without token header the request is passed on as
    anonymous, under the [authorize] hook. [get_s3_identity] is called in
    neither case. *)
Theorem s3_signature_mismatch_raises :
  entries sample_cache !! "mauth_s3_apikey/AKIAXXX" = Some (4600, alice_s3)
  /\ sample_now < 4600
  /\ s3_credentials "AWS AKIAXXX:sig1" = Ok ("AKIAXXX", "sig1")
  /\ s3_signature_matches alice_s3 s3_forged "sig1" = Ok false
  /\ call sample_self (Some sample_cache) sample_now s3_forged
     = (Failed UnboundLocalError, [])
  /\ call sample_self (Some sample_cache) sample_now s3_forged_no_token
     = (Forwarded (anonymous s3_forged_no_token), []).
Proof. vm_compute. repeat split; reflexivity. Qed.

(** C6, on the code. [Authorization: AWS malformed] has no colon: the
    unpacking of line 133 raises [ValueError], and the call ends with this
    exception instead of a refusal. With [Authorization: AWS] alone it is
    [IndexError]. An empty access key or signature next to a colon does
    reach the refusal. *)
Theorem s3_malformed_header_raises :
  call sample_self (Some sample_cache) sample_now s3_malformed
  = (Failed ValueError, [])
  /\ call sample_self (Some sample_cache) sample_now s3_no_credentials
     = (Failed IndexError, [])
  /\ call sample_self (Some sample_cache) sample_now
       (environ_of [("HTTP_AUTHORIZATION", "AWS :sig1")] None)
     = (Forwarded
          (set_authorize HookDenied
             (environ_of [("HTTP_AUTHORIZATION", "AWS :sig1")] None)), []).
Proof. vm_compute. repeat split; reflexivity. Qed.

(** X22. An S3 request checked with success against a usable entry: every
    occurrence of the access key in [PATH_INFO] is replaced by the account
    of the cached identity, behind the reseller prefix and [_] when there
    is a prefix. *)
Lemma s3_cached_identity_rewrites_path (self : MultiAuth) (mc : Memcache)
    (now : Z) (env : Env) (k sig : string) (expires : Z) (data d : Dict)
    (path_info : string) (roles : list string) :
  is_s3_request env k sig ->
  0 < cache_timeout self ->
  entries mc !! ("mauth_s3_apikey/" +:+ k) = Some (expires, data) ->
  now < expires ->
  s3_signature_matches data env sig = Ok true ->
  d_identity data = Some d ->
  dict_truthy d = true ->
  d_roles d = Some roles ->
  env_get env "PATH_INFO" = Some path_info ->
  exists env',
    call self (Some mc) now env = (Forwarded env', [])
    /\ mauth_identity env' = Some d
    /\ env_get env' "PATH_INFO"
       = Some (PyStr.replace path_info k
                 (if PyStr.truthy (reseller_prefix self)
                  then reseller_prefix self +:+ "_"
                       +:+ default EmptyString (d_account d)
                  else default EmptyString (d_account d))).
Proof.
  intros Hs3 Hc Hget Hn Hsig Hid Hd Hroles Hp.
  rewrite (call_s3_match self now mc env k sig data d path_info Hs3
             (fresh_entry_lookup self now mc _ expires data Hc Hget Hn)
             Hsig Hid Hd Hp), Hroles.
  eexists. split; [reflexivity |]. split; [reflexivity |].
  unfold installed, env_get, set_clean_acl, set_authorize, set_var,
    set_identity. simpl.
  rewrite lookup_insert_ne by done. rewrite lookup_insert_eq.
  unfold s3_account_path. by destruct (PyStr.truthy (reseller_prefix self)).
Qed.

(** C7, on the code. Without entry for the access key [get_s3_identity] is
    called, and returns the identity of [alice]; what it returns is dropped:
    the path is not rewritten and no identity reaches the environ. The call
    raises [UnboundLocalError] (the request has the token header the S3
    front end sets), or passes the request on as anonymous with [PATH_INFO]
    as it came. With an entry for the access key the same request has its
    path rewritten to [/v1/AUTH_alice/bucket]. *)
Theorem s3_provider_identity_is_dropped :
  entries empty_cache !! "mauth_s3_apikey/AKIAXXX" = None
  /\ get_s3_identity sample_self = Ok (Some alice)
  /\ call sample_self (Some empty_cache) sample_now s3_signed
     = (Failed UnboundLocalError, [CallGetS3Identity])
  /\ call sample_self (Some empty_cache) sample_now s3_forged_no_token
     = (Forwarded (anonymous s3_forged_no_token), [CallGetS3Identity])
  /\ env_get (anonymous s3_forged_no_token) "PATH_INFO"
     = Some "/v1/AKIAXXX/bucket"
  /\ mauth_identity (anonymous s3_forged_no_token) = None
  /\ call sample_self (Some sample_cache) sample_now s3_signed
     = (Forwarded
          (installed alice ["admin"]
             (set_var "PATH_INFO" "/v1/AUTH_alice/bucket" s3_signed)), []).
Proof. vm_compute. repeat split; reflexivity. Qed.

(* --------------------------------------------------------------------- *)
(** *** Anonymous requests *)
(* --------------------------------------------------------------------- *)

(** C9, as stated, fails. A request with neither [Authorization] header
    nor token on the path [/v1.0] goes downstream under the
    [denied_response] hook, not under [authorize]; and one whose path does
    not split is answered with 404 and does not go downstream at all. *)
Lemma anonymous_not_always_under_authorize :
  env_get token_path_bare "HTTP_AUTHORIZATION" = None
  /\ token_header token_path_bare = None
  /\ call sample_self (Some sample_cache) sample_now token_path_bare
     = (Forwarded (set_authorize HookDenied token_path_bare), [])
  /\ env_get no_leading_slash "HTTP_AUTHORIZATION" = None
  /\ token_header no_leading_slash = None
  /\ call sample_self (Some sample_cache) sample_now no_leading_slash
     = (NotFound, []).
Proof. vm_compute. repeat split; reflexivity. Qed.

(** C9, amended. A request without token and without S3 [Authorization]
    header that is not on one of the two token paths (it has an
    [Authorization] header of another kind, or its path splits with a
    leading segment other than [auth] and [v1.0]) goes downstream with the
    environ it came with, the [authorize] hook and [clean_acl]; no
    interface method is called and no identity is added. A call of the
    hook on this environ, for a path that splits, in which the ownership
    rule, container sync, the referrer rule and the role rule all fail,
    refuses the request with 401 when the environ has no [REMOTE_USER],
    and with 403 when it has one; nothing else enters the choice. *)
Theorem anonymous_request_forwarded (self : MultiAuth)
    (memcache_client : option Memcache) (now : Z) (env : Env) :
  is_anonymous_request env ->
  call self memcache_client now env = (Forwarded (anonymous env), [])
  /\ mauth_identity (anonymous env) = mauth_identity env
  /\ swift_authorize (anonymous env) = Some HookAuthorize
  /\ forall req version _account container obj referrers groups b,
      environ req = anonymous env ->
      Swift.split_path (path req) 1 4
      = Ok [version; _account; container; obj] ->
      ~ owns self req ->
      container_sync_allowed self req = false ->
      Swift.parse_acl (acl req) = (referrers, groups) ->
      Swift.referrer_allowed (referer_hostname req) referrers = Ok b ->
      b && (PyStr.truthy_opt obj || PyStr.mem ".rlistings" groups) = false ->
      role_in_groups
        (default [] (d_roles (default empty_dict
                                (mauth_identity (environ req))))) groups
      = false ->
      run_hook self HookAuthorize req
      = Ok (Deny (if PyStr.truthy_opt (env_get env "REMOTE_USER")
                  then HTTPForbidden else HTTPUnauthorized),
            anonymous env).
Proof.
  intros Hanon. split; [by apply call_anonymous_request |].
  split; [reflexivity |]. split; [reflexivity |].
  intros req version _account container obj referrers groups b
    Henv Hsplit Hnot Hsync Hacl Href Hrule Hrole.
  assert (Hdenied : Ok (Deny (denied_response req), environ req)
                    = Ok (Deny (if PyStr.truthy_opt (env_get env "REMOTE_USER")
                                then HTTPForbidden else HTTPUnauthorized),
                          anonymous env) :> PyResult (Decision * Env)).
  { unfold denied_response, remote_user. by rewrite Henv. }
  rewrite <- Hdenied. simpl. unfold authorize. rewrite Hsplit.
  destruct (negb (PyStr.truthy_opt _account) || _) eqn:Hgate; [done |].
  apply orb_false_iff in Hgate as [Ht Hp].
  apply negb_false_iff in Ht. apply negb_false_iff in Hp.
  destruct _account as [_account |]; [| discriminate]. simpl in *.
  case_bool_decide as Hacc.
  { exfalso. apply Hnot. exists version, _account, container, obj.
    by repeat split. }
  rewrite Hsync, Hacl, Href.
  destruct b; simpl in Hrule; [by rewrite Hrule | by rewrite Hrole].
Qed.

Lemma anonymous_request_forwarded_witness :
  call sample_self (Some sample_cache) sample_now anonymous_get
  = (Forwarded (anonymous anonymous_get), [])
  /\ run_hook sample_self HookAuthorize
       (MkRequest (anonymous anonymous_get) "/v1/AUTH_bob/c1" None None)
     = Ok (Deny HTTPUnauthorized, anonymous anonymous_get).
Proof.
  assert (H : is_anonymous_request anonymous_get).
  { split; [reflexivity |]. right. exists "v1". split; [| reflexivity].
    split; [reflexivity |]. exists "/v1/AUTH_bob/c1", (Some "AUTH_bob/c1").
    vm_compute. split; reflexivity. }
  destruct (anonymous_request_forwarded sample_self (Some sample_cache)
              sample_now anonymous_get H) as (Hcall & _ & _ & Hhook).
  split; [exact Hcall |].
  apply (Hhook (MkRequest (anonymous anonymous_get) "/v1/AUTH_bob/c1"
                  None None)
           (Some "v1") (Some "AUTH_bob") (Some "c1") None [] [] false).
  - reflexivity.
  - vm_compute. reflexivity.
  - intros (v & a & c & o & _ & _ & _ & Hacc). vm_compute in Hacc.
    discriminate.
  - vm_compute. reflexivity.
  - vm_compute. reflexivity.
  - vm_compute. reflexivity.
  - reflexivity.
  - reflexivity.
Defined.

(* --------------------------------------------------------------------- *)
(** *** The challenge token of an S3 request *)
(* --------------------------------------------------------------------- *)

(** C10, on the code. The check of an S3 request against the cached secret
    has nothing around the decoding of the challenge token (lines 146-147).
    With the token header [a], which is not base64, the decoding raises
    [TypeError]; with [_w==], which decodes to the byte 255, the [encode]
    that follows raises [UnicodeDecodeError]. Either exception leaves the
    check and the call: the request is not refused, the downstream app
    does not run and no interface method is called. *)
Theorem s3_decoding_failure_escapes :
  entries sample_cache !! "mauth_s3_apikey/AKIAXXX" = Some (4600, alice_s3)
  /\ sample_now < 4600
  /\ Base64.urlsafe_b64decode "a" = Raised TypeError
  /\ s3_signature_matches alice_s3 s3_bad_padding "sig1" = Raised TypeError
  /\ call sample_self (Some sample_cache) sample_now s3_bad_padding
     = (Failed TypeError, [])
  /\ Base64.urlsafe_b64decode "_w==" = Ok (String (PyStr.char_of 255) "")
  /\ s3_signature_matches alice_s3 s3_not_ascii "sig1"
     = Raised UnicodeDecodeError
  /\ call sample_self (Some sample_cache) sample_now s3_not_ascii
     = (Failed UnicodeDecodeError, []).
Proof. vm_compute. repeat split; reflexivity. Qed.

(** The same for every S3 request checked against a usable entry: what the
    decoding of the challenge token raises, [TypeError] or
    [UnicodeDecodeError], is what the call ends with. *)
Lemma s3_decoding_error_leaves_call (self : MultiAuth) (mc : Memcache)
    (now : Z) (env : Env) (k sig : string) (expires : Z) (data : Dict)
    (e : PyExn) :
  is_s3_request env k sig ->
  0 < cache_timeout self ->
  entries mc !! ("mauth_s3_apikey/" +:+ k) = Some (expires, data) ->
  now < expires ->
  s3_token_of env = Raised e ->
  (e = TypeError \/ e = UnicodeDecodeError)
  /\ call self (Some mc) now env = (Failed e, []).
Proof.
  intros Hs3 Hc Hget Hn Htok.
  assert (Hsig : s3_signature_matches data env sig = Raised e)
    by (unfold s3_signature_matches; by rewrite Htok).
  split; [by eapply s3_token_of_raises |].
  apply (call_s3_error self now mc env k sig data e Hs3); [| done].
  by eapply fresh_entry_lookup.
Qed.

(* ===================================================================== *)
(** ** More on [authorize] *)
(* ===================================================================== *)

(** X1. [authorize] lets a request in only by one of its four rules: the
    path splits in an account that passes the reseller prefix test, and
    the identity owns the account, or the container sync test passes, or
    the referrer matches with an object in the path or [.rlistings] in the
    ACL, or the referrer does not match and a role of the identity is
    among the groups of the ACL. *)
Theorem authorize_allow_sound (self : MultiAuth) (req : Request) (env' : Env) :
  authorize self req = Ok (Allow, env') -> let_in self req.
Proof.
  unfold authorize. intros Hauth.
  destruct (Swift.split_path (path req) 1 4) as [segs | e] eqn:Hsplit.
  - destruct (split_path_4 _ _ Hsplit) as (v & a & c & o & ->).
    destruct (negb (PyStr.truthy_opt a) || _) eqn:Hgate; [discriminate |].
    apply orb_false_iff in Hgate as [Ht Hp].
    apply negb_false_iff in Ht. apply negb_false_iff in Hp.
    destruct a as [_account |]; [| discriminate]. simpl in *.
    destruct (Swift.parse_acl (acl req)) as [referrers groups] eqn:Hacl.
    exists v, _account, c, o, referrers, groups.
    do 4 (split; [done |]).
    case_bool_decide as Hacc.
    { left. exists v, _account, c, o. eauto. }
    destruct (container_sync_allowed self req) eqn:Hsync; [by right; left |].
    destruct (Swift.referrer_allowed _ _) as [[|] |]; [| | discriminate].
    + destruct (PyStr.truthy_opt o) eqn:Ho; simpl in Hauth.
      * right; right; left. auto.
      * destruct (PyStr.mem ".rlistings" groups) eqn:Hl; [| discriminate].
        right; right; left. auto.
    + destruct (role_in_groups _ _) eqn:Hr; [| discriminate].
      right; right; right. auto.
  - apply split_path_raises in Hsplit as ->. discriminate.
Qed.

Lemma authorize_allow_sound_witness : let_in sample_self alice_on_her_object.
Proof.
  apply (authorize_allow_sound sample_self alice_on_her_object
           (set_owner true (environ alice_on_her_object))).
  vm_compute. reflexivity.
Defined.

Lemma role_in_groups_In user_roles groups :
  role_in_groups user_roles groups = true
  <-> exists role, In role user_roles /\ In role groups.
Proof.
  unfold role_in_groups, PyStr.mem. rewrite existsb_exists.
  split; intros (role & Hin & H); exists role; (split; [done |]).
  - apply existsb_exists in H as (g & Hg & Heq).
    apply String.eqb_eq in Heq. by subst.
  - apply existsb_exists. exists role. split; [done |]. apply String.eqb_refl.
Qed.

(** X2. A request without identity in the environ is let in only by
    container sync or by a referrer rule of the ACL, and its environ is
    left as it was: it is never marked owner. *)
Theorem authorize_anonymous_allow (self : MultiAuth) (req : Request)
    (env' : Env) :
  mauth_identity (environ req) = None ->
  authorize self req = Ok (Allow, env') ->
  env' = environ req
  /\ (container_sync_allowed self req = true
      \/ Swift.referrer_allowed (referer_hostname req)
           (fst (Swift.parse_acl (acl req))) = Ok true).
Proof.
  intros Hnone Hauth.
  assert (Hnot : ~ owns self req).
  { intros (v & a & c & o & _ & _ & _ & Hacc). by rewrite Hnone in Hacc. }
  split; [by eapply authorize_environ |].
  revert Hauth. unfold authorize. rewrite Hnone. simpl.
  destruct (Swift.split_path (path req) 1 4) as [segs | e] eqn:Hsplit.
  - destruct (split_path_4 _ _ Hsplit) as (v & a & c & o & ->).
    destruct (negb (PyStr.truthy_opt a) || _); [discriminate |].
    destruct (container_sync_allowed self req); [by left |].
    destruct (Swift.parse_acl (acl req)) as [referrers groups]. simpl.
    destruct (Swift.referrer_allowed _ _) as [[|] |];
      [by right | discriminate..].
  - apply split_path_raises in Hsplit as ->. discriminate.
Qed.

Lemma authorize_anonymous_allow_witness :
  environ anonymous_reads_bobs_object = environ anonymous_reads_bobs_object
  /\ (container_sync_allowed sample_self anonymous_reads_bobs_object = true
      \/ Swift.referrer_allowed (referer_hostname anonymous_reads_bobs_object)
           (fst (Swift.parse_acl (acl anonymous_reads_bobs_object)))
         = Ok true).
Proof.
  apply (authorize_anonymous_allow sample_self anonymous_reads_bobs_object).
  - reflexivity.
  - vm_compute. reflexivity.
Defined.

(** X3. The role rule. When [authorize] gets as far as the ACL and the
    referrer does not match, the request is either let in or refused with
    the response of [denied_response], and it is let in exactly when a role
    of the identity is among the groups of the ACL. *)
Theorem authorize_role_acl (self : MultiAuth) (req : Request)
    (obj : option string) (referrers groups : list string) :
  reaches_acl self req obj ->
  Swift.parse_acl (acl req) = (referrers, groups) ->
  Swift.referrer_allowed (referer_hostname req) referrers = Ok false ->
  (authorize self req = Ok (Allow, environ req)
   \/ authorize self req = Ok (Deny (denied_response req), environ req))
  /\ (authorize self req = Ok (Allow, environ req)
      <-> exists role,
           In role (default [] (d_roles (default empty_dict
                                           (mauth_identity (environ req)))))
           /\ In role groups).
Proof.
  intros Hreach Hacl Href.
  rewrite (authorize_reaches_acl _ _ _ Hreach), Hacl, Href.
  rewrite <- role_in_groups_In.
  destruct (role_in_groups _ _); split; auto; split; congruence.
Qed.

Lemma authorize_role_acl_witness :
  authorize sample_self alice_reads_bobs_container
  = Ok (Allow, environ alice_reads_bobs_container)
  <-> exists role,
       In role (default [] (d_roles (default empty_dict
                  (mauth_identity (environ alice_reads_bobs_container)))))
       /\ In role ["admin"].
Proof.
  apply (authorize_role_acl sample_self alice_reads_bobs_container
           (@None string) [] ["admin"]).
  - exists (Some "v1"), "AUTH_bob", (Some "c1").
    vm_compute. repeat split; try reflexivity. discriminate.
  - vm_compute. reflexivity.
  - vm_compute. reflexivity.
Defined.

Lemma drop_app (p s : string) : PyStr.drop (String.length p) (p +:+ s) = s.
Proof. induction p as [| c p IH]; [by destruct s | exact IH]. Qed.

Lemma prefix_app (p s : string) : String.prefix p (p +:+ s) = true.
Proof.
  induction p as [| c p IH]; simpl; [by destruct s |].
  destruct (Ascii.ascii_dec c c); [exact IH | done].
Qed.

(** The character after the reseller prefix is dropped, whatever it is. *)
Lemma strip_prefix_separator (self : MultiAuth) (c : ascii) (account : string) :
  PyStr.truthy (reseller_prefix self) = true ->
  strip_prefix self (reseller_prefix self +:+ String c account) = account.
Proof.
  intros Ht. unfold strip_prefix. rewrite Ht.
  replace (String.length (reseller_prefix self) + 1)%nat
    with (S (String.length (reseller_prefix self))) by lia.
  generalize (reseller_prefix self). intros p.
  induction p as [| c0 p IH]; simpl; [done | exact IH].
Qed.

(** X4. The separator between the reseller prefix and the account is not
    looked at: with a non-empty prefix, the identity of account [a] owns
    the path account made of the prefix, any one character and [a]. *)
Theorem authorize_owner_any_separator (self : MultiAuth) (req : Request)
    (version container obj : option string) (c : ascii) (account : string)
    (identity : Dict) :
  PyStr.truthy (reseller_prefix self) = true ->
  Swift.split_path (path req) 1 4
  = Ok [version; Some (reseller_prefix self +:+ String c account);
        container; obj] ->
  mauth_identity (environ req) = Some identity ->
  d_account identity = Some account ->
  authorize self req = Ok (Allow, set_owner true (environ req)).
Proof.
  intros Ht Hsplit Hid Hacc. apply authorize_owns.
  exists version, (reseller_prefix self +:+ String c account), container, obj.
  split; [done |]. split.
  { destruct (reseller_prefix self); [done | reflexivity]. }
  split; [apply prefix_app |].
  rewrite Hid. simpl. by rewrite strip_prefix_separator.
Qed.

Lemma authorize_owner_any_separator_witness :
  authorize sample_self alice_with_dash
  = Ok (Allow, set_owner true (environ alice_with_dash)).
Proof.
  apply (authorize_owner_any_separator sample_self alice_with_dash
           (Some "v1") (Some "c1") None "-"%char "alice" alice).
  - reflexivity.
  - vm_compute. reflexivity.
  - reflexivity.
  - reflexivity.
Defined.

Lemma authorize_not_found_split (self : MultiAuth) (req : Request) :
  (exists env', authorize self req = Ok (Deny HTTPNotFound, env'))
  <-> Swift.split_path (path req) 1 4 = Raised ValueError.
Proof.
  split.
  - intros [env' Hauth].
    destruct (Swift.split_path (path req) 1 4) as [segs | e] eqn:Hsplit.
    + exfalso. revert Hauth. unfold authorize. rewrite Hsplit.
      destruct (split_path_4 _ _ Hsplit) as (v & a & c & o & ->).
      assert (Hd : denied_response req <> HTTPNotFound)
        by (unfold denied_response; by destruct (PyStr.truthy_opt _)).
      destruct (negb (PyStr.truthy_opt a) || _); [congruence |].
      case_bool_decide; [discriminate |].
      destruct (container_sync_allowed self req); [discriminate |].
      destruct (Swift.parse_acl (acl req)) as [referrers groups].
      destruct (Swift.referrer_allowed _ _) as [[|] |]; [| | discriminate].
      * destruct (_ || _); congruence.
      * destruct (role_in_groups _ _); congruence.
    + by apply split_path_raises in Hsplit as ->.
  - intros Hsplit. exists (environ req). unfold authorize. by rewrite Hsplit.
Qed.

(** X5. The refusals of [authorize]: it answers 404 exactly when the path
    does not split, and every other refusal is the response of
    [denied_response], which is 401 or 403. *)
Theorem authorize_not_found_iff (self : MultiAuth) (req : Request) :
  ((exists env', authorize self req = Ok (Deny HTTPNotFound, env'))
   <-> Swift.split_path (path req) 1 4 = Raised ValueError)
  /\ (forall resp env',
        authorize self req = Ok (Deny resp, env') ->
        resp <> HTTPNotFound ->
        resp = denied_response req
        /\ exists segs, Swift.split_path (path req) 1 4 = Ok segs)
  /\ (denied_response req = HTTPUnauthorized
      \/ denied_response req = HTTPForbidden).
Proof.
  split; [apply authorize_not_found_split |]. split.
  - intros resp env' Hauth Hresp.
    destruct (authorize_deny_response _ _ _ _ Hauth) as [-> | ->]; [done |].
    split; [done |].
    destruct (Swift.split_path (path req) 1 4) as [segs | e] eqn:Hsplit;
      [by exists segs |].
    exfalso. pose proof (split_path_raises _ _ _ _ Hsplit) as ->.
    revert Hauth. unfold authorize. rewrite Hsplit. congruence.
  - unfold denied_response. destruct (PyStr.truthy_opt _); auto.
Qed.

(** X6. Container sync on the word of a header: a request that is not the
    owner's, with the sync key of the container in X-Container-Sync-Key,
    an X-Timestamp, no X-Cluster-Client-Ip and an allowed host first in
    X-Forwarded-For is let in, whatever the ACL, the identity and the
    address of the peer. *)
Theorem container_sync_forwarded_for (self : MultiAuth) (req : Request)
    (version container obj : option string) (_account key xff : string) :
  Swift.split_path (path req) 1 4
  = Ok [version; Some _account; container; obj] ->
  PyStr.truthy _account = true ->
  PyStr.startswith _account (reseller_prefix self) = true ->
  ~ owns self req ->
  env_get (environ req) "swift_sync_key" = Some key ->
  PyStr.truthy key = true ->
  env_get (environ req) "HTTP_X_CONTAINER_SYNC_KEY" = Some key ->
  is_Some (env_get (environ req) "HTTP_X_TIMESTAMP") ->
  env_get (environ req) "HTTP_X_CLUSTER_CLIENT_IP" = None ->
  env_get (environ req) "HTTP_X_FORWARDED_FOR" = Some xff ->
  PyStr.truthy (PyStr.strip (hd EmptyString (PyStr.split "," None xff)))
  = true ->
  PyStr.mem (PyStr.strip (hd EmptyString (PyStr.split "," None xff)))
    (allowed_sync_hosts self) = true ->
  authorize self req = Ok (Allow, environ req).
Proof.
  intros Hsplit Ht Hp Hnot Hkey Hkt Hhdr Hts Hip Hxff Hxt Hmem.
  unfold authorize. rewrite Hsplit. simpl. rewrite Ht, Hp. simpl.
  case_bool_decide as Hown.
  { exfalso. apply Hnot. exists version, _account, container, obj.
    by repeat split. }
  assert (Hsync : container_sync_allowed self req = true).
  { unfold container_sync_allowed, get_remote_client.
    rewrite Hkey, Hhdr, Hip, Hxff. simpl. rewrite Hkt, Hxt. simpl.
    rewrite Hmem, orb_true_r.
    rewrite !bool_decide_eq_true_2 by done. done. }
  by rewrite Hsync.
Qed.

Lemma container_sync_forwarded_for_witness :
  remote_addr sync_request = Some "10.9.9.9"
  /\ authorize sample_self sync_request = Ok (Allow, environ sync_request).
Proof.
  split; [vm_compute; reflexivity |].
  apply (container_sync_forwarded_for sample_self sync_request
           (Some "v1") (Some "c1") (Some "obj") "AUTH_bob" "secret"
           "127.0.0.1, 10.0.0.1").
  - vm_compute. reflexivity.
  - reflexivity.
  - reflexivity.
  - intros (v & a & c & o & _ & _ & _ & H). vm_compute in H. discriminate.
  - vm_compute. reflexivity.
  - reflexivity.
  - vm_compute. reflexivity.
  - vm_compute. eauto.
  - vm_compute. reflexivity.
  - vm_compute. reflexivity.
  - vm_compute. reflexivity.
  - vm_compute. reflexivity.
Defined.

(* ===================================================================== *)
(** ** What a call does to the environ and outside it *)
(* ===================================================================== *)

Lemma env_get_set_var_ne (k v k' : string) (env : Env) :
  k <> k' -> env_get (set_var k v env) k' = env_get env k'.
Proof. intros H. unfold env_get, set_var. simpl. by rewrite lookup_insert_ne. Qed.

Lemma env_get_set_var (k v : string) (env : Env) :
  env_get (set_var k v env) k = Some v.
Proof. unfold env_get, set_var. simpl. by rewrite lookup_insert_eq. Qed.

Section CallShape.

Variable self : MultiAuth.
Variable now : Z.

Lemma s3_request_cases memcache_client env tr r st' :
  s3_request self memcache_client now (MkSt env tr) = (r, st') ->
  (st' = MkSt env tr /\ goes_on r (None, Unbound))
  \/ (st' = MkSt env (tr ++ [CallGetS3Identity])
      /\ PyStr.truthy_opt (env_get env "HTTP_AUTHORIZATION") = true
      /\ goes_on r (None, Unbound))
  \/ (st' = MkSt (set_authorize HookDenied env) tr /\ r = Return ToApp)
  \/ (exists d p,
        st' = MkSt (set_var "PATH_INFO" p env) tr
        /\ r = Next (Some d, Bound (d_token d))
        /\ PyStr.truthy_opt (env_get env "HTTP_AUTHORIZATION") = true).
Proof.
  unfold s3_request, goes_on. intros H.
  destruct (PyStr.truthy_opt (env_get env "HTTP_AUTHORIZATION")) eqn:Ht.
  - crunch; eauto 10.
  - run. rewrite Ht in H. simpl in H. simplify_eq. eauto.
Qed.

Lemma auth_request_cases memcache_client identity token env tr r st' :
  auth_request self memcache_client now identity token (MkSt env tr)
  = (r, st') ->
  (st' = MkSt env tr
   /\ match r with
      | Next (identity', _) => identity' = identity
      | Return ToApp => False
      | _ => True
      end)
  \/ (st' = MkSt env (tr ++ [CallGetIdentity])
      /\ PyStr.truthy_opt (env_get env "HTTP_AUTHORIZATION") = false
      /\ goes_on r (identity, token))
  \/ (st' = MkSt (set_authorize HookDenied env) tr /\ r = Return ToApp).
Proof.
  unfold auth_request, goes_on. intros H.
  destruct (PyStr.truthy_opt (env_get env "HTTP_AUTHORIZATION")) eqn:Ht.
  - run. rewrite Ht in H. simpl in H. simplify_eq. eauto.
  - crunch; eauto 10.
Qed.

Lemma cached_identity_state memcache_client identity token st r st' :
  cached_identity self memcache_client now identity token st = (r, st') ->
  st' = st
  /\ match r with
     | Return _ => False
     | _ => True
     end.
Proof.
  intros H. apply cached_identity_inv in H as [-> H]. split; [done |].
  by destruct r.
Qed.

Lemma validated_identity_cases memcache_client identity token env tr r st' :
  validated_identity self memcache_client now identity token (MkSt env tr)
  = (r, st') ->
  (st' = MkSt env tr
   /\ match r with
      | Next identity' =>
          identity' = identity /\ identity_truthy identity = true
      | Raise e => token = Unbound
      | Return _ => False
      end)
  \/ (exists t,
        token = Bound t
        /\ ((st' = MkSt env (tr ++ [CallValidateToken t])
             /\ exists e, r = Raise e)
            \/ (st' = MkSt (set_authorize HookDenied env)
                        (tr ++ [CallValidateToken t])
                /\ r = Return ToApp)
            \/ (exists d expires,
                  validate_token self t = Ok (Some d)
                  /\ dict_truthy d = true
                  /\ d_expires d = Some expires
                  /\ st' = MkSt env
                             (tr ++ [CallValidateToken t;
                                     CacheSet ("mauth_token/" +:+ py_str t)
                                       (expires, d) (expires - now)])
                  /\ goes_on r (Some d)))).
Proof.
  unfold validated_identity, goes_on. intros H.
  destruct (identity_truthy identity) eqn:Hi; simpl in H.
  { run. simplify_eq. left. auto. }
  destruct token as [| t]; [run; simplify_eq; left; auto |].
  right. exists t. split; [done |].
  crunch; rewrite <- ?app_assoc; simpl.
  all: try (by eauto 10).
  right; right. eexists _, _. do 4 (split; [done |]). right. eauto.
Qed.

Lemma install_identity_cases identity env tr r st' :
  install_identity identity (MkSt env tr) = (r, st') ->
  st_trace st' = tr
  /\ match r with
     | Return ToApp => 
         st_env st' = set_authorize HookDenied env
         \/ exists d roles,
              identity = Some d
              /\ dict_truthy d = true /\ d_roles d = Some roles
              /\ st_env st' = installed d roles env
     | Return _ => False
     | Next _ => False
     | Raise _ => True
     end.
Proof.
  unfold install_identity, installed. intros H. crunch; eauto 10.
Qed.

Lemma token_request_cases memcache_client identity token env tr r st' :
  token_request self memcache_client now identity token (MkSt env tr)
  = (r, st') ->
  (exists l,
      st_trace st' = tr ++ l /\ token_events self now l
      /\ (token = Unbound -> l = []))
  /\ match r with
     | Return ToApp => hooked env (st_env st')
     | Return _ => False
     | Next _ => False
     | Raise _ => True
     end.
Proof.
  unfold token_request, bind at 1, get_env. cbn [st_env]. intros H.
  assert (Hnil : forall tr0 : list Event,
             exists l, tr0 = tr0 ++ l /\ token_events self now l
                       /\ (token = Unbound -> l = [])).
  { intros tr0. exists []. rewrite app_nil_r. split; [done |].
    split; [by left | done]. }
  destruct (negb (identity_truthy identity) && _).
  { run. simplify_eq. simpl. split; [apply Hnil |]. right. by left. }
  unfold bind at 1 in H.
  destruct (cached_identity _ _ _ _ _ _) as [r1 s1] eqn:H1.
  apply cached_identity_state in H1 as [-> H1].
  destruct r1 as [id1 | rep | e]; [| done | simplify_eq; split; [apply Hnil | done]].
  unfold bind at 1 in H.
  destruct (validated_identity _ _ _ _ _ _) as [r2 s2] eqn:H2.
  apply validated_identity_cases in H2
    as [[-> H2] | (t & -> & [[-> [e ->]] | [[-> ->] | H2]])].
  - destruct r2 as [id2 | rep | e]; [| done |].
    + apply install_identity_cases in H as [Htr H]. split.
      { rewrite Htr. apply Hnil. }
      destruct r as [[] | [| resp |] | e]; try done.
      destruct H as [H | (d & roles & _ & Hd & Hr & H)]; [by left |].
      right. right. eauto.
    + simplify_eq. split; [apply Hnil | done].
  - simplify_eq. split; [| done]. simpl.
    eexists. split; [done |]. split; [| done]. right. eauto.
  - simplify_eq. split; simpl; [| by left].
    eexists. split; [done |]. split; [| done]. right. eauto.
  - destruct H2 as (d & expires & Hval & Hd & Hexp & -> & [-> | [e ->]]);
      [| simplify_eq; split; [| done]; simpl;
         eexists; split; [done |]; split; [| done];
         right; exists t; right; eauto 10].
    apply install_identity_cases in H as [Htr H]. split.
    { rewrite Htr. eexists. split; [done |]. split; [| done].
      right. exists t. right. eauto 10. }
    destruct r as [[] | [| resp |] | e]; try done.
    destruct H as [H | (d' & roles & _ & Hd' & Hr & H)]; [by left |].
    right. right. eauto.
Qed.

Lemma token_events_call l : token_events self now l -> call_events self now l.
Proof. intros H. right. by right. Qed.

(** The whole call: the environ passed on and the events. *)
Lemma call_cases memcache_client env o tr :
  call self memcache_client now env = (o, tr) ->
  call_events self now tr
  /\ match o with
     | Forwarded env' => passed_on env env'
     | _ => True
     end.
Proof.
  assert (Hnil : call_events self now []) by (right; right; by left).
  assert (Hsame : path_mapped env env) by (by left).
  unfold call, call_body, bind.
  destruct (s3_request _ _ _ _) as [r1 s1] eqn:H1.
  apply s3_request_cases in H1
    as [[-> H1] | [(-> & Ht & H1) | [[-> ->] | (d & p & -> & -> & Ht)]]].
  - (* nothing done by the S3 part *)
    destruct H1 as [-> | [e ->]]; [| by intros [= <- <-]].
    cbn [fst snd].
    destruct (auth_request _ _ _ _ _ _) as [r2 s2] eqn:H2.
    apply auth_request_cases in H2
      as [[-> H2] | [(-> & Ht & H2) | [-> ->]]].
    + destruct r2 as [[id2 tok2] | [| resp |] | e]; try done;
        try (intros [= <- <-]; done).
      subst id2. cbn [fst snd].
      destruct (token_request _ _ _ _ _ _) as [r3 s3] eqn:H3.
      apply token_request_cases in H3 as [(l & Hl & Hev & _) H3].
      simpl in Hl. subst l.
      destruct r3 as [[] | [| resp |] | e]; try done;
        intros [= <- <-]; (split; [by apply token_events_call |]); [| done].
      by exists env.
    + destruct H2 as [-> | [e ->]];
        [| intros [= <- <-]; split; [right; by left | done]].
      cbn [fst snd].
      destruct (token_request _ _ _ _ _ _) as [r3 s3] eqn:H3.
      apply token_request_cases in H3 as [(l & Hl & Hev & Hu) H3].
      rewrite (Hu eq_refl), app_nil_r in Hl.
      destruct r3 as [[] | [| resp |] | e]; try done;
        intros [= <- <-]; rewrite Hl; (split; [right; by left |]); [| done].
      by exists env.
    + intros [= <- <-]. split; [done |]. exists env. split; [done | by left].
  - (* the provider called for the access key *)
    destruct H1 as [-> | [e ->]];
      [| intros [= <- <-]; split; [by left | done]].
    cbn [fst snd]. rewrite auth_request_skip by done. cbn [fst snd].
    destruct (token_request _ _ _ _ _ _) as [r3 s3] eqn:H3.
    apply token_request_cases in H3 as [(l & Hl & Hev & Hu) H3].
    rewrite (Hu eq_refl), app_nil_r in Hl.
    destruct r3 as [[] | [| resp |] | e]; try done;
      intros [= <- <-]; rewrite Hl; (split; [by left |]); [| done].
    by exists env.
  - intros [= <- <-]. split; [done |]. exists env. split; [done | by left].
  - (* the cached identity of the access key *)
    cbn [fst snd]. rewrite auth_request_skip
      by (cbn [st_env]; by rewrite env_get_set_var_ne).
    cbn [fst snd].
    destruct (token_request _ _ _ _ _ _) as [r3 s3] eqn:H3.
    apply token_request_cases in H3 as [(l & Hl & Hev & _) H3].
    simpl in Hl. subst l.
    destruct r3 as [[] | [| resp |] | e]; try done;
      intros [= <- <-]; (split; [by apply token_events_call |]); [| done].
    exists (set_var "PATH_INFO" p env). split; [right; eauto | done].
Qed.

End CallShape.

(** The sample call with the token [T2], which memcache holds expired. *)
Lemma call_with_token_T2 :
  call sample_self (Some sample_cache) sample_now with_token_T2
  = (Forwarded (installed alice_renewed ["admin"] with_token_T2),
     [CallValidateToken (Some "T2");
      CacheSet "mauth_token/T2" (4600, alice_renewed) 3600]).
Proof. vm_compute. reflexivity. Qed.

(** X7. Every environ a call passes downstream carries a hook this call
    has set: the denial hook, with the identity and [swift.clean_acl] as
    they came, or the [authorize] hook together with [swift.clean_acl]. *)
Theorem call_installs_hook (self : MultiAuth)
    (memcache_client : option Memcache) (now : Z) (env env' : Env)
    (tr : list Event) :
  call self memcache_client now env = (Forwarded env', tr) ->
  (swift_authorize env' = Some HookDenied
   /\ mauth_identity env' = mauth_identity env
   /\ swift_clean_acl env' = swift_clean_acl env)
  \/ (swift_authorize env' = Some HookAuthorize
      /\ swift_clean_acl env' = true).
Proof.
  intros H. apply call_cases in H as [_ (e0 & Hmap & Hhook)].
  destruct Hhook as [-> | [-> | (d & roles & _ & _ & ->)]]; simpl; auto.
  left. by destruct Hmap as [-> | [_ [p ->]]].
Qed.

Lemma call_installs_hook_witness :
  (swift_authorize (installed alice_renewed ["admin"] with_token_T2)
   = Some HookDenied
   /\ mauth_identity (installed alice_renewed ["admin"] with_token_T2)
      = mauth_identity with_token_T2
   /\ swift_clean_acl (installed alice_renewed ["admin"] with_token_T2)
      = swift_clean_acl with_token_T2)
  \/ (swift_authorize (installed alice_renewed ["admin"] with_token_T2)
      = Some HookAuthorize
      /\ swift_clean_acl (installed alice_renewed ["admin"] with_token_T2)
         = true).
Proof.
  exact (call_installs_hook sample_self (Some sample_cache) sample_now
           with_token_T2 _ _ call_with_token_T2).
Defined.

(** X8. A call leaves the variables of the environ alone, apart from
    [PATH_INFO] and [REMOTE_USER]; it does not touch [swift_owner]; and
    [PATH_INFO] changes only for a request with [Authorization] header. *)
Theorem call_keeps_variables (self : MultiAuth)
    (memcache_client : option Memcache) (now : Z) (env env' : Env)
    (tr : list Event) :
  call self memcache_client now env = (Forwarded env', tr) ->
  swift_owner env' = swift_owner env
  /\ (forall k, k <> "PATH_INFO" -> k <> "REMOTE_USER" ->
                env_get env' k = env_get env k)
  /\ (PyStr.truthy_opt (env_get env "HTTP_AUTHORIZATION") = false ->
      env_get env' "PATH_INFO" = env_get env "PATH_INFO").
Proof.
  intros H. apply call_cases in H as [_ (e0 & Hmap & Hhook)].
  assert (H0 : swift_owner e0 = swift_owner env
               /\ (forall k, k <> "PATH_INFO" -> env_get e0 k = env_get env k)
               /\ (PyStr.truthy_opt (env_get env "HTTP_AUTHORIZATION") = false
                   -> e0 = env)).
  { destruct Hmap as [-> | [Ht [p ->]]]; [done |].
    split; [done |]. split; [| congruence].
    intros k Hk. by rewrite env_get_set_var_ne. }
  destruct H0 as (Ho & Hv & Hp).
  destruct Hhook as [-> | [-> | (d & roles & _ & _ & ->)]];
    unfold installed, anonymous; simpl; (split; [done |]); split.
  - intros k Hk _. by apply Hv.
  - intros Ht. by rewrite (Hp Ht).
  - intros k Hk _. by apply Hv.
  - intros Ht. by rewrite (Hp Ht).
  - intros k Hk Hr.
    change (env_get (set_var "REMOTE_USER" (PyStr.join ":" roles) e0) k
            = env_get env k).
    rewrite env_get_set_var_ne by done. by apply Hv.
  - intros Ht.
    change (env_get (set_var "REMOTE_USER" (PyStr.join ":" roles) e0)
              "PATH_INFO" = env_get env "PATH_INFO").
    rewrite env_get_set_var_ne by done. by rewrite (Hp Ht).
Qed.

Lemma call_keeps_variables_witness :
  env_get (installed alice_renewed ["admin"] with_token_T2)
    "HTTP_X_AUTH_TOKEN" = env_get with_token_T2 "HTTP_X_AUTH_TOKEN".
Proof.
  apply (call_keeps_variables sample_self (Some sample_cache) sample_now
           with_token_T2 _ _ call_with_token_T2); discriminate.
Defined.

(** X9. The identity and [REMOTE_USER] are set together: the environ
    passed downstream has both as they came, or it has an identity with
    roles, [REMOTE_USER] made of these roles joined by colons, and the
    [authorize] hook. *)
Theorem call_identity_with_roles (self : MultiAuth)
    (memcache_client : option Memcache) (now : Z) (env env' : Env)
    (tr : list Event) :
  call self memcache_client now env = (Forwarded env', tr) ->
  (mauth_identity env' = mauth_identity env
   /\ env_get env' "REMOTE_USER" = env_get env "REMOTE_USER")
  \/ (exists d roles,
        mauth_identity env' = Some d
        /\ dict_truthy d = true
        /\ d_roles d = Some roles
        /\ env_get env' "REMOTE_USER" = Some (PyStr.join ":" roles)
        /\ swift_authorize env' = Some HookAuthorize).
Proof.
  intros H. apply call_cases in H as [_ (e0 & Hmap & Hhook)].
  assert (H0 : mauth_identity e0 = mauth_identity env
               /\ env_get e0 "REMOTE_USER" = env_get env "REMOTE_USER").
  { destruct Hmap as [-> | [Ht [p ->]]]; [done |].
    split; [done |]. by rewrite env_get_set_var_ne. }
  destruct Hhook as [-> | [-> | (d & roles & Hd & Hr & ->)]]; [by left.. |].
  right. exists d, roles. repeat split; try done.
  unfold installed. apply env_get_set_var.
Qed.

Lemma call_identity_with_roles_witness :
  (mauth_identity (installed alice_renewed ["admin"] with_token_T2)
   = mauth_identity with_token_T2
   /\ env_get (installed alice_renewed ["admin"] with_token_T2) "REMOTE_USER"
      = env_get with_token_T2 "REMOTE_USER")
  \/ (exists d roles,
        mauth_identity (installed alice_renewed ["admin"] with_token_T2)
        = Some d
        /\ dict_truthy d = true
        /\ d_roles d = Some roles
        /\ env_get (installed alice_renewed ["admin"] with_token_T2)
             "REMOTE_USER" = Some (PyStr.join ":" roles)
        /\ swift_authorize (installed alice_renewed ["admin"] with_token_T2)
           = Some HookAuthorize).
Proof.
  exact (call_identity_with_roles sample_self (Some sample_cache) sample_now
           with_token_T2 _ _ call_with_token_T2).
Defined.

(** X10. A call calls the extension at most once, and has at most two
    events: the call of [validate_token] and the write to memcache. *)
Theorem call_one_provider_call (self : MultiAuth)
    (memcache_client : option Memcache) (now : Z) (env : Env) :
  (length (filter (fun ev => is_provider_call ev = true)
             (snd (call self memcache_client now env))) <= 1)%nat
  /\ (length (snd (call self memcache_client now env)) <= 2)%nat.
Proof.
  destruct (call self memcache_client now env) as [o tr] eqn:H.
  apply call_cases in H as [H _]. simpl.
  destruct H as [-> | [-> | [-> | [t [-> | (d & e & _ & _ & _ & ->)]]]]];
    simpl; lia.
Qed.

(** X11. The only write to memcache: under [mauth_token/<token>], the
    identity [validate_token] has just returned for this token, with the
    ['expires'] of the identity and the time left until then as timeout. *)
Theorem call_cache_write (self : MultiAuth)
    (memcache_client : option Memcache) (now : Z) (env : Env) (o : Outcome)
    (tr : list Event) (key : string) (value : CacheEntry) (timeout : Z) :
  call self memcache_client now env = (o, tr) ->
  In (CacheSet key value timeout) tr ->
  exists t d expires,
    tr = [CallValidateToken t; CacheSet key value timeout]
    /\ validate_token self t = Ok (Some d)
    /\ d_expires d = Some expires
    /\ key = "mauth_token/" +:+ py_str t
    /\ value = (expires, d)
    /\ timeout = expires - now.
Proof.
  intros H Hin. apply call_cases in H as [H _].
  destruct H as [-> | [-> | [-> | [t [-> | (d & e & Hv & _ & He & ->)]]]]];
    simpl in Hin.
  1-4: by repeat destruct Hin as [Hin | Hin].
  destruct Hin as [Hin | [Hin | []]]; [done |]. simplify_eq.
  exists t, d, e. auto 10.
Qed.

Lemma call_cache_write_witness :
  exists t d expires,
    [CallValidateToken (Some "T2");
     CacheSet "mauth_token/T2" (4600, alice_renewed) 3600]
    = [CallValidateToken t;
       CacheSet "mauth_token/T2" (4600, alice_renewed) 3600]
    /\ validate_token sample_self t = Ok (Some d)
    /\ d_expires d = Some expires
    /\ "mauth_token/T2" = "mauth_token/" +:+ py_str t
    /\ (4600, alice_renewed) = (expires, d)
    /\ 3600 = expires - sample_now.
Proof.
  apply (call_cache_write sample_self (Some sample_cache) sample_now
           with_token_T2 _ _ _ _ _ call_with_token_T2).
  right. by left.
Defined.

(* --------------------------------------------------------------------- *)
(** *** Requests with a token *)
(* --------------------------------------------------------------------- *)

Lemma with_token_T2_kind : is_token_request with_token_T2 "T2".
Proof.
  split; [| by vm_compute].
  exists "v1". split; [| reflexivity].
  split; [reflexivity |]. exists "/v1/AUTH_alice/c1", (Some "AUTH_alice/c1").
  vm_compute. split; reflexivity.
Qed.

Lemma with_token_T9_kind : is_token_request with_token_T9 "T9".
Proof.
  split; [| by vm_compute].
  exists "v1". split; [| reflexivity].
  split; [reflexivity |]. exists "/v1/AUTH_alice/c1", (Some "AUTH_alice/c1").
  vm_compute. split; reflexivity.
Qed.

Lemma token_wanted_kind : is_auth_request token_wanted "alice" "k1".
Proof.
  split; [| vm_compute; repeat split; reflexivity].
  exists "v1.0". split; [| reflexivity].
  split; [reflexivity |]. exists "/v1.0", None.
  vm_compute. split; reflexivity.
Qed.

Lemma s3_signed_kind :
  is_s3_request s3_signed "AKIAXXX" "MWahK9n18JdP7+0CZGmsecTg17Q=".
Proof.
  exists "AWS AKIAXXX:MWahK9n18JdP7+0CZGmsecTg17Q=".
  vm_compute. repeat split; reflexivity.
Qed.

Lemma s3_forged_kind : is_s3_request s3_forged "AKIAXXX" "sig1".
Proof. exists "AWS AKIAXXX:sig1". vm_compute. repeat split; reflexivity. Qed.

Lemma dict_truthy_roles d roles : d_roles d = Some roles -> dict_truthy d = true.
Proof.
  intros H. unfold dict_truthy. rewrite H.
  rewrite (bool_decide_eq_true_2 (is_Some (Some roles))) by eauto.
  by rewrite orb_true_r.
Qed.

(** A token found in memcache: the identity is installed without a call of
    the extension and without a write. *)
Lemma token_cache_hit (self : MultiAuth) (mc : Memcache) (now : Z)
    (env : Env) (tok : string) (expires : Z) (d : Dict)
    (roles : list string) :
  is_token_request env tok ->
  0 < cache_timeout self ->
  memcache_get mc ("mauth_token/" +:+ tok) = Some (expires, d) ->
  now < expires ->
  d_roles d = Some roles ->
  call self (Some mc) now env = (Forwarded (installed d roles env), []).
Proof.
  intros Hreq Hc Hget Hn Hr.
  rewrite (call_token_request _ _ _ _ _ Hreq), Hget.
  rewrite fresh_entry_fresh by done.
  by rewrite (dict_truthy_roles _ _ Hr), Hr.
Qed.

(** X12. What a call writes to memcache serves the next one: when a call
    with a token has written an entry, a later call for the same request,
    made before the timeout of the write is over on a memcache that holds
    the entry, passes the same environ downstream without calling the
    extension. *)
Theorem token_cache_round_trip (self : MultiAuth) (mc mc' : Memcache)
    (now now' : Z) (env env' : Env) (tok key : string) (tr : list Event)
    (value : CacheEntry) (timeout : Z) :
  is_token_request env tok ->
  call self (Some mc) now env = (Forwarded env', tr) ->
  In (CacheSet key value timeout) tr ->
  0 < cache_timeout self ->
  memcache_get mc' key = Some value ->
  now' < now + timeout ->
  call self (Some mc') now' env = (Forwarded env', []).
Proof.
  intros Hreq Hcall Hin Hc Hget Hn.
  rewrite (call_token_request _ _ _ _ _ Hreq) in Hcall.
  assert (Hv : validated self now tok env = (Forwarded env', tr)).
  { destruct (fresh_entry _ _ _) as [d0 |]; [| done].
    destruct (dict_truthy d0); [| done].
    destruct (d_roles d0); simplify_eq; by destruct Hin. }
  clear Hcall. unfold validated in Hv.
  destruct (validate_token self (Some tok)) as [[d |] | e];
    [| simplify_eq; by repeat destruct Hin as [Hin | Hin] ..].
  destruct (dict_truthy d) eqn:Hd;
    [| simplify_eq; by repeat destruct Hin as [Hin | Hin]].
  destruct (d_expires d) as [expires |];
    [| simplify_eq; by repeat destruct Hin as [Hin | Hin]].
  destruct (fromtimestamp expires); [| done].
  destruct (d_roles d) as [roles |] eqn:Hr; [| done].
  simplify_eq. destruct Hin as [Hin | [Hin | []]]; [done |]. simplify_eq.
  eapply token_cache_hit; eauto. lia.
Qed.

Lemma token_cache_round_trip_witness :
  call sample_self (Some cache_after_T2) 2000 with_token_T2
  = (Forwarded (installed alice_renewed ["admin"] with_token_T2), []).
Proof.
  apply (token_cache_round_trip sample_self sample_cache cache_after_T2
           sample_now 2000 with_token_T2 _ "T2" "mauth_token/T2" _
           (4600, alice_renewed) 3600 with_token_T2_kind call_with_token_T2).
  - right. by left.
  - reflexivity.
  - vm_compute. reflexivity.
  - reflexivity.
Defined.

(** X13. A token that memcache does not hold and for which
    [validate_token] returns [None]: the request goes downstream under the
    denial hook, without identity, and nothing is written to memcache. *)
Theorem token_rejected (self : MultiAuth) (mc : Memcache) (now : Z)
    (env : Env) (tok : string) :
  is_token_request env tok ->
  memcache_get mc ("mauth_token/" +:+ tok) = None ->
  validate_token self (Some tok) = Ok None ->
  call self (Some mc) now env
  = (Forwarded (set_authorize HookDenied env), [CallValidateToken (Some tok)]).
Proof.
  intros Hreq Hget Hv.
  rewrite (call_token_request _ _ _ _ _ Hreq), Hget. simpl.
  unfold validated. by rewrite Hv.
Qed.

Lemma token_rejected_witness :
  call sample_self (Some sample_cache) sample_now with_token_T9
  = (Forwarded (set_authorize HookDenied with_token_T9),
     [CallValidateToken (Some "T9")]).
Proof.
  apply (token_rejected sample_self sample_cache sample_now with_token_T9
           "T9" with_token_T9_kind).
  - vm_compute. reflexivity.
  - vm_compute. reflexivity.
Defined.





Section Kinds.

Variable self : MultiAuth.
Variable now : Z.

Lemma auth_request_missing memcache_client identity token st piece :
  leading_segment (st_env st) piece ->
  PyStr.mem piece ["auth"; "v1.0"] = true ->
  PyStr.truthy_opt (env_get (st_env st) "HTTP_X_AUTH_USER")
  && PyStr.truthy_opt (env_get (st_env st) "HTTP_X_AUTH_KEY") = false ->
  auth_request self memcache_client now identity token st
  = (Return ToApp, MkSt (set_authorize HookDenied (st_env st)) (st_trace st)).
Proof.
  intros (Hauth & p & rest & Hp & Hsplit) Hpiece Hcred.
  unfold auth_request. run. rewrite Hauth. simpl. rewrite Hp. simpl.
  rewrite Hsplit. simpl. by rewrite Hpiece, Hcred.
Qed.

Lemma s3_request_no_client st k sig :
  is_s3_request (st_env st) k sig ->
  s3_request self None now st = (Raise AttributeError, st).
Proof.
  intros (s3 & Hs3 & Haws & Hcred & Hk & Hsig).
  pose proof (startswith_truthy s3 "AWS" eq_refl Haws) as Ht.
  unfold s3_request. run. rewrite Hs3. simpl. rewrite Ht, Haws. simpl.
  rewrite Hcred. simpl. by rewrite Hk, Hsig.
Qed.

Lemma auth_request_no_client identity token st auth_user auth_key :
  is_auth_request (st_env st) auth_user auth_key ->
  auth_request self None now identity token st = (Raise AttributeError, st).
Proof.
  intros ((piece & (Hauth & p & rest & Hp & Hsplit) & Hpiece)
          & Hu & Hut & Hk & Hkt).
  unfold auth_request. run. rewrite Hauth. simpl. rewrite Hp. simpl.
  rewrite Hsplit. simpl. rewrite Hpiece, Hu, Hk. simpl.
  by rewrite Hut, Hkt.
Qed.

End Kinds.

(** X15. A request on [/auth] or [/v1.0] without [Authorization] header
    and without user or key goes downstream under the denial hook,
    whatever memcache holds and also without memcache; the extension is
    not called. *)
Theorem credentials_missing (self : MultiAuth)
    (memcache_client : option Memcache) (now : Z) (env : Env)
    (piece : string) :
  leading_segment env piece ->
  PyStr.mem piece ["auth"; "v1.0"] = true ->
  PyStr.truthy_opt (env_get env "HTTP_X_AUTH_USER") = false
  \/ PyStr.truthy_opt (env_get env "HTTP_X_AUTH_KEY") = false ->
  call self memcache_client now env
  = (Forwarded (set_authorize HookDenied env), []).
Proof.
  intros Hseg Hpiece Hcred.
  assert (Hauth : PyStr.truthy_opt (env_get env "HTTP_AUTHORIZATION") = false)
    by (by destruct Hseg as [H _]).
  unfold call, call_body. unfold bind at 1.
  rewrite s3_request_skip by (by apply not_aws).
  unfold bind at 1. cbn [fst snd].
  rewrite (auth_request_missing _ _ _ None Unbound (MkSt env []) piece);
    [done.. |].
  cbn [st_env]. destruct Hcred as [-> | ->]; [done | apply andb_false_r].
Qed.

Lemma credentials_missing_witness :
  call sample_self None sample_now token_path_bare
  = (Forwarded (set_authorize HookDenied token_path_bare), []).
Proof.
  apply (credentials_missing sample_self None sample_now token_path_bare
           "v1.0").
  - split; [reflexivity |]. exists "/v1.0", None. vm_compute.
    split; reflexivity.
  - reflexivity.
  - left. reflexivity.
Defined.

(** X16. Without a memcache client ([cache_from_env] gives [None]), an S3
    request, a request for a token with user and key, and a request with a
    token all end with [AttributeError], before the extension is called. *)
Theorem no_memcache_client (self : MultiAuth) (now : Z) (env : Env) :
  (exists k sig, is_s3_request env k sig)
  \/ (exists auth_user auth_key, is_auth_request env auth_user auth_key)
  \/ (exists tok, is_token_request env tok) ->
  call self None now env = (Failed AttributeError, []).
Proof.
  intros [(k & sig & H) | [(u & key & H) | (tok & H)]];
    unfold call, call_body; unfold bind at 1.
  - by rewrite (s3_request_no_client _ _ (MkSt env []) k sig).
  - assert (Hauth : PyStr.truthy_opt (env_get env "HTTP_AUTHORIZATION") = false)
      by (by destruct H as ((piece & (H & _) & _) & _)).
    rewrite s3_request_skip by (by apply not_aws).
    unfold bind at 1. cbn [fst snd].
    by rewrite (auth_request_no_client _ _ None Unbound (MkSt env []) u key).
  - destruct H as ((piece & Hseg & Hpiece) & Htok & Ht).
    assert (Hauth : PyStr.truthy_opt (env_get env "HTTP_AUTHORIZATION") = false)
      by (by destruct Hseg as [H _]).
    pose proof (token_truthy _ _ Htok Ht) as Htt.
    rewrite s3_request_skip by (by apply not_aws).
    unfold bind at 1. cbn [fst snd].
    rewrite (auth_request_other _ _ _ None Unbound (MkSt env []) piece Hseg Hpiece).
    cbn [st_env st_trace fst snd].
    unfold token_request, cached_identity. run. by rewrite Htt.
Qed.

Lemma no_memcache_client_witness :
  call sample_self None sample_now with_token_T2
  = (Failed AttributeError, []).
Proof.
  apply (no_memcache_client sample_self sample_now with_token_T2).
  right. right. exists "T2". exact with_token_T2_kind.
Defined.

(** X17. An empty X-Auth-Token hides X-Storage-Token: the request is
    passed on as anonymous, whatever the other header holds. *)
Theorem empty_auth_token_hides_storage_token (self : MultiAuth)
    (memcache_client : option Memcache) (now : Z) (env : Env)
    (piece : string) :
  leading_segment env piece ->
  PyStr.mem piece ["auth"; "v1.0"] = false ->
  env_get env "HTTP_X_AUTH_TOKEN" = Some "" ->
  call self memcache_client now env = (Forwarded (anonymous env), []).
Proof.
  intros Hseg Hpiece Htok. apply (call_anonymous _ _ _ _ piece); [done.. |].
  unfold token_header. by rewrite Htok.
Qed.

Lemma empty_auth_token_hides_storage_token_witness :
  env_get with_empty_auth_token "HTTP_X_STORAGE_TOKEN" = Some "T1"
  /\ call sample_self (Some sample_cache) sample_now with_empty_auth_token
     = (Forwarded (anonymous with_empty_auth_token), []).
Proof.
  split; [vm_compute; reflexivity |].
  apply (empty_auth_token_hides_storage_token sample_self (Some sample_cache)
           sample_now with_empty_auth_token "v1").
  - split; [reflexivity |].
    exists "/v1/AUTH_alice/c1", (Some "AUTH_alice/c1").
    vm_compute. split; reflexivity.
  - reflexivity.
  - vm_compute. reflexivity.
Defined.

(** X25. A request for a token whose credentials memcache does not hold:
    [get_identity] is called and what it returns is not used. No token is
    given out; the request is passed on as anonymous, or the call raises
    [UnboundLocalError] when the request has a token header. *)
Theorem credentials_miss_result_unused (self : MultiAuth) (mc : Memcache)
    (now : Z) (env : Env) (auth_user auth_key : string) (r : option Dict) :
  is_auth_request env auth_user auth_key ->
  memcache_get mc ("mauth_creds/" +:+ auth_user +:+ "/" +:+ auth_key)
  = None ->
  get_identity self = Ok r ->
  call self (Some mc) now env = (without_token env, [CallGetIdentity])
  /\ adds_no_identity env (without_token env).
Proof.
  intros Hreq Hget Hr. split.
  - rewrite (call_auth self now mc env auth_user auth_key Hreq), Hget, Hr.
    simpl. by destruct (ttl_positive env).
  - unfold without_token, adds_no_identity.
    by destruct (PyStr.truthy_opt (token_header env)).
Qed.

Lemma credentials_miss_result_unused_witness :
  call sample_self (Some empty_cache) sample_now token_wanted
  = (without_token token_wanted, [CallGetIdentity])
  /\ adds_no_identity token_wanted (without_token token_wanted).
Proof.
  apply (credentials_miss_result_unused sample_self empty_cache sample_now
           token_wanted "alice" "k1" (Some alice) token_wanted_kind).
  - vm_compute. reflexivity.
  - reflexivity.
Defined.

(* --------------------------------------------------------------------- *)
(** *** What the call reads from memcache *)
(* --------------------------------------------------------------------- *)

Section Fresh.

Variable self : MultiAuth.
Variable now : Z.
Variables mc mc' : Memcache.
Hypothesis Hext : same_fresh self now mc mc'.

Ltac agree :=
  repeat first
    [ reflexivity
    | progress rewrite Hext
    | progress run
    | case_match; simplify_eq ].

Lemma s3_request_fresh st :
  s3_request self (Some mc) now st = s3_request self (Some mc') now st.
Proof. unfold s3_request. destruct st as [env tr]. agree. Qed.

Lemma auth_request_fresh identity token st :
  auth_request self (Some mc) now identity token st
  = auth_request self (Some mc') now identity token st.
Proof. unfold auth_request. destruct st as [env tr]. agree. Qed.

Lemma cached_identity_fresh identity token st :
  cached_identity self (Some mc) now identity token st
  = cached_identity self (Some mc') now identity token st.
Proof. unfold cached_identity. destruct st as [env tr]. agree. Qed.

Lemma validated_identity_fresh identity token st :
  validated_identity self (Some mc) now identity token st
  = validated_identity self (Some mc') now identity token st.
Proof. reflexivity. Qed.

Lemma token_request_fresh identity token st :
  token_request self (Some mc) now identity token st
  = token_request self (Some mc') now identity token st.
Proof.
  unfold token_request, bind. cbn [get_env]. simpl.
  destruct (_ && _); [done |].
  rewrite cached_identity_fresh.
  destruct (cached_identity _ _ _ _ _ _) as [[id1 | rep | e] s1]; try done.
Qed.

Lemma call_fresh env :
  call self (Some mc) now env = call self (Some mc') now env.
Proof.
  unfold call, call_body, bind. rewrite s3_request_fresh.
  destruct (s3_request _ _ _ _) as [[[id1 tok1] | rep | e] s1]; try done.
  cbn [fst snd]. rewrite auth_request_fresh.
  destruct (auth_request _ _ _ _ _ _) as [[[id2 tok2] | rep | e] s2]; try done.
  cbn [fst snd]. by rewrite token_request_fresh.
Qed.

End Fresh.

Lemma fresh_entry_disabled self now r :
  cache_timeout self <= 0 -> fresh_entry self now r = None.
Proof.
  intros H. unfold fresh_entry. destruct r as [[expires d] |]; [| done].
  destruct (0 <? cache_timeout self) eqn:Hc; [apply Z.ltb_lt in Hc; lia |].
  done.
Qed.

(** X18. With [cache_timeout] at zero or below, what memcache holds makes
    no difference to a call: it ends as on an empty memcache. *)
Theorem cache_disabled (self : MultiAuth) (mc : Memcache) (now : Z)
    (env : Env) :
  cache_timeout self <= 0 ->
  call self (Some mc) now env = call self (Some empty_cache) now env.
Proof.
  intros H. apply call_fresh. intros key.
  by rewrite !fresh_entry_disabled.
Qed.

Lemma cache_disabled_witness :
  call sample_self_no_cache (Some sample_cache) sample_now token_wanted
  = call sample_self_no_cache (Some empty_cache) sample_now token_wanted.
Proof.
  apply (cache_disabled sample_self_no_cache sample_cache sample_now
           token_wanted).
  vm_compute. discriminate.
Defined.

(** X19. A memcache whose entries have all expired is as good as an empty
    one, for every request. *)
Theorem all_expired_as_empty (self : MultiAuth) (mc : Memcache) (now : Z)
    (env : Env) :
  (forall key expires d,
      memcache_get mc key = Some (expires, d) -> expires <= now) ->
  call self (Some mc) now env = call self (Some empty_cache) now env.
Proof.
  intros H. apply call_fresh. intros key.
  destruct (memcache_get mc key) as [[expires d] |] eqn:Hget.
  - rewrite (fresh_entry_expired _ _ _ _ (H _ _ _ Hget)).
    unfold memcache_get, empty_cache. simpl. by rewrite lookup_empty.
  - unfold memcache_get, empty_cache. simpl. by rewrite lookup_empty.
Qed.

Lemma all_expired_as_empty_witness :
  call sample_self (Some stale_cache) sample_now with_token_T2
  = call sample_self (Some empty_cache) sample_now with_token_T2.
Proof.
  apply (all_expired_as_empty sample_self stale_cache sample_now
           with_token_T2).
  intros key expires d. unfold memcache_get, stale_cache. simpl.
  destruct (decide (key = "mauth_token/T2")) as [-> | Hne].
  - rewrite lookup_insert_eq. intros [= <- <-]. vm_compute. discriminate.
  - rewrite lookup_insert_ne by done. by rewrite lookup_empty.
Defined.

(* --------------------------------------------------------------------- *)
(** *** The [Authorization] header of an S3 request *)
(* --------------------------------------------------------------------- *)

Lemma append_nil (s : string) : EmptyString +:+ s = s.
Proof. reflexivity. Qed.

Lemma append_cons (c : ascii) (a b : string) :
  String c a +:+ b = String c (a +:+ b).
Proof. reflexivity. Qed.

Lemma split_cons sep c s :
  PyStr.split sep None (String c s)
  = if Ascii.eqb c sep then EmptyString :: PyStr.split sep None s
    else match PyStr.split sep None s with
         | h :: t => String c h :: t
         | [] => [String c EmptyString]
         end.
Proof. unfold PyStr.split at 1. fold PyStr.split. simpl. by rewrite andb_true_r. Qed.

Lemma split_without sep s :
  occurs sep s = false -> PyStr.split sep None s = [s].
Proof.
  induction s as [| c s IH]; [done |]. simpl. intros H.
  apply orb_false_iff in H as [Hc Hs].
  by rewrite split_cons, Hc, (IH Hs).
Qed.

Lemma split_at sep a b :
  occurs sep a = false ->
  PyStr.split sep None (a +:+ String sep b) = a :: PyStr.split sep None b.
Proof.
  induction a as [| c a IH]; simpl; intros H.
  - by rewrite append_nil, split_cons, Ascii.eqb_refl.
  - apply orb_false_iff in H as [Hc Ha].
    by rewrite append_cons, split_cons, Hc, (IH Ha).
Qed.

Lemma cut_last_without sep s :
  occurs sep s = false -> PyStr.cut_last sep s = None.
Proof.
  induction s as [| c s IH]; [done |]. simpl. intros H.
  apply orb_false_iff in H as [Hc Hs]. by rewrite (IH Hs), Hc.
Qed.

Lemma cut_last_at sep a b :
  occurs sep b = false ->
  PyStr.cut_last sep (a +:+ String sep b) = Some (a, b).
Proof.
  intros Hb. induction a as [| c a IH].
  - rewrite append_nil. simpl.
    by rewrite (cut_last_without _ _ Hb), Ascii.eqb_refl.
  - rewrite append_cons. simpl. by rewrite IH.
Qed.

Lemma occurs_app c a b : occurs c (a +:+ b) = occurs c a || occurs c b.
Proof.
  induction a as [| c' a IH]; [done |].
  rewrite append_cons. simpl. by rewrite IH, orb_assoc.
Qed.

(** X20. The header [AWS <key>:<signature>] gives back the key and the
    signature, when neither has a space and the signature has no colon;
    the key may have colons. *)
Theorem s3_credentials_format (k sig : string) :
  occurs " " k = false -> occurs " " sig = false -> occurs ":" sig = false ->
  s3_credentials ("AWS " +:+ k +:+ ":" +:+ sig) = Ok (k, sig).
Proof.
  intros Hk Hsig Hc. unfold s3_credentials.
  change ("AWS " +:+ k +:+ ":" +:+ sig)
    with ("AWS" +:+ String " " (k +:+ String ":" sig)).
  rewrite split_at by done.
  rewrite split_without by (rewrite occurs_app; simpl; by rewrite Hk, Hsig).
  simpl. unfold PyStr.rsplit1. by rewrite cut_last_at.
Qed.

Lemma s3_credentials_format_witness :
  s3_credentials ("AWS " +:+ "AKIAXXX" +:+ ":" +:+ "sig1")
  = Ok ("AKIAXXX", "sig1").
Proof.
  apply (s3_credentials_format "AKIAXXX" "sig1"); reflexivity.
Defined.

Lemma s3_request_unparsed self memcache_client now st s3 e :
  env_get (st_env st) "HTTP_AUTHORIZATION" = Some s3 ->
  PyStr.startswith s3 "AWS" = true ->
  s3_credentials s3 = Raised e ->
  s3_request self memcache_client now st = (Raise e, st).
Proof.
  intros Hs3 Haws Hcred.
  pose proof (startswith_truthy s3 "AWS" eq_refl Haws) as Ht.
  unfold s3_request. run. rewrite Hs3. simpl. rewrite Ht, Haws. simpl.
  by rewrite Hcred.
Qed.

(** X21. An [AWS] header without the two parts: with no space in it the
    call ends with [IndexError], and with no colon in its second word with
    [ValueError]; memcache is not asked and the extension is not called. *)
Theorem s3_header_malformed (self : MultiAuth)
    (memcache_client : option Memcache) (now : Z) (env : Env) (s3 : string) :
  env_get env "HTTP_AUTHORIZATION" = Some s3 ->
  PyStr.startswith s3 "AWS" = true ->
  (occurs " " s3 = false ->
   call self memcache_client now env = (Failed IndexError, []))
  /\ (forall scheme cred rest,
        PyStr.split " " None s3 = scheme :: cred :: rest ->
        occurs ":" cred = false ->
        call self memcache_client now env = (Failed ValueError, [])).
Proof.
  intros Hs3 Haws. split.
  - intros Hsp. unfold call, call_body. unfold bind at 1.
    rewrite (s3_request_unparsed _ _ _ (MkSt env []) s3 IndexError); try done.
    unfold s3_credentials. by rewrite split_without.
  - intros scheme cred rest Hsplit Hc. unfold call, call_body.
    unfold bind at 1.
    rewrite (s3_request_unparsed _ _ _ (MkSt env []) s3 ValueError); try done.
    unfold s3_credentials. rewrite Hsplit. simpl.
    unfold PyStr.rsplit1. by rewrite cut_last_without.
Qed.

Lemma s3_header_malformed_witness :
  call sample_self None sample_now s3_malformed = (Failed ValueError, []).
Proof.
  apply (proj2 (s3_header_malformed sample_self None sample_now s3_malformed
                  "AWS malformed" eq_refl eq_refl)
           "AWS" "malformed" []); reflexivity.
Defined.

Lemma s3_cached_identity_rewrites_path_witness :
  exists env',
    call sample_self (Some sample_cache) sample_now s3_signed
    = (Forwarded env', [])
    /\ mauth_identity env' = Some alice
    /\ env_get env' "PATH_INFO"
       = Some (PyStr.replace "/v1/AKIAXXX/bucket" "AKIAXXX"
                 (if PyStr.truthy (reseller_prefix sample_self)
                  then reseller_prefix sample_self +:+ "_"
                       +:+ default EmptyString (d_account alice)
                  else default EmptyString (d_account alice))).
Proof.
  apply (s3_cached_identity_rewrites_path sample_self sample_cache sample_now
           s3_signed "AKIAXXX" "MWahK9n18JdP7+0CZGmsecTg17Q=" 4600 alice_s3
           alice "/v1/AKIAXXX/bucket" ["admin"] s3_signed_kind).
  - reflexivity.
  - vm_compute. reflexivity.
  - reflexivity.
  - vm_compute. reflexivity.
  - reflexivity.
  - vm_compute. reflexivity.
  - reflexivity.
  - vm_compute. reflexivity.
Defined.

Lemma s3_mismatch_outcome_witness :
  call sample_self (Some sample_cache) sample_now s3_forged
  = (without_token s3_forged, []).
Proof.
  apply (s3_mismatch_outcome sample_self sample_cache sample_now s3_forged
           "AKIAXXX" "sig1" 4600 alice_s3 s3_forged_kind).
  - reflexivity.
  - vm_compute. reflexivity.
  - reflexivity.
  - vm_compute. reflexivity.
Defined.

(** X24. An S3 request whose access key memcache does not hold:
    [get_s3_identity] is called and what it returns is not used. The
    request is passed on as anonymous, or the call raises
    [UnboundLocalError] when the request has a token header. *)
Theorem s3_miss_result_unused (self : MultiAuth) (mc : Memcache) (now : Z)
    (env : Env) (k sig : string) (r : option Dict) :
  is_s3_request env k sig ->
  memcache_get mc ("mauth_s3_apikey/" +:+ k) = None ->
  get_s3_identity self = Ok r ->
  call self (Some mc) now env = (without_token env, [CallGetS3Identity])
  /\ adds_no_identity env (without_token env).
Proof.
  intros Hs3 Hget Hr. split.
  - rewrite (call_s3_miss self now mc env k sig Hs3), Hr; [done |].
    by rewrite Hget.
  - unfold without_token, adds_no_identity.
    by destruct (PyStr.truthy_opt (token_header env)).
Qed.

Lemma s3_miss_result_unused_witness :
  call sample_self (Some empty_cache) sample_now s3_signed
  = (without_token s3_signed, [CallGetS3Identity])
  /\ adds_no_identity s3_signed (without_token s3_signed).
Proof.
  apply (s3_miss_result_unused sample_self empty_cache sample_now s3_signed
           "AKIAXXX" "MWahK9n18JdP7+0CZGmsecTg17Q=" (Some alice)
           s3_signed_kind).
  - vm_compute. reflexivity.
  - reflexivity.
Defined.

(* ===================================================================== *)
(** ** Properties of [__init__] and of the interface methods *)
(* ===================================================================== *)

Lemma rstrip_idempotent s : PyStr.rstrip (PyStr.rstrip s) = PyStr.rstrip s.
Proof.
  induction s as [| c s IH]; [done |]. simpl.
  destruct (PyStr.rstrip s) as [| c2 r2] eqn:Hr.
  - destruct (PyStr.is_space c) eqn:Hc; [done |]. simpl. by rewrite Hc.
  - change (PyStr.rstrip (String c (String c2 r2)) = String c (String c2 r2)).
    simpl. simpl in IH. by rewrite IH.
Qed.

Lemma lstrip_head s :
  match PyStr.lstrip s with
  | EmptyString => True
  | String c _ => PyStr.is_space c = false
  end.
Proof.
  induction s as [| c s IH]; [done |]. simpl.
  by destruct (PyStr.is_space c) eqn:Hc; [| simpl].
Qed.

Lemma rstrip_head c s :
  PyStr.is_space c = false ->
  exists r, PyStr.rstrip (String c s) = String c r.
Proof.
  intros Hc. simpl. destruct (PyStr.rstrip s); [rewrite Hc |]; eauto.
Qed.

Lemma strip_head s :
  match PyStr.strip s with
  | EmptyString => True
  | String c _ => PyStr.is_space c = false
  end.
Proof.
  unfold PyStr.strip. pose proof (lstrip_head s) as H.
  destruct (PyStr.lstrip s) as [| c t]; [done |].
  by destruct (rstrip_head c t H) as [r ->].
Qed.

Lemma lstrip_fixed s :
  match s with
  | EmptyString => True
  | String c _ => PyStr.is_space c = false
  end -> PyStr.lstrip s = s.
Proof. destruct s as [| c s]; [done |]. simpl. by intros ->. Qed.

Lemma strip_idempotent s : PyStr.strip (PyStr.strip s) = PyStr.strip s.
Proof.
  unfold PyStr.strip at 1. rewrite (lstrip_fixed _ (strip_head s)).
  unfold PyStr.strip. apply rstrip_idempotent.
Qed.

Lemma sync_hosts_clean setting :
  Forall (fun h => PyStr.truthy h = true /\ PyStr.strip h = h)
    (sync_hosts setting).
Proof.
  unfold sync_hosts. apply List.Forall_forall. intros h Hin.
  apply in_map_iff in Hin as (h0 & <- & Hin).
  apply filter_In in Hin as [_ Ht].
  split; [done | apply strip_idempotent].
Qed.

Lemma init_sample_conf :
  init decimal_digits (Ok None) (Ok None) (fun _ => Ok None) sample_conf
  = Ok (MkMultiAuth "AUTH" 600 "http://127.0.0.1:8080/v1"
          ["127.0.0.1"; "10.0.0.1"] (Ok None) (Ok None) (fun _ => Ok None)).
Proof. vm_compute. reflexivity. Qed.

(** X26. What [__init__] leaves in [self]: no host of
    [allowed_sync_hosts] is empty or has white space around, and the
    reseller prefix and the storage URL have none around either. *)
Theorem init_strips (py_int : string -> PyResult Z)
    (s3_identity identity : PyResult (option Dict))
    (validate : option string -> PyResult (option Dict))
    (conf : gmap string string) (self : MultiAuth) :
  init py_int s3_identity identity validate conf = Ok self ->
  Forall (fun h => PyStr.truthy h = true /\ PyStr.strip h = h)
    (allowed_sync_hosts self)
  /\ PyStr.strip (reseller_prefix self) = reseller_prefix self
  /\ PyStr.strip (storage_url self) = storage_url self.
Proof.
  unfold init. intros H.
  destruct (match conf !! "cache_timeout" with Some _ => _ | None => _ end);
    [| done].
  destruct (conf !! "swift_storage_url"); [| done].
  injection H as <-. simpl.
  split; [apply sync_hosts_clean |]. split; apply strip_idempotent.
Qed.

Lemma init_strips_witness :
  Forall (fun h => PyStr.truthy h = true /\ PyStr.strip h = h)
    ["127.0.0.1"; "10.0.0.1"]
  /\ PyStr.strip "AUTH" = "AUTH"
  /\ PyStr.strip "http://127.0.0.1:8080/v1" = "http://127.0.0.1:8080/v1".
Proof.
  exact (init_strips decimal_digits (Ok None) (Ok None) (fun _ => Ok None)
           sample_conf _ init_sample_conf).
Defined.

(** X27. Without [swift_storage_url] in the configuration [__init__]
    raises: [AttributeError], when [cache_timeout] is left out too. *)
Theorem init_requires_storage_url (py_int : string -> PyResult Z)
    (s3_identity identity : PyResult (option Dict))
    (validate : option string -> PyResult (option Dict))
    (conf : gmap string string) :
  conf !! "swift_storage_url" = None ->
  (exists e, init py_int s3_identity identity validate conf = Raised e)
  /\ (conf !! "cache_timeout" = None ->
      init py_int s3_identity identity validate conf = Raised AttributeError).
Proof.
  intros H. unfold init. rewrite H. split.
  - destruct (match conf !! "cache_timeout" with Some _ => _ | None => _ end);
      eauto.
  - by intros ->.
Qed.

Lemma init_requires_storage_url_witness :
  init decimal_digits (Ok None) (Ok None) (fun _ => Ok None) conf_without_url
  = Raised AttributeError.
Proof.
  apply (init_requires_storage_url decimal_digits (Ok None) (Ok None)
           (fun _ => Ok None) conf_without_url); vm_compute; reflexivity.
Defined.

Lemma opt_mem_nil x : opt_mem x [] = false.
Proof. by destruct x. Qed.

Lemma split_blank s :
  all_chars (fun c => PyStr.is_space c || Ascii.eqb c ",") s = true ->
  Forall (fun h => all_chars PyStr.is_space h = true)
    (PyStr.split "," None s).
Proof.
  induction s as [| c s IH]; simpl; intros H.
  - by constructor.
  - apply andb_true_iff in H as [Hc Hs]. specialize (IH Hs).
    rewrite split_cons. destruct (Ascii.eqb c ",") eqn:Hsep.
    + by constructor.
    + rewrite orb_false_r in Hc.
      destruct (PyStr.split "," None s) as [| h t].
      * constructor; [simpl; by rewrite Hc | done].
      * inversion IH; subst. constructor; [simpl; by rewrite Hc | done].
Qed.

Lemma strip_blank s :
  all_chars PyStr.is_space s = true -> PyStr.strip s = EmptyString.
Proof.
  unfold PyStr.strip. induction s as [| c s IH]; [done |]. simpl.
  intros H. apply andb_true_iff in H as [-> Hs]. by apply IH.
Qed.

Lemma sync_hosts_blank setting :
  all_chars (fun c => PyStr.is_space c || Ascii.eqb c ",") setting = true ->
  sync_hosts setting = [].
Proof.
  intros H. apply split_blank in H. unfold sync_hosts.
  induction H as [| h t Hh Ht IH]; [done |]. simpl.
  by rewrite (strip_blank _ Hh).
Qed.

(** X28. An [allowed_sync_hosts] made of white space and commas only
    switches container sync off: the test of [authorize] fails for every
    request. *)
Theorem init_no_sync_hosts (py_int : string -> PyResult Z)
    (s3_identity identity : PyResult (option Dict))
    (validate : option string -> PyResult (option Dict))
    (conf : gmap string string) (self : MultiAuth) (setting : string)
    (req : Request) :
  init py_int s3_identity identity validate conf = Ok self ->
  conf !! "allowed_sync_hosts" = Some setting ->
  all_chars (fun c => PyStr.is_space c || Ascii.eqb c ",") setting = true ->
  container_sync_allowed self req = false.
Proof.
  unfold init. intros H Hh Hblank.
  destruct (match conf !! "cache_timeout" with Some _ => _ | None => _ end);
    [| done].
  destruct (conf !! "swift_storage_url"); [| done].
  injection H as <-. unfold container_sync_allowed. simpl. rewrite Hh.
  simpl. rewrite (sync_hosts_blank _ Hblank), !opt_mem_nil.
  by rewrite andb_false_r.
Qed.

Lemma init_no_sync_hosts_witness :
  container_sync_allowed
    (MkMultiAuth "AUTH" 86400 "http://127.0.0.1:8080/v1" []
       (Ok None) (Ok None) (fun _ => Ok None)) sync_request = false.
Proof.
  apply (init_no_sync_hosts decimal_digits (Ok None) (Ok None)
           (fun _ => Ok None) conf_without_hosts _ " , " sync_request).
  - vm_compute. reflexivity.
  - vm_compute. reflexivity.
  - reflexivity.
Defined.

(** X29. Without [reseller_prefix] in the configuration the account
    segment of the path is the account: the identity of that account owns
    it. *)
Theorem init_without_prefix_owner (py_int : string -> PyResult Z)
    (s3_identity identity : PyResult (option Dict))
    (validate : option string -> PyResult (option Dict))
    (conf : gmap string string) (self : MultiAuth) (req : Request)
    (version container obj : option string) (account : string) (d : Dict) :
  init py_int s3_identity identity validate conf = Ok self ->
  conf !! "reseller_prefix" = None ->
  Swift.split_path (path req) 1 4
  = Ok [version; Some account; container; obj] ->
  PyStr.truthy account = true ->
  mauth_identity (environ req) = Some d ->
  d_account d = Some account ->
  authorize self req = Ok (Allow, set_owner true (environ req)).
Proof.
  unfold init. intros H Hp Hsplit Ht Hid Hacc.
  destruct (match conf !! "cache_timeout" with Some _ => _ | None => _ end);
    [| done].
  destruct (conf !! "swift_storage_url"); [| done].
  injection H as <-. apply authorize_owns.
  exists version, account, container, obj.
  split; [done |]. split; [done |]. rewrite Hp. simpl.
  split; [by destruct account |].
  by rewrite Hid.
Qed.

Lemma init_without_prefix_owner_witness :
  authorize
    (MkMultiAuth "" 86400 "http://127.0.0.1:8080/v1" ["127.0.0.1"]
       (Ok None) (Ok None) (fun _ => Ok None)) alice_without_prefix
  = Ok (Allow, set_owner true (environ alice_without_prefix)).
Proof.
  apply (init_without_prefix_owner decimal_digits (Ok None) (Ok None)
           (fun _ => Ok None) conf_without_prefix _ alice_without_prefix
           (Some "v1") (Some "c1") None "alice" alice).
  - vm_compute. reflexivity.
  - vm_compute. reflexivity.
  - vm_compute. reflexivity.
  - reflexivity.
  - reflexivity.
  - reflexivity.
Defined.

(** X30. The class without extension: [validate_token] has no parameter
    for the token, so a request with a token that memcache does not hold
    ends with [TypeError]. *)
Theorem interface_validate_token_raises (self : MultiAuth) (mc : Memcache)
    (now : Z) (env : Env) (tok : string) :
  validate_token self = interface_validate_token ->
  is_token_request env tok ->
  memcache_get mc ("mauth_token/" +:+ tok) = None ->
  call self (Some mc) now env
  = (Failed TypeError, [CallValidateToken (Some tok)]).
Proof.
  intros Hv Hreq Hget.
  rewrite (call_token_request _ _ _ _ _ Hreq), Hget. simpl.
  unfold validated. by rewrite Hv.
Qed.

Lemma interface_validate_token_raises_witness :
  call sample_interface (Some empty_cache) sample_now with_token_T2
  = (Failed TypeError, [CallValidateToken (Some "T2")]).
Proof.
  apply (interface_validate_token_raises sample_interface empty_cache
           sample_now with_token_T2 "T2" eq_refl with_token_T2_kind).
  vm_compute. reflexivity.
Defined.
